(** * Spaced-repetition scheduler of the AI learning assistant

    A shallow embedding of the revision-schedule functions of
    [src/services/firebaseService.ts] ([saveRevisionSchedule],
    [getRevisionSchedules], [getDueRevisions], [updateRevisionAfterReview],
    [createRevisionSchedulesForContent], [deleteStoredContent]) and the
    properties of the scheduler that hold, or fail, on them; then of the
    functions around them in the same file: the stored contents
    ([saveStoredContent], [getStoredContents], [getStoredContent]), the
    topics to revise ([getTopicsForRevision]), the learning progress
    ([getLearningProgress], [updateLearningProgress],
    [updateTopicPerformance]) and the quiz attempts ([saveQuizAttempt],
    [updateLearningProgressAfterQuiz]).

    - JavaScript numbers are IEEE-754 binary64 values ([spec_float] with
      precision 53 and maximal exponent 1024); arithmetic is the correctly
      rounded arithmetic of [SpecFloat].
    - The Firestore database, the clock, the time zone, the console and
      the outcome of each request to the store are the fields of a
      [World]; the
      asynchronous functions are computations in a state-and-exception
      monad over it ([await] is sequencing, a rejected promise is a
      thrown error). *)

From Stdlib Require Import ZArith Lia Bool SpecFloat.
From stdpp Require Import gmap strings list fin_maps infinite sorting.

Open Scope Z_scope.

(** ** JavaScript numbers *)

Abbreviation number := spec_float.

Definition prec : Z := 53.
Definition emax : Z := 1024.

(** The number denoted by an integer literal. *)
Definition ofZ (n : Z) : number := binary_normalize prec emax n 0 false.

(** The numeric literals of the source.  A decimal literal denotes the
    binary64 value nearest to it; [literals_correctly_rounded] below checks
    each against the correctly rounded quotient. *)
Definition n0 : number := S754_zero false.
Definition n1 : number := S754_finite false 4503599627370496 (-52).
Definition n3 : number := S754_finite false 6755399441055744 (-51).
Definition n5 : number := S754_finite false 5629499534213120 (-50).
Definition n6 : number := S754_finite false 6755399441055744 (-50).
Definition n10 : number := S754_finite false 5629499534213120 (-49).
Definition n100 : number := S754_finite false 7036874417766400 (-46).
Definition n0_1 : number := S754_finite false 7205759403792794 (-56).
Definition n0_08 : number := S754_finite false 5764607523034235 (-56).
Definition n0_02 : number := S754_finite false 5764607523034235 (-58).
Definition n1_3 : number := S754_finite false 5854679515581645 (-52).
Definition n2_5 : number := S754_finite false 5629499534213120 (-51).

Definition add : number -> number -> number := SFadd prec emax.
Definition sub : number -> number -> number := SFsub prec emax.
Definition mul : number -> number -> number := SFmul prec emax.
Definition div : number -> number -> number := SFdiv prec emax.

(** [x < y], [x <= y] and [x === y] on numbers. *)
Definition ltb : number -> number -> bool := SFltb.
Definition leb : number -> number -> bool := SFleb.
Definition strict_eq : number -> number -> bool := SFeqb.

Definition isNaN (x : number) : bool :=
  match x with S754_nan => true | _ => false end.

Definition isPosZero (x : number) : bool :=
  match x with S754_zero false => true | _ => false end.

Definition isNegZero (x : number) : bool :=
  match x with S754_zero true => true | _ => false end.

(** [Math.max(a, b)]: NaN if either is NaN; otherwise the larger, with
    [+0] above [-0]. *)
Definition Math_max (a b : number) : number :=
  if isNaN a || isNaN b then S754_nan
  else if ltb a b || (isPosZero b && isNegZero a) then b else a.

(** [Math.min(a, b)]: NaN if either is NaN; otherwise the smaller, with
    [-0] below [+0]. *)
Definition Math_min (a b : number) : number :=
  if isNaN a || isNaN b then S754_nan
  else if ltb b a || (isNegZero b && isPosZero a) then b else a.

(** [Math.round(x)]: the integer [floor (x + 1/2)], computed exactly; NaN,
    the infinities and the zeros are returned as they are, and a result
    that is zero keeps the sign of [x]. *)
Definition Math_round (x : number) : number :=
  match x with
  | S754_finite s m e =>
      if 0 <=? e then x
      else
        let v := cond_Zopp s (Zpos m) in
        let n := Z.shiftr (2 * v + 2 ^ (- e)) (1 - e) in
        if n =? 0 then S754_zero s else ofZ n
  | _ => x
  end.

(** ** Dates and Firestore timestamps *)

(** A [Date] holds a time value in milliseconds since the epoch, or is an
    invalid date. *)
Inductive Date : Type :=
  | DateAt (t : Z)
  | InvalidDate.

Definition msPerDay : Z := 86400000.

(** The integral part of a number; none for NaN and the infinities. *)
Definition toInteger (x : number) : option Z :=
  match x with
  | S754_zero _ => Some 0
  | S754_finite s m e =>
      Some (cond_Zopp s (if 0 <=? e then Z.shiftl (Zpos m) e
                         else Z.shiftr (Zpos m) (- e)))
  | _ => None
  end.

(** A time value outside of +-8.64e15 ms is not a date. *)
Definition TimeClip (t : Z) : Date :=
  if Z.abs t <=? 8640000000000000 then DateAt t else InvalidDate.

(** The time zone of the machine, as ECMAScript has it: [tza t true] is
    the offset of local time from UTC, in milliseconds, at the UTC time
    value [t], and [tza l false] the offset at the local time value [l]. *)
Definition TimeZone : Type := Z -> bool -> Z.

(** [LocalTime(t)] and [UTC(l)]. *)
Definition LocalTime (tza : TimeZone) (t : Z) : Z := t + tza t true.

Definition UTC (tza : TimeZone) (l : Z) : Z := l - tza l false.

(** [d.setDate(d.getDate() + n)]: the date [n] calendar days later in
    local time, at the same local time of day: [setDate] moves the local
    time by whole days and turns the result into UTC with the offset that
    holds then.  The source calls it with an integral [n] only (1, 6 or a
    result of [Math.round]), or one that is not finite. *)
Definition Date_addDays (tza : TimeZone) (d : Date) (n : number) : Date :=
  match d, toInteger n with
  | DateAt t, Some k => TimeClip (UTC tza (LocalTime tza t + k * msPerDay))
  | _, _ => InvalidDate
  end.

(** A Firestore [Timestamp], at the millisecond precision of a [Date]. *)
Definition Timestamp : Type := Z.

(** [Timestamp.fromDate]: the SDK accepts the years 1 to 9999 only. *)
Definition Timestamp_fromDate (d : Date) : option Timestamp :=
  match d with
  | DateAt t =>
      let seconds := t / 1000 in
      if (-62135596800 <=? seconds) && (seconds <? 253402300800)
      then Some t else None
  | InvalidDate => None
  end.

Definition Timestamp_toDate (ts : Timestamp) : Date := DateAt ts.

(** ** The data model ([src/types/index.ts]) *)

Inductive ScheduleType : Type := daily | weekly | monthly.

(** The fields of [RevisionSchedule] other than [id], over the
    representation [D] of dates: [Date] in the application, [Timestamp] in
    a stored document. *)
Record ScheduleData (D : Type) : Type := mkSchedule {
  userId : string;
  contentId : string;
  topicId : string;
  topicName : string;
  scheduleType : ScheduleType;
  nextReviewDate : D;
  lastReviewDate : option D;
  reviewCount : number;
  masteryLevel : number;
  interval : number;
  easeFactor : number
}.

Arguments mkSchedule {D}.
Arguments userId {D}.
Arguments contentId {D}.
Arguments topicId {D}.
Arguments topicName {D}.
Arguments scheduleType {D}.
Arguments nextReviewDate {D}.
Arguments lastReviewDate {D}.
Arguments reviewCount {D}.
Arguments masteryLevel {D}.
Arguments interval {D}.
Arguments easeFactor {D}.

Record RevisionSchedule : Type := mkRevisionSchedule {
  id : string;
  data : ScheduleData Date
}.

Inductive Difficulty : Type := easy | medium | hard.

Record ExtractedTopic : Type := mkTopic {
  topic_id : string;
  topic_name : string;
  topic_content : string;
  keyTerms : list string;
  difficulty : Difficulty;
  topic_masteryLevel : number;
  quizCount : number;
  lastQuizScore : option number
}.

Inductive FileType : Type := pdf | doc | docx | txt.

Record StoredContentData (D : Type) : Type := mkStoredContent {
  content_userId : string;
  title : string;
  fileName : string;
  content : string;
  summary : option string;
  topics : list ExtractedTopic;
  createdAt : D;
  lastRevisedAt : option D;
  fileType : FileType
}.

Arguments mkStoredContent {D}.

(** ** The world: database, clock, console and request outcomes *)

Inductive Error : Type :=
  | Unavailable          (* the store rejected the request *)
  | NotFound             (* [updateDoc] of a document that does not exist *)
  | InvalidArgument.     (* the SDK refused a value (a timestamp) *)

Record World : Type := mkWorld {
  revisionSchedules : gmap string (ScheduleData Timestamp);
  storedContent : gmap string (StoredContentData Timestamp);
  (* the reading of the clock, and by how much it advances after each of
     the next readings *)
  now : Z;
  ticks : list Z;
  (* the outcome of each of the next requests to the store: [true] when
     the request fails *)
  faults : list bool;
  (* the lines written by [console.error], latest first *)
  console : list string;
  (* the time zone of the machine *)
  zone : TimeZone
}.

Inductive Result (A : Type) : Type :=
  | Ok (a : A)
  | Throw (e : Error).

Arguments Ok {A}.
Arguments Throw {A}.

Definition M (A : Type) : Type := World -> Result A * World.

Definition ret {A} (a : A) : M A := fun w => (Ok a, w).

Definition throw {A} (e : Error) : M A := fun w => (Throw e, w).

Definition bind {A B} (m : M A) (f : A -> M B) : M B :=
  fun w =>
    match m w with
    | (Ok a, w') => f a w'
    | (Throw e, w') => (Throw e, w')
    end.

Declare Scope js_scope.
Delimit Scope js_scope with js.
Notation "'let*' x := m 'in' k" := (bind m (fun x => k))
  (at level 10, x name, m at level 100, k at level 200) : js_scope.
Notation "m ;;; k" := (bind m (fun _ => k))
  (at level 100, k at level 200, right associativity) : js_scope.
Open Scope js_scope.

(** [try { body } catch (error) { handler }]. *)
Definition try_catch {A} (body : M A) (handler : Error -> M A) : M A :=
  fun w =>
    match body w with
    | (Ok a, w') => (Ok a, w')
    | (Throw e, w') => handler e w'
    end.

(** [for (const x of xs) { await body(x) }]. *)
Fixpoint for_of {A} (xs : list A) (body : A -> M unit) : M unit :=
  match xs with
  | [] => ret tt
  | x :: xs' => body x ;;; for_of xs' body
  end.

Definition console_error (msg : string) : M unit :=
  fun w =>
    (Ok tt,
     mkWorld (revisionSchedules w) (storedContent w) (now w) (ticks w)
       (faults w) (msg :: console w) (zone w)).

(** [new Date()]: reads the clock, which then advances by the next tick. *)
Definition new_Date : M Date :=
  fun w =>
    (Ok (DateAt (now w)),
     mkWorld (revisionSchedules w) (storedContent w)
       (now w + hd 0 (ticks w)) (tl (ticks w)) (faults w) (console w)
       (zone w)).

(** [d.setDate(d.getDate() + n)], in the time zone of the machine. *)
Definition addDays (d : Date) (n : number) : M Date :=
  fun w => (Ok (Date_addDays (zone w) d n), w).

(** [Timestamp.fromDate(d)], which throws on a date the SDK refuses. *)
Definition fromDate (d : Date) : M Timestamp :=
  match Timestamp_fromDate d with
  | Some ts => ret ts
  | None => throw InvalidArgument
  end.

(** A round trip to the store: it fails when the next outcome says so. *)
Definition request : M unit :=
  fun w =>
    match faults w with
    | [] => (Ok tt, w)
    | b :: fs =>
        (if b then Throw Unavailable else Ok tt,
         mkWorld (revisionSchedules w) (storedContent w) (now w) (ticks w)
           fs (console w) (zone w))
    end.

(** A collection of the database. *)
Record Collection (D : Type) : Type := mkCollection {
  docs : World -> gmap string D;
  set_docs : gmap string D -> World -> World
}.

Arguments docs {D}.
Arguments set_docs {D}.

Definition revisionSchedulesC : Collection (ScheduleData Timestamp) :=
  mkCollection _ revisionSchedules
    (fun m w => mkWorld m (storedContent w) (now w) (ticks w) (faults w)
                  (console w) (zone w)).

Definition storedContentC : Collection (StoredContentData Timestamp) :=
  mkCollection _ storedContent
    (fun m w => mkWorld (revisionSchedules w) m (now w) (ticks w) (faults w)
                  (console w) (zone w)).

(** A document identifier: a string that [doc(db, c, id)] takes for the
    document [id] of the collection [c], that is, one that is not empty
    and has no slash.  The operations below are those on the document of
    such an identifier; [doc] refuses the empty string, and any path with
    an odd number of segments, with an error. *)
Fixpoint no_slash (s : string) : bool :=
  match s with
  | EmptyString => true
  | String c s' => negb (String.eqb (String c "") "/") && no_slash s'
  end.

Definition is_document_id (key : string) : bool :=
  negb (String.eqb key "") && no_slash key.

(** [getDoc(doc(db, c, id))]: the snapshot of the document, none when it
    does not exist. *)
Definition getDoc {D} (c : Collection D) (key : string) : M (option D) :=
  request ;;; fun w => (Ok (docs c w !! key), w).

(** [addDoc(collection(db, c), d)]: stores [d] under a new identifier. *)
Definition addDoc {D} (c : Collection D) (d : D) : M string :=
  request ;;;
  fun w =>
    let key := fresh (dom (docs c w)) in
    (Ok key, set_docs c (<[key := d]> (docs c w)) w).

(** [updateDoc(doc(db, c, id), fields)]: overwrites the given fields of an
    existing document, and fails on a document that does not exist. *)
Definition updateDoc {D} (c : Collection D) (key : string) (fields : D -> D)
  : M unit :=
  request ;;;
  fun w =>
    match docs c w !! key with
    | Some d => (Ok tt, set_docs c (<[key := fields d]> (docs c w)) w)
    | None => (Throw NotFound, w)
    end.

(** [deleteDoc(doc(db, c, id))]. *)
Definition deleteDoc {D} (c : Collection D) (key : string) : M unit :=
  request ;;;
  fun w => (Ok tt, set_docs c (delete key (docs c w)) w).

(** [orderBy('nextReviewDate', 'asc')]. *)
Fixpoint insert_by_date (x : string * ScheduleData Timestamp)
    (l : list (string * ScheduleData Timestamp))
  : list (string * ScheduleData Timestamp) :=
  match l with
  | [] => [x]
  | y :: l' =>
      if nextReviewDate (snd x) <=? nextReviewDate (snd y) then x :: l
      else y :: insert_by_date x l'
  end.

Definition orderBy_nextReviewDate
    (l : list (string * ScheduleData Timestamp))
  : list (string * ScheduleData Timestamp) :=
  foldr insert_by_date [] l.

(** [getDocs(query(collection(db, 'revisionSchedules'), where..., orderBy
    ('nextReviewDate', 'asc')))]: the documents that satisfy the [where]
    clauses, in ascending order of [nextReviewDate]. *)
Definition getDocs_revisionSchedules
    (where_ : ScheduleData Timestamp -> bool)
  : M (list (string * ScheduleData Timestamp)) :=
  request ;;;
  fun w =>
    (Ok (orderBy_nextReviewDate
           (filter (fun kd => where_ (snd kd) = true)
              (map_to_list (revisionSchedules w)))), w).

(** ** The revision-schedule functions ([src/services/firebaseService.ts]) *)

(** The stored form of a schedule: its dates as timestamps, an absent
    [lastReviewDate] as [null]. *)
Definition saveRevisionSchedule (schedule : ScheduleData Date) : M string :=
  try_catch
    (let* next := fromDate (nextReviewDate schedule) in
     let* last :=
       match lastReviewDate schedule with
       | Some d => let* ts := fromDate d in ret (Some ts)
       | None => ret None
       end in
     addDoc revisionSchedulesC
       (mkSchedule (userId schedule) (contentId schedule) (topicId schedule)
          (topicName schedule) (scheduleType schedule) next last
          (reviewCount schedule) (masteryLevel schedule) (interval schedule)
          (easeFactor schedule)))
    (fun error =>
       console_error "Error saving revision schedule:" ;;; throw error).

(** [{ id: doc.id, ...doc.data(), nextReviewDate: ....toDate(),
    lastReviewDate: ...?.toDate() }]. *)
Definition toRevisionSchedule (kd : string * ScheduleData Timestamp)
  : RevisionSchedule :=
  let d := snd kd in
  mkRevisionSchedule (fst kd)
    (mkSchedule (userId d) (contentId d) (topicId d) (topicName d)
       (scheduleType d) (Timestamp_toDate (nextReviewDate d))
       (Timestamp_toDate <$> lastReviewDate d)
       (reviewCount d) (masteryLevel d) (interval d) (easeFactor d)).

Definition getRevisionSchedules (userId_ : string)
  : M (list RevisionSchedule) :=
  try_catch
    (let* snapshot :=
       getDocs_revisionSchedules
         (fun d => bool_decide (userId d = userId_)) in
     ret (toRevisionSchedule <$> snapshot))
    (fun error =>
       console_error "Error getting revision schedules:" ;;; ret []).

Definition getDueRevisions (userId_ : string) : M (list RevisionSchedule) :=
  try_catch
    (let* now_ := new_Date in
     let* limit := fromDate now_ in
     let* snapshot :=
       getDocs_revisionSchedules
         (fun d => bool_decide (userId d = userId_)
                   && (nextReviewDate d <=? limit)) in
     ret (toRevisionSchedule <$> snapshot))
    (fun error =>
       console_error "Error getting due revisions:" ;;; ret []).

Definition updateRevisionAfterReview (scheduleId : string) (quality : number)
  : M unit :=
  try_catch
    (let* docSnap := getDoc revisionSchedulesC scheduleId in
     match docSnap with
     | None => ret tt
     | Some schedule =>
         (* SM-2 algorithm for spaced repetition *)
         let newEaseFactor :=
           add (easeFactor schedule)
             (sub n0_1
                (mul (sub n5 quality)
                   (add n0_08 (mul (sub n5 quality) n0_02)))) in
         let newEaseFactor := Math_max n1_3 newEaseFactor in
         let newInterval :=
           if ltb quality n3 then n1
           else if strict_eq (reviewCount schedule) n0 then n1
           else if strict_eq (reviewCount schedule) n1 then n6
           else Math_round (mul (interval schedule) newEaseFactor) in
         let* today := new_Date in
         let* nextReview := addDays today newInterval in
         let* reviewed := new_Date in
         let* lastTs := fromDate reviewed in
         let* nextTs := fromDate nextReview in
         updateDoc revisionSchedulesC scheduleId
           (fun d =>
              mkSchedule (userId d) (contentId d) (topicId d) (topicName d)
                (scheduleType d) nextTs (Some lastTs)
                (add (reviewCount schedule) n1)
                (Math_min n100
                   (Math_max n0
                      (add (masteryLevel schedule)
                         (mul (sub quality n2_5) n10))))
                newInterval newEaseFactor)
     end)
    (fun error =>
       console_error "Error updating revision schedule:" ;;; throw error).

(** The schedule that [createRevisionSchedulesForContent] builds for a
    topic. *)
Definition initialSchedule (userId_ contentId_ : string)
    (topic : ExtractedTopic) (tomorrow : Date) : ScheduleData Date :=
  mkSchedule userId_ contentId_ (topic_id topic) (topic_name topic) daily
    tomorrow None n0 n0 n1 n2_5.

Definition createRevisionSchedulesForContent (userId_ contentId_ : string)
    (topics_ : list ExtractedTopic) : M unit :=
  try_catch
    (let* today := new_Date in
     let* tomorrow := addDays today n1 in
     for_of topics_
       (fun topic =>
          let* _ :=
            saveRevisionSchedule
              (initialSchedule userId_ contentId_ topic tomorrow) in
          ret tt))
    (fun error => console_error "Error creating revision schedules:").

Definition deleteStoredContent (contentId_ : string) : M unit :=
  try_catch
    (deleteDoc storedContentC contentId_ ;;;
     (* Also delete related revision schedules *)
     let* schedules := getRevisionSchedules contentId_ in
     for_of schedules
       (fun schedule => deleteDoc revisionSchedulesC (id schedule)))
    (fun error =>
       console_error "Error deleting stored content:" ;;; throw error).

(** ** The scheduler as the specification words it *)

(** [x] is a zero or a finite number: neither NaN nor an infinity. *)
Definition isFinite (x : number) : bool :=
  match x with
  | S754_zero _ | S754_finite _ _ _ => true
  | _ => false
  end.

(** [lo <= x <= hi]. *)
Definition in_range (lo hi x : number) : bool := leb lo x && leb x hi.

(** [x] is a binary64 value: its mantissa and exponent are those of the
    format.  Every JavaScript number is one. *)
Definition is_binary64 (x : number) : bool := valid_binary prec emax x.

(** [x] is finite and below [2 ^ k] in magnitude. *)
Definition bounded_by (k : Z) (x : number) : Prop :=
  match x with
  | S754_zero _ => True
  | S754_finite _ m e => Zpos (digits2_pos m) + e <= k
  | _ => False
  end.

(** Step 1: [newEase = max(1.3, easeFactor + (0.1 - (5 - quality) *
    (0.08 + (5 - quality) * 0.02)))]. *)
Definition spec_newEase (easeFactor_ quality : number) : number :=
  Math_max n1_3
    (add easeFactor_
       (sub n0_1
          (mul (sub n5 quality) (add n0_08 (mul (sub n5 quality) n0_02))))).

(** Step 2: 1 on a failed recall ([quality < 3]); otherwise 1 for the
    first review, 6 for the second, and [round(interval * newEase)] from
    then on. *)
Definition spec_newInterval (reviewCount_ interval_ newEase quality : number)
  : number :=
  if ltb quality n3 then n1
  else if strict_eq reviewCount_ n0 then n1
  else if strict_eq reviewCount_ n1 then n6
  else Math_round (mul interval_ newEase).

Definition clamp (lo hi x : number) : number := Math_min hi (Math_max lo x).

(** Step 3: [newMastery = clamp(0, 100, masteryLevel + (quality - 2.5) *
    10)]. *)
Definition spec_newMastery (masteryLevel_ quality : number) : number :=
  clamp n0 n100 (add masteryLevel_ (mul (sub quality n2_5) n10)).

(** Step 4: the schedule that a review of quality [quality], recorded at
    [reviewedAt] with the next review at [nextReview], leaves in the
    store. *)
Definition spec_recordReview (schedule : ScheduleData Timestamp)
    (quality : number) (reviewedAt nextReview : Timestamp)
  : ScheduleData Timestamp :=
  let newEase := spec_newEase (easeFactor schedule) quality in
  mkSchedule (userId schedule) (contentId schedule) (topicId schedule)
    (topicName schedule) (scheduleType schedule) nextReview
    (Some reviewedAt) (add (reviewCount schedule) n1)
    (spec_newMastery (masteryLevel schedule) quality)
    (spec_newInterval (reviewCount schedule) (interval schedule) newEase
       quality)
    newEase.

(** The stored form of the schedule that the specification gives a new
    topic: daily, due at [tomorrow], never reviewed, mastery 0, interval 1
    and ease factor 2.5. *)
Definition spec_initialDoc (userId_ contentId_ : string)
    (topic : ExtractedTopic) (tomorrow : Timestamp)
  : ScheduleData Timestamp :=
  mkSchedule userId_ contentId_ (topic_id topic) (topic_name topic) daily
    tomorrow None n0 n0 n1 n2_5.

(** The next [n] requests to the store all succeed. *)
Definition requests_ok (n : nat) (w : World) : bool :=
  forallb negb (take n (faults w)).

(** The world after [n] requests and no other effect. *)
Definition after_requests (n : nat) (w : World) : World :=
  mkWorld (revisionSchedules w) (storedContent w) (now w) (ticks w)
    (drop n (faults w)) (console w) (zone w).

(** The collection after documents [ds] have been added one by one, each
    under a new identifier. *)
Definition add_all {D} (ds : list D) (m : gmap string D) : gmap string D :=
  foldl (fun m d => <[fresh (dom m) := d]> m) m ds.

(** The loop of [createRevisionSchedulesForContent]. *)
Definition create_loop (userId_ contentId_ : string) (tomorrow : Date)
    (topics_ : list ExtractedTopic) : M unit :=
  for_of topics_
    (fun topic =>
       let* _ :=
         saveRevisionSchedule
           (initialSchedule userId_ contentId_ topic tomorrow) in
       ret tt).

(** ** Sample data *)

(** A time zone without offset from UTC. *)
Definition utc : TimeZone := fun _ _ => 0.


(** A schedule in the exponential regime: two reviews done, interval of 6
    days, ease factor 2.5, mastery 50. *)
Definition sample_schedule : ScheduleData Timestamp :=
  mkSchedule "u1" "c1" "t1" "Binary search" daily 1700000000000
    (Some 1699481600000) (ofZ 2) (ofZ 50) n6 n2_5.

(** A store that holds the content ["c1"] of user ["u1"] and its schedule
    ["s1"], at a time when the clock stands still and every request
    succeeds. *)
Definition sample_world : World :=
  mkWorld {[ "s1" := sample_schedule ]}
    {[ "c1" := mkStoredContent "u1" "Algorithms" "algo.pdf" "..." None []
                 1699395200000 None pdf ]}
    1700000000000 [] [] [] utc.

(** The sample store when the second of the next requests fails. *)
Definition failing_world : World :=
  mkWorld (revisionSchedules sample_world) (storedContent sample_world)
    (now sample_world) [] [false; true] [] (zone sample_world).

(** The sample store when the clock advances by a millisecond at each of
    the next two readings. *)
Definition ticking_world : World :=
  mkWorld (revisionSchedules sample_world) (storedContent sample_world)
    (now sample_world) [1; 1] [] [] utc.

(** A time zone two hours ahead of UTC until the time value
    [1700040000000] and one hour ahead from then on, as where summer time
    ends; a local time that occurs twice is taken to be the first of the
    two. *)
Definition autumn : TimeZone :=
  fun t isUTC =>
    if isUTC then if t <? 1700040000000 then 7200000 else 3600000
    else if t <? 1700040000000 + 7200000 then 7200000 else 3600000.

(** The sample store on a machine in that time zone, some hours before the
    change. *)
Definition autumn_world : World :=
  mkWorld (revisionSchedules sample_world) (storedContent sample_world)
    (now sample_world) [] [] [] autumn.

(** The sample store when the next request fails. *)
Definition unreadable_world : World :=
  mkWorld (revisionSchedules sample_world) (storedContent sample_world)
    (now sample_world) [] [true] [] (zone sample_world).

Definition sample_topic (name : string) : ExtractedTopic :=
  mkTopic name name "" [] easy n0 n0 None.

(** A store with one schedule as [createRevisionSchedulesForContent]
    leaves it: no review yet, interval 1, ease factor 2.5, mastery 0. *)
Definition new_world : World :=
  mkWorld
    {[ "s0" := spec_initialDoc "u1" "c1" (sample_topic "Heaps") 1700086400000 ]}
    ∅ 1700086400000 [] [] [] utc.

(** One review after the other of the same schedule. *)
Definition review_all (scheduleId : string) (qualities : list number)
  : M unit :=
  for_of qualities (updateRevisionAfterReview scheduleId).

(** The numeric fields of a stored schedule: review count, mastery
    level, interval and ease factor. *)
Definition numeric_fields (w : World) (scheduleId : string)
  : option (number * number * number * number) :=
  (fun d => (reviewCount d, masteryLevel d, interval d, easeFactor d))
    <$> revisionSchedules w !! scheduleId.

(** ** Proof tools *)

(** The arithmetic and the dates stay folded when a run is simplified. *)
Arguments add : simpl never.
Arguments sub : simpl never.
Arguments mul : simpl never.
Arguments Math_max : simpl never.
Arguments Math_min : simpl never.
Arguments Math_round : simpl never.
Arguments Date_addDays : simpl never.
Arguments Timestamp_fromDate : simpl never.
Arguments spec_newEase : simpl never.
Arguments spec_newInterval : simpl never.
Arguments spec_newMastery : simpl never.

(** Unfolds the operations of the monad and of the store. *)
Ltac unfold_js :=
  unfold try_catch, getDoc, updateDoc, addDoc, deleteDoc,
    getDocs_revisionSchedules, fromDate, console_error, bind, request,
    new_Date, addDays, ret, throw in *.

(** ** More sample data *)

(** A second schedule of the same user, for another content, due a day
    after the first. *)
Definition other_schedule : ScheduleData Timestamp :=
  mkSchedule "u1" "c2" "t7" "Hash tables" daily 1700086400000 None n0 n0 n1
    n2_5.

(** The sample store with the two schedules. *)
Definition two_schedules_world : World :=
  mkWorld {[ "s1" := sample_schedule; "s2" := other_schedule ]}
    (storedContent sample_world) (now sample_world) [] [] []
    (zone sample_world).

(** ** Orders on dates *)

(** [a <= b] on dates: the order of their time values, false when either
    date is invalid. *)
Definition Date_le (a b : Date) : Prop :=
  match a, b with
  | DateAt x, DateAt y => x <= y
  | _, _ => False
  end.

(** [a] is due no later than [b]. *)
Definition due_before (a b : RevisionSchedule) : Prop :=
  Date_le (nextReviewDate (data a)) (nextReviewDate (data b)).

(** ** Stored contents ([saveStoredContent], [getStoredContent],
    [getStoredContents]) *)

Arguments content_userId {D}.
Arguments title {D}.
Arguments fileName {D}.
Arguments content {D}.
Arguments summary {D}.
Arguments topics {D}.
Arguments createdAt {D}.
Arguments lastRevisedAt {D}.
Arguments fileType {D}.

Record StoredContent : Type := mkStored {
  stored_id : string;
  stored : StoredContentData Date
}.

Definition saveStoredContent (content_ : StoredContentData Date) : M string :=
  try_catch
    (let* created := fromDate (createdAt content_) in
     let* revised :=
       match lastRevisedAt content_ with
       | Some d => let* ts := fromDate d in ret (Some ts)
       | None => ret None
       end in
     addDoc storedContentC
       (mkStoredContent (content_userId content_) (title content_)
          (fileName content_) (content content_) (summary content_)
          (topics content_) created revised (fileType content_)))
    (fun error =>
       console_error "Error saving stored content:" ;;; throw error).

(** [{ id: doc.id, ...doc.data(), createdAt: ....toDate(),
    lastRevisedAt: ...?.toDate() }]. *)
Definition toStoredContent (kd : string * StoredContentData Timestamp)
  : StoredContent :=
  let d := snd kd in
  mkStored (fst kd)
    (mkStoredContent (content_userId d) (title d) (fileName d) (content d)
       (summary d) (topics d) (Timestamp_toDate (createdAt d))
       (Timestamp_toDate <$> lastRevisedAt d) (fileType d)).

(** [orderBy('createdAt', 'desc')]. *)
Fixpoint insert_by_created (x : string * StoredContentData Timestamp)
    (l : list (string * StoredContentData Timestamp))
  : list (string * StoredContentData Timestamp) :=
  match l with
  | [] => [x]
  | y :: l' =>
      if createdAt (snd y) <=? createdAt (snd x) then x :: l
      else y :: insert_by_created x l'
  end.

Definition orderBy_createdAt_desc
    (l : list (string * StoredContentData Timestamp))
  : list (string * StoredContentData Timestamp) :=
  foldr insert_by_created [] l.

(** [getDocs(query(collection(db, 'storedContent'), where..., orderBy
    ('createdAt', 'desc')))]. *)
Definition getDocs_storedContent
    (where_ : StoredContentData Timestamp -> bool)
  : M (list (string * StoredContentData Timestamp)) :=
  request ;;;
  fun w =>
    (Ok (orderBy_createdAt_desc
           (filter (fun kd => where_ (snd kd) = true)
              (map_to_list (storedContent w)))), w).

Definition getStoredContents (userId_ : string) : M (list StoredContent) :=
  try_catch
    (let* snapshot :=
       getDocs_storedContent
         (fun d => bool_decide (content_userId d = userId_)) in
     ret (toStoredContent <$> snapshot))
    (fun error =>
       console_error "Error getting stored contents:" ;;; ret []).

Definition getStoredContent (contentId_ : string) : M (option StoredContent) :=
  try_catch
    (let* docSnap := getDoc storedContentC contentId_ in
     match docSnap with
     | Some d => ret (Some (toStoredContent (contentId_, d)))
     | None => ret None
     end)
    (fun error =>
       console_error "Error getting stored content:" ;;; ret None).

(** ** The topics to revise ([getTopicsForRevision]) *)

Definition n7 : number := S754_finite false 7881299347898368 (-50).

(** [a <= b] on dates, as a test. *)
Definition Date_leb (a b : Date) : bool :=
  match a, b with
  | DateAt x, DateAt y => x <=? y
  | _, _ => false
  end.

Record RevisionItem : Type := mkItem {
  item_topic : ExtractedTopic;
  item_schedule : RevisionSchedule;
  item_content : StoredContent
}.

(** [for (const x of xs) { ... results.push(...) ... }]: a loop that fills
    an array. *)
Fixpoint for_of_collect {A B} (xs : list A) (results : list B)
    (body : A -> list B -> M (list B)) : M (list B) :=
  match xs with
  | [] => ret results
  | x :: xs' =>
      let* results' := body x results in for_of_collect xs' results' body
  end.

(** What the loop of [getTopicsForRevision] does with one schedule. *)
Definition collect_topic (schedule : RevisionSchedule)
    (results : list RevisionItem) : M (list RevisionItem) :=
  let* content_ := getStoredContent (contentId (data schedule)) in
  match content_ with
  | Some c =>
      match List.find
              (fun t => String.eqb (topic_id t) (topicId (data schedule)))
              (topics (stored c))
      with
      | Some topic => ret (results ++ [mkItem topic schedule c])
      | None => ret results
      end
  | None => ret results
  end.

Section DateBuiltins.

(** The calendar arithmetic of [Date]: the day of the month and the month
    of a date in local time, and the date with another day of the month or
    another month. *)
Variables Date_getDate Date_getMonth : Date -> number.
Variables Date_setDate Date_setMonth : Date -> number -> Date.

Definition getTopicsForRevision (userId_ : string)
    (scheduleType_ : ScheduleType) : M (list RevisionItem) :=
  try_catch
    (let* now_ := new_Date in
     let* dateLimit := new_Date in
     let dateLimit :=
       match scheduleType_ with
       | daily => Date_setDate dateLimit (add (Date_getDate now_) n1)
       | weekly => Date_setDate dateLimit (add (Date_getDate now_) n7)
       | monthly => Date_setMonth dateLimit (add (Date_getMonth now_) n1)
       end in
     let* schedules := getRevisionSchedules userId_ in
     let dueSchedules :=
       filter
         (fun s => Date_leb (nextReviewDate (data s)) dateLimit = true)
         schedules in
     for_of_collect dueSchedules [] collect_topic)
    (fun error =>
       console_error "Error getting topics for revision:" ;;; ret []).

(** The date up to which [getTopicsForRevision] looks ahead when it is
    called in world [w]: the second reading of the clock, moved by the day
    of the month or the month of the first. *)
Definition dateLimit_at (scheduleType_ : ScheduleType) (w : World) : Date :=
  let now_ := DateAt (now w) in
  let dateLimit := DateAt (now w + hd 0 (ticks w)) in
  match scheduleType_ with
  | daily => Date_setDate dateLimit (add (Date_getDate now_) n1)
  | weekly => Date_setDate dateLimit (add (Date_getDate now_) n7)
  | monthly => Date_setMonth dateLimit (add (Date_getMonth now_) n1)
  end.

End DateBuiltins.

(** The item of a schedule: the content stored under its [contentId] and,
    in it, the first topic that has its [topicId]. *)
Definition revision_item (sc : gmap string (StoredContentData Timestamp))
    (schedule : RevisionSchedule) : option RevisionItem :=
  match sc !! contentId (data schedule) with
  | Some cd =>
      match List.find
              (fun t => String.eqb (topic_id t) (topicId (data schedule)))
              (topics cd)
      with
      | Some topic =>
          Some (mkItem topic schedule
                  (toStoredContent (contentId (data schedule), cd)))
      | None => None
      end
  | None => None
  end.

(** Every one of the next requests to the store succeeds. *)
Definition store_answers (w : World) : bool := forallb negb (faults w).

(** A calendar for the examples, without offset from UTC: the clock reads
    the 14th of a month, and setting the day of the month moves a date by
    whole days. *)
Definition sample_getDate (_ : Date) : number := ofZ 14.
Definition sample_getMonth (_ : Date) : number := n10.
Definition sample_setDate (d : Date) (n : number) : Date :=
  Date_addDays utc d (sub n (ofZ 14)).
Definition sample_setMonth (d : Date) (n : number) : Date :=
  Date_addDays utc d (mul (sub n n10) (ofZ 30)).

(** The sample store when the content ["c1"] has the topic ["t1"] of the
    sample schedule and a second topic. *)
Definition revision_world : World :=
  mkWorld {[ "s1" := sample_schedule; "s2" := other_schedule ]}
    {[ "c1" := mkStoredContent "u1" "Algorithms" "algo.pdf" "..." None
                 [sample_topic "t0"; sample_topic "t1"] 1699395200000 None
                 pdf ]}
    1700000000000 [] [] [] utc.

(** [a] was created no earlier than [b]. *)
Definition newer_first (a b : StoredContent) : Prop :=
  Date_le (createdAt (stored b)) (createdAt (stored a)).

(** A content of user ["u1"] that is not stored yet, with one topic. *)
Definition sample_content : StoredContentData Date :=
  mkStoredContent "u1" "Graphs" "graphs.pdf" "..." (Some "Paths and trees")
    [sample_topic "t1"] (DateAt 1700000000000) None pdf.

(** The store of [revision_world] when the content ["c2"] of the second
    schedule is stored too. *)
Definition two_contents_world : World :=
  mkWorld (revisionSchedules revision_world)
    (<[ "c2" := mkStoredContent "u1" "Data structures" "ds.pdf" "..." None
                  [sample_topic "t7"] 1699395200001 None pdf ]>
       (storedContent revision_world))
    1700000000000 [] [] [] (zone revision_world).

(** The store that a run on [autumn_world] has left, read twenty-four
    and a half hours later, when summer time has ended in between. *)
Definition a_day_later (w : World) : World :=
  mkWorld (revisionSchedules w) (storedContent w)
    (now autumn_world + 88200000) [] [] [] autumn.

(** ** Learning progress ([getLearningProgress], [updateLearningProgress],
    [updateTopicPerformance]) *)

Definition n60 : number := S754_finite false 8444249301319680 (-47).
Definition n70 : number := S754_finite false 4925812092436480 (-46).

(** The progress on a topic, with its date [lastStudied] of type [D]. *)
Record TopicProgress (D : Type) : Type := mkTopicProgress {
  tp_topic : string;
  subject : string;
  tp_masteryLevel : number;
  quizzesTaken : number;
  tp_averageScore : number;
  lastStudied : D;
  conceptsCovered : list string
}.

Arguments mkTopicProgress {D}.
Arguments tp_topic {D}.
Arguments subject {D}.
Arguments tp_masteryLevel {D}.
Arguments quizzesTaken {D}.
Arguments tp_averageScore {D}.
Arguments lastStudied {D}.
Arguments conceptsCovered {D}.

(** The progress of a user, with its date [lastStudyDate] of type [D] and
    its topics of type [T]. *)
Record LearningProgress (D T : Type) : Type := mkLearningProgress {
  lp_userId : string;
  lp_topics : T;
  totalQuizzesTaken : number;
  averageScore : number;
  streakDays : number;
  lastStudyDate : D;
  studyTimeTotal : number;
  weakTopics : list string;
  strongTopics : list string
}.

Arguments mkLearningProgress {D T}.
Arguments lp_userId {D T}.
Arguments lp_topics {D T}.
Arguments totalQuizzesTaken {D T}.
Arguments averageScore {D T}.
Arguments streakDays {D T}.
Arguments lastStudyDate {D T}.
Arguments studyTimeTotal {D T}.
Arguments weakTopics {D T}.
Arguments strongTopics {D T}.

(** The progress as the application holds it. *)
Definition Progress : Type := LearningProgress Date (list (TopicProgress Date)).

(** The progress as a document of the collection [learningProgress]: its
    dates are timestamps, and [getLearningProgress] reckons with a document
    that lacks [lastStudyDate], [topics], or the [lastStudied] of a
    topic. *)
Definition StoredProgress : Type :=
  LearningProgress (option Timestamp)
    (option (list (TopicProgress (option Timestamp)))).

(** A [Partial<LearningProgress>]: the fields that are given. *)
Record ProgressUpdates (D : Type) : Type := mkUpdates {
  upd_userId : option string;
  upd_topics : option (list (TopicProgress D));
  upd_totalQuizzesTaken : option number;
  upd_averageScore : option number;
  upd_streakDays : option number;
  upd_lastStudyDate : option D;
  upd_studyTimeTotal : option number;
  upd_weakTopics : option (list string);
  upd_strongTopics : option (list string)
}.

Arguments mkUpdates {D}.
Arguments upd_userId {D}.
Arguments upd_topics {D}.
Arguments upd_totalQuizzesTaken {D}.
Arguments upd_averageScore {D}.
Arguments upd_streakDays {D}.
Arguments upd_lastStudyDate {D}.
Arguments upd_studyTimeTotal {D}.
Arguments upd_weakTopics {D}.
Arguments upd_strongTopics {D}.

(** One entry of the [topicResults] of a quiz. *)
Record TopicResult : Type := mkTopicResult {
  result_topic : string;
  correct : number;
  total : number
}.

(** An attempt at a quiz, with its date [completedAt] of type [D]. *)
Record QuizAttempt (D : Type) : Type := mkQuizAttempt {
  quizId : string;
  attempt_userId : string;
  answers : list number;
  score : number;
  totalQuestions : number;
  completedAt : D;
  timeSpent : number
}.

Arguments mkQuizAttempt {D}.
Arguments quizId {D}.
Arguments attempt_userId {D}.
Arguments answers {D}.
Arguments score {D}.
Arguments totalQuestions {D}.
Arguments completedAt {D}.
Arguments timeSpent {D}.

(** *** The world with the collections [learningProgress] and
    [quizAttempts] *)

Record ProgressWorld : Type := mkProgressWorld {
  learningProgress : gmap string StoredProgress;
  quizAttempts : gmap string (QuizAttempt Timestamp);
  (* the other collections, the clock, the console and the outcomes of the
     next requests *)
  rest : World
}.

(** Computations on that world. *)
Definition P (A : Type) : Type := ProgressWorld -> Result A * ProgressWorld.

Definition P_ret {A} (a : A) : P A := fun pw => (Ok a, pw).

Definition P_throw {A} (e : Error) : P A := fun pw => (Throw e, pw).

Definition P_bind {A B} (m : P A) (f : A -> P B) : P B :=
  fun pw =>
    match m pw with
    | (Ok a, pw') => f a pw'
    | (Throw e, pw') => (Throw e, pw')
    end.

(** A computation that touches neither [learningProgress] nor
    [quizAttempts]. *)
Definition lift {A} (m : M A) : P A :=
  fun pw =>
    let (r, w') := m (rest pw) in
    (r, mkProgressWorld (learningProgress pw) (quizAttempts pw) w').

Declare Scope progress_scope.
Delimit Scope progress_scope with progress.
Notation "'let*' x := m 'in' k" := (P_bind m (fun x => k))
  (at level 10, x name, m at level 100, k at level 200) : progress_scope.
Notation "m ;;; k" := (P_bind m (fun _ => k))
  (at level 100, k at level 200, right associativity) : progress_scope.
Open Scope progress_scope.

(** [try { body } catch (error) { handler }]. *)
Definition P_try_catch {A} (body : P A) (handler : Error -> P A) : P A :=
  fun pw =>
    match body pw with
    | (Ok a, pw') => (Ok a, pw')
    | (Throw e, pw') => handler e pw'
    end.

(** [xs.map(f)], for an [f] that reads the clock or throws. *)
Fixpoint P_map {A B} (f : A -> P B) (xs : list A) : P (list B) :=
  match xs with
  | [] => P_ret []
  | x :: xs' =>
      let* y := f x in
      let* ys := P_map f xs' in
      P_ret (y :: ys)
  end.

(** [xs.forEach(body)], for a [body] that updates a local variable. *)
Fixpoint P_forEach {A S} (xs : list A) (s : S) (body : A -> S -> P S)
  : P S :=
  match xs with
  | [] => P_ret s
  | x :: xs' => let* s' := body x s in P_forEach xs' s' body
  end.

(** [getDoc(doc(db, 'learningProgress', key))], for a document identifier
    [key], as the two operations after it. *)
Definition getDoc_learningProgress (key : string)
  : P (option StoredProgress) :=
  lift request ;;; fun pw => (Ok (learningProgress pw !! key), pw).

(** [setDoc(doc(db, 'learningProgress', key), d)]: writes the document,
    over the one that exists. *)
Definition setDoc_learningProgress (key : string) (d : StoredProgress)
  : P unit :=
  lift request ;;;
  fun pw =>
    (Ok tt,
     mkProgressWorld (<[key := d]> (learningProgress pw)) (quizAttempts pw)
       (rest pw)).

(** The document [d] with the fields of [u] written over its own. *)
Definition set_fields (u : ProgressUpdates Timestamp) (d : StoredProgress)
  : StoredProgress :=
  mkLearningProgress
    (default (lp_userId d) (upd_userId u))
    (match upd_topics u with
     | Some ts =>
         Some ((fun t =>
                  mkTopicProgress (tp_topic t) (subject t)
                    (tp_masteryLevel t) (quizzesTaken t) (tp_averageScore t)
                    (Some (lastStudied t)) (conceptsCovered t)) <$> ts)
     | None => lp_topics d
     end)
    (default (totalQuizzesTaken d) (upd_totalQuizzesTaken u))
    (default (averageScore d) (upd_averageScore u))
    (default (streakDays d) (upd_streakDays u))
    (match upd_lastStudyDate u with
     | Some ts => Some ts
     | None => lastStudyDate d
     end)
    (default (studyTimeTotal d) (upd_studyTimeTotal u))
    (default (weakTopics d) (upd_weakTopics u))
    (default (strongTopics d) (upd_strongTopics u)).

(** [updateDoc(doc(db, 'learningProgress', key), updateData)]: overwrites
    the given fields of an existing document, and fails on a document that
    does not exist. *)
Definition updateDoc_learningProgress (key : string)
    (updateData : ProgressUpdates Timestamp) : P unit :=
  lift request ;;;
  fun pw =>
    match learningProgress pw !! key with
    | Some d =>
        (Ok tt,
         mkProgressWorld
           (<[key := set_fields updateData d]> (learningProgress pw))
           (quizAttempts pw) (rest pw))
    | None => (Throw NotFound, pw)
    end.

(** *** The functions *)

(** [x?.toDate() || new Date()]. *)
Definition toDate_or_now (x : option Timestamp) : P Date :=
  match x with
  | Some ts => P_ret (Timestamp_toDate ts)
  | None => lift new_Date
  end.

Definition getLearningProgress (userId_ : string) : P (option Progress) :=
  P_try_catch
    (let* docSnap := getDoc_learningProgress userId_ in
     match docSnap with
     | Some data_ =>
         let* lastStudyDate_ := toDate_or_now (lastStudyDate data_) in
         let* topics_ :=
           match lp_topics data_ with
           | Some ts =>
               P_map
                 (fun t =>
                    let* lastStudied_ := toDate_or_now (lastStudied t) in
                    P_ret
                      (mkTopicProgress (tp_topic t) (subject t)
                         (tp_masteryLevel t) (quizzesTaken t)
                         (tp_averageScore t) lastStudied_
                         (conceptsCovered t)))
                 ts
           | None => P_ret []
           end in
         P_ret
           (Some
              (mkLearningProgress (lp_userId data_) topics_
                 (totalQuizzesTaken data_) (averageScore data_)
                 (streakDays data_) lastStudyDate_ (studyTimeTotal data_)
                 (weakTopics data_) (strongTopics data_)))
     | None =>
         let* today := lift new_Date in
         let initialProgress : Progress :=
           mkLearningProgress userId_ [] n0 n0 n0 today n0 [] [] in
         let* ts := lift (fromDate (lastStudyDate initialProgress)) in
         setDoc_learningProgress userId_
           (mkLearningProgress (lp_userId initialProgress) (Some [])
              (totalQuizzesTaken initialProgress)
              (averageScore initialProgress) (streakDays initialProgress)
              (Some ts) (studyTimeTotal initialProgress)
              (weakTopics initialProgress)
              (strongTopics initialProgress)) ;;;
         P_ret (Some initialProgress)
     end)
    (fun error =>
       lift (console_error "Error getting learning progress:") ;;;
       P_ret None).

Definition updateLearningProgress (userId_ : string)
    (updates : ProgressUpdates Date) : P unit :=
  P_try_catch
    (let* lastStudyDate_ :=
       match upd_lastStudyDate updates with
       | Some d => let* ts := lift (fromDate d) in P_ret (Some ts)
       | None => P_ret None
       end in
     let* topics_ :=
       match upd_topics updates with
       | Some ts =>
           let* ts' :=
             P_map
               (fun t =>
                  let* lastStudied_ := lift (fromDate (lastStudied t)) in
                  P_ret
                    (mkTopicProgress (tp_topic t) (subject t)
                       (tp_masteryLevel t) (quizzesTaken t)
                       (tp_averageScore t) lastStudied_
                       (conceptsCovered t)))
               ts in
           P_ret (Some ts')
       | None => P_ret None
       end in
     updateDoc_learningProgress userId_
       (mkUpdates (upd_userId updates) topics_
          (upd_totalQuizzesTaken updates) (upd_averageScore updates)
          (upd_streakDays updates) lastStudyDate_
          (upd_studyTimeTotal updates) (upd_weakTopics updates)
          (upd_strongTopics updates)))
    (fun error =>
       lift (console_error "Error updating learning progress:") ;;;
       P_throw error).

(** The body of the first [forEach] of [updateTopicPerformance]: the
    result of a quiz on one topic goes into [updatedTopics]. *)
Definition record_result (result : TopicResult)
    (updatedTopics : list (TopicProgress Date))
  : P (list (TopicProgress Date)) :=
  let percentage := mul (div (correct result) (total result)) n100 in
  match
    list_find (fun t => tp_topic t = result_topic result) updatedTopics
  with
  | Some (existingIndex, existing) =>
      let newQuizCount := add (quizzesTaken existing) n1 in
      let newAvgScore :=
        div (add (mul (tp_averageScore existing) (quizzesTaken existing))
               percentage)
          newQuizCount in
      let* today := lift new_Date in
      P_ret
        (<[existingIndex :=
             mkTopicProgress (tp_topic existing) (subject existing)
               (Math_round newAvgScore) newQuizCount (Math_round newAvgScore)
               today (conceptsCovered existing)]> updatedTopics)
  | None =>
      let* today := lift new_Date in
      P_ret
        (updatedTopics ++
         [mkTopicProgress (result_topic result) "General"
            (Math_round percentage) n1 (Math_round percentage) today []])
  end.

(** The body of the second [forEach]: a topic goes to the weak topics, to
    the strong topics, or to neither. *)
Definition categorize (lists : list string * list string)
    (topic : TopicProgress Date) : list string * list string :=
  let (weakTopics_, strongTopics_) := lists in
  if ltb (tp_masteryLevel topic) n60 then
    if bool_decide (tp_topic topic ∈ weakTopics_) then lists
    else (weakTopics_ ++ [tp_topic topic], strongTopics_)
  else if leb n70 (tp_masteryLevel topic) then
    if bool_decide (tp_topic topic ∈ strongTopics_) then lists
    else (weakTopics_, strongTopics_ ++ [tp_topic topic])
  else lists.

Definition updateTopicPerformance (userId_ : string)
    (topicResults : list TopicResult) : P unit :=
  P_try_catch
    (let* progress := getLearningProgress userId_ in
     match progress with
     | None => P_ret tt
     | Some progress_ =>
         let* updatedTopics :=
           P_forEach topicResults (lp_topics progress_) record_result in
         let (weakTopics_, strongTopics_) :=
           foldl categorize ([], []) updatedTopics in
         updateLearningProgress userId_
           (mkUpdates None (Some updatedTopics) None None None None None
              (Some weakTopics_) (Some strongTopics_))
     end)
    (fun error =>
       lift (console_error "Error updating topic performance:") ;;;
       P_ret tt).

(** *** Quiz attempts ([saveQuizAttempt],
    [updateLearningProgressAfterQuiz]) *)

(** [Math.floor(x)]: the largest integer not above [x], computed exactly;
    NaN, the infinities and the zeros are returned as they are. *)
Definition Math_floor (x : number) : number :=
  match x with
  | S754_finite s m e =>
      if 0 <=? e then x
      else
        let v := cond_Zopp s (Zpos m) in
        let n := Z.shiftr v (- e) in
        if n =? 0 then S754_zero s else ofZ n
  | _ => x
  end.

(** [d.getTime()]: the time value of the date, NaN for an invalid date. *)
Definition Date_getTime (d : Date) : number :=
  match d with
  | DateAt t => ofZ t
  | InvalidDate => S754_nan
  end.

(** [addDoc(collection(db, 'quizAttempts'), d)]: stores [d] under a new
    identifier. *)
Definition addDoc_quizAttempts (d : QuizAttempt Timestamp) : P string :=
  lift request ;;;
  fun pw =>
    let key := fresh (dom (quizAttempts pw)) in
    (Ok key,
     mkProgressWorld (learningProgress pw) (<[key := d]> (quizAttempts pw))
       (rest pw)).

Definition updateLearningProgressAfterQuiz (attempt : QuizAttempt Date)
  : P unit :=
  P_try_catch
    (let* progress := getLearningProgress (attempt_userId attempt) in
     match progress with
     | None => P_ret tt
     | Some progress_ =>
         let scorePercent :=
           mul (div (score attempt) (totalQuestions attempt)) n100 in
         let newTotalQuizzes := add (totalQuizzesTaken progress_) n1 in
         let newAverageScore :=
           div (add (mul (averageScore progress_)
                       (totalQuizzesTaken progress_))
                  scorePercent)
             newTotalQuizzes in
         let* today := lift new_Date in
         (* [new Date(progress.lastStudyDate)] is a date with the same time
            value *)
         let lastStudy := lastStudyDate progress_ in
         let daysDiff :=
           Math_floor
             (div (sub (Date_getTime today) (Date_getTime lastStudy))
                (mul (mul (mul (ofZ 1000) n60) n60) (ofZ 24))) in
         let newStreak :=
           if strict_eq daysDiff n0 then streakDays progress_
           else if strict_eq daysDiff n1 then add (streakDays progress_) n1
           else n1 in
         updateLearningProgress (attempt_userId attempt)
           (mkUpdates None None (Some newTotalQuizzes)
              (Some (Math_round newAverageScore)) (Some newStreak)
              (Some today)
              (Some
                 (add (studyTimeTotal progress_)
                    (Math_round (div (timeSpent attempt) n60))))
              None None)
     end)
    (fun error =>
       lift (console_error "Error updating progress after quiz:") ;;;
       P_ret tt).

Definition saveQuizAttempt (attempt : QuizAttempt Date) : P string :=
  P_try_catch
    (let* completed := lift (fromDate (completedAt attempt)) in
     let* docRef :=
       addDoc_quizAttempts
         (mkQuizAttempt (quizId attempt) (attempt_userId attempt)
            (answers attempt) (score attempt) (totalQuestions attempt)
            completed (timeSpent attempt)) in
     updateLearningProgressAfterQuiz attempt ;;;
     P_ret docRef)
    (fun error =>
       lift (console_error "Error saving quiz attempt:") ;;;
       P_throw error).

Close Scope progress_scope.

(** *** Words for the properties of the learning progress *)

(** The topics of a stored progress, none when the document lacks them. *)
Definition stored_topics (d : StoredProgress)
  : list (TopicProgress (option Timestamp)) :=
  default [] (lp_topics d).

(** A topic without its date. *)
Definition without_date {D} (t : TopicProgress D) : TopicProgress unit :=
  mkTopicProgress (tp_topic t) (subject t) (tp_masteryLevel t)
    (quizzesTaken t) (tp_averageScore t) tt (conceptsCovered t).

(** [updateData] holds the fields of [updates], with their dates turned
    into timestamps. *)
Definition same_updates (updates : ProgressUpdates Date)
    (updateData : ProgressUpdates Timestamp) : Prop :=
  upd_userId updateData = upd_userId updates /\
  upd_totalQuizzesTaken updateData = upd_totalQuizzesTaken updates /\
  upd_averageScore updateData = upd_averageScore updates /\
  upd_streakDays updateData = upd_streakDays updates /\
  upd_studyTimeTotal updateData = upd_studyTimeTotal updates /\
  upd_weakTopics updateData = upd_weakTopics updates /\
  upd_strongTopics updateData = upd_strongTopics updates /\
  match upd_lastStudyDate updates, upd_lastStudyDate updateData with
  | Some d, Some ts => Timestamp_fromDate d = Some ts
  | None, None => True
  | _, _ => False
  end /\
  match upd_topics updates, upd_topics updateData with
  | Some l, Some l' => without_date <$> l' = without_date <$> l
  | None, None => True
  | _, _ => False
  end.

(** The progress that [getLearningProgress] creates for a user, in memory
    and as a document. *)
Definition initial_progress (userId_ : string) (today : Z) : Progress :=
  mkLearningProgress userId_ [] n0 n0 n0 (DateAt today) n0 [] [].

Definition initial_document (userId_ : string) (today : Timestamp)
  : StoredProgress :=
  mkLearningProgress userId_ (Some []) n0 n0 n0 (Some today) n0 [] [].

(** From [pw] to [pw'], the lines [msgs] have been written to the console
    and the quiz attempts, the revision schedules and the stored contents
    are as they were. *)
Definition logged (msgs : list string) (pw pw' : ProgressWorld) : Prop :=
  quizAttempts pw' = quizAttempts pw /\
  revisionSchedules (rest pw') = revisionSchedules (rest pw) /\
  storedContent (rest pw') = storedContent (rest pw) /\
  console (rest pw') = msgs ++ console (rest pw).

(** From [pw] to [pw'], nothing has been written at all. *)
Definition quiet (pw pw' : ProgressWorld) : Prop :=
  learningProgress pw' = learningProgress pw /\ logged [] pw pw'.

(** The world after a request and no other effect. *)
Definition after_request (pw : ProgressWorld) : ProgressWorld :=
  mkProgressWorld (learningProgress pw) (quizAttempts pw)
    (after_requests 1 (rest pw)).

(** A store with the progress of user ["u1"] on two topics, at a time when
    the clock stands still and every request succeeds. *)
Definition progress_world : ProgressWorld :=
  mkProgressWorld
    {[ "u1" :=
         mkLearningProgress "u1"
           (Some
              [mkTopicProgress "Sorting" "General" (ofZ 80) n1 (ofZ 80)
                 (Some 1699395200000) [];
               mkTopicProgress "Graphs" "General" (ofZ 40) n1 (ofZ 40)
                 (Some 1699395200000) []])
           (ofZ 2) n60 n1 (Some 1699395200000) n10 ["Graphs"] ["Sorting"] ]}
    ∅ sample_world.

(** The same store without any progress. *)
Definition no_progress_world : ProgressWorld :=
  mkProgressWorld ∅ ∅ sample_world.

(** An attempt of user ["u1"]: three answers right of four, in five
    minutes, a day and an hour after the last study. *)
Definition sample_attempt : QuizAttempt Date :=
  mkQuizAttempt "q1" "u1" [n0; n1; n1; n3] n3 (ofZ 4)
    (DateAt 1700000000000) (ofZ 300).

(** The store of [progress_world] a day and an hour after the last study
    of user ["u1"]. *)
Definition next_day_world : ProgressWorld :=
  mkProgressWorld (learningProgress progress_world) ∅
    (mkWorld ∅ ∅ (1699395200000 + 90000000) [] [] [] utc).

(** The results of a quiz: three of four on graphs, one of two on
    hashing. *)
Definition sample_results : list TopicResult :=
  [mkTopicResult "Graphs" n3 (ofZ 4); mkTopicResult "Hashing" n1 (ofZ 2)].

(** Unfolds the operations on the world with the learning progress. *)
Ltac unfold_progress :=
  unfold P_try_catch, getDoc_learningProgress, setDoc_learningProgress,
    updateDoc_learningProgress, toDate_or_now, P_bind, lift, P_ret, P_throw
    in *;
  unfold_js.

(** * Properties *)

(** ** Rounding in [SpecFloat]: no NaN out of thin air, and no overflow on
    small operands *)

Lemma literals_correctly_rounded :
  n1 = ofZ 1 /\ n3 = ofZ 3 /\ n5 = ofZ 5 /\ n6 = ofZ 6 /\ n10 = ofZ 10 /\
  n100 = ofZ 100 /\
  n0_1 = div (ofZ 1) (ofZ 10) /\ n0_08 = div (ofZ 8) (ofZ 100) /\
  n0_02 = div (ofZ 2) (ofZ 100) /\ n1_3 = div (ofZ 13) (ofZ 10) /\
  n2_5 = div (ofZ 5) (ofZ 2).
Proof. vm_compute. repeat split. Qed.

(** *** Binary digits and shifts *)

Section Digits.

Lemma digits2_pos_size p : digits2_pos p = Pos.size p.
Proof. induction p; simpl; congruence. Qed.

Lemma digits2_pos_gt p : Zpos p < 2 ^ Zpos (digits2_pos p).
Proof.
  rewrite digits2_pos_size.
  pose proof (Pos.size_gt p) as H.
  rewrite <- Pos2Z.inj_pow. lia.
Qed.

Lemma digits2_pos_le p n :
  0 <= n -> Zpos p < 2 ^ n -> Zpos (digits2_pos p) <= n.
Proof.
  intros Hn Hp. rewrite digits2_pos_size.
  pose proof (Pos.size_le p) as H.
  assert (H' : 2 ^ Zpos (Pos.size p) <= 2 * Zpos p).
  { rewrite <- Pos2Z.inj_pow. lia. }
  destruct (Z_lt_le_dec n (Zpos (Pos.size p))) as [Hlt|]; [|assumption].
  exfalso.
  assert (H0 : 2 ^ (n + 1) <= 2 ^ Zpos (Pos.size p))
    by (apply Z.pow_le_mono_r; lia).
  rewrite Z.pow_add_r in H0 by lia. lia.
Qed.

Lemma Zdigits2_nonneg m : 0 <= Zdigits2 m.
Proof. destruct m; simpl; lia. Qed.

(** Adding one to a mantissa adds at most one digit. *)
Lemma Zdigits2_succ m : 0 <= m -> Zdigits2 (m + 1) <= Zdigits2 m + 1.
Proof.
  intros Hm. destruct m as [|p|p]; [simpl; lia| |lia].
  assert (Hp := digits2_pos_gt p).
  destruct (Z.pos p + 1) as [|q|q] eqn:E; try lia.
  simpl. apply digits2_pos_le; [lia|].
  rewrite Z.pow_add_r by lia. lia.
Qed.

(** A shift to the right by one position removes one digit. *)
Lemma shr_1_digits r :
  0 <= shr_m r ->
  0 <= shr_m (shr_1 r) /\
  Zdigits2 (shr_m (shr_1 r)) = Z.max 0 (Zdigits2 (shr_m r) - 1).
Proof.
  destruct r as [m r s]. simpl. intros Hm.
  destruct m as [|[p|p|]|p]; simpl; lia.
Qed.

Lemma iter_shr_1_digits n : forall r,
  0 <= shr_m r ->
  0 <= shr_m (SpecFloat.iter_pos shr_1 n r) /\
  Zdigits2 (shr_m (SpecFloat.iter_pos shr_1 n r))
  = Z.max 0 (Zdigits2 (shr_m r) - Zpos n).
Proof.
  induction n as [n IH|n IH|]; intros r Hr; simpl.
  - destruct (shr_1_digits r Hr) as [H1 E1].
    destruct (IH _ H1) as [H2 E2]. destruct (IH _ H2) as [H3 E3].
    split; [assumption|]. rewrite E3, E2, E1. lia.
  - destruct (IH _ Hr) as [H2 E2]. destruct (IH _ H2) as [H3 E3].
    split; [assumption|]. rewrite E3, E2. lia.
  - apply shr_1_digits, Hr.
Qed.

Lemma shr_digits r e n r' e' :
  shr r e n = (r', e') ->
  0 <= shr_m r ->
  0 <= shr_m r' /\ e' = e + Z.max 0 n /\
  Zdigits2 (shr_m r') = Z.max 0 (Zdigits2 (shr_m r) - Z.max 0 n).
Proof.
  intros E Hr.
  destruct n as [|p|p]; simpl in E; inversion E; subst; clear E.
  - pose proof (Zdigits2_nonneg (shr_m r')). lia.
  - destruct (iter_shr_1_digits p r Hr) as [H1 E1]. rewrite E1. lia.
  - pose proof (Zdigits2_nonneg (shr_m r')). lia.
Qed.

Lemma shr_m_of_loc m l : shr_m (shr_record_of_loc m l) = m.
Proof. destruct l as [|[]]; reflexivity. Qed.

Lemma round_nearest_even_bounds m l :
  0 <= m ->
  0 <= round_nearest_even m l /\
  Zdigits2 (round_nearest_even m l) <= Zdigits2 m + 1.
Proof.
  intros Hm. pose proof (Zdigits2_succ m Hm).
  unfold round_nearest_even.
  destruct l as [|[]]; try destruct (Z.even m); lia.
Qed.

Lemma iter_xO_value m d : Zpos (Pos.iter xO m d) = Zpos m * 2 ^ Zpos d.
Proof.
  induction d as [|d IH] using Pos.peano_ind.
  - simpl. lia.
  - rewrite Pos.iter_succ, Pos2Z.inj_succ, Z.pow_succ_r by lia.
    rewrite Pos2Z.inj_xO, IH. lia.
Qed.

Lemma iter_xO_digits m d :
  Zpos (digits2_pos (Pos.iter xO m d)) = Zpos (digits2_pos m) + Zpos d.
Proof.
  induction d as [|d IH] using Pos.peano_ind.
  - simpl. lia.
  - rewrite Pos.iter_succ. simpl digits2_pos. lia.
Qed.

(** Aligning a mantissa to a smaller exponent keeps its value. *)
Lemma shl_align_spec mx ex ex' :
  let (mz, ez) := shl_align mx ex ex' in
  ez = Z.min ex ex' /\
  Zpos mz = Zpos mx * 2 ^ (ex - ez) /\
  Zpos (digits2_pos mz) + ez = Zpos (digits2_pos mx) + ex.
Proof.
  unfold shl_align. destruct (ex' - ex) as [|d|d] eqn:E.
  - replace (ex - ex) with 0 by lia. lia.
  - replace (ex - ex) with 0 by lia. lia.
  - rewrite iter_xO_value, iter_xO_digits.
    replace (ex - ex') with (Zpos d) by lia. lia.
Qed.

(** The aligned mantissa of a bounded operand. *)
Lemma aligned_mantissa_lt m e ez k :
  Zpos (digits2_pos m) + e <= k -> ez <= e ->
  Zpos m * 2 ^ (e - ez) < 2 ^ (k - ez).
Proof.
  intros Hk He. pose proof (digits2_pos_gt m) as Hm.
  assert (H : 2 ^ Zpos (digits2_pos m) * 2 ^ (e - ez) <= 2 ^ (k - ez)).
  { rewrite <- Z.pow_add_r by lia. apply Z.pow_le_mono_r; lia. }
  assert (0 < 2 ^ (e - ez)) by (apply Z.pow_pos_nonneg; lia).
  nia.
Qed.

Lemma bounded_by_isFinite k x : bounded_by k x -> isFinite x = true.
Proof. destruct x; simpl; tauto. Qed.

End Digits.

(** *** Rounding to a format *)

Section Rounding.

(** A format of precision [p] and maximal exponent [e_max]. *)
Variables p e_max : Z.
Hypothesis precision_positive : 0 < p.
Hypothesis precision_below_emax : p < e_max.

Let e_min : Z := SpecFloat.emin p e_max.

(** Rounding a mantissa that is not negative never gives NaN. *)
Lemma binary_round_aux_not_nan sx mx ex lx :
  0 <= mx -> binary_round_aux p e_max sx mx ex lx <> S754_nan.
Proof using Type.
  intros Hm. unfold binary_round_aux.
  destruct (shr_fexp p e_max mx ex lx) as [r1 e1] eqn:E1.
  unfold shr_fexp in E1.
  apply shr_digits in E1; [|rewrite shr_m_of_loc; assumption].
  destruct E1 as (H1 & _ & _).
  destruct (round_nearest_even_bounds (shr_m r1) (loc_of_shr_record r1) H1)
    as [H2 _].
  destruct (shr_fexp p e_max _ e1 loc_Exact) as [r2 e2] eqn:E2.
  unfold shr_fexp in E2.
  apply shr_digits in E2; [|rewrite shr_m_of_loc; assumption].
  destruct E2 as (H3 & _ & _).
  destruct (shr_m r2) as [|q|q]; [discriminate| |lia].
  destruct (e2 <=? e_max - p); discriminate.
Qed.

(** Rounding a mantissa of magnitude below [2 ^ k] gives a finite number
    below [2 ^ (k + 1)]: the mantissa loses the digits in excess of the
    precision and may gain one by the carry of the rounding. *)
Lemma binary_round_aux_bounded sx mx ex lx k :
  Zpos (digits2_pos mx) + ex <= k -> ex <= e_max - p ->
  e_min <= k -> k < e_max ->
  bounded_by (k + 1) (binary_round_aux p e_max sx (Zpos mx) ex lx).
Proof using precision_positive precision_below_emax.
  intros Hk Hex Hlo Hhi. unfold binary_round_aux.
  destruct (shr_fexp p e_max (Zpos mx) ex lx) as [r1 e1] eqn:E1.
  unfold shr_fexp in E1.
  apply shr_digits in E1; [|rewrite shr_m_of_loc; lia].
  rewrite shr_m_of_loc in E1. destruct E1 as (H1 & He1 & D1).
  destruct (round_nearest_even_bounds (shr_m r1) (loc_of_shr_record r1) H1)
    as [H2 D2].
  destruct (shr_fexp p e_max _ e1 loc_Exact) as [r2 e2] eqn:E2.
  unfold shr_fexp in E2.
  apply shr_digits in E2; [|rewrite shr_m_of_loc; assumption].
  rewrite shr_m_of_loc in E2. destruct E2 as (H3 & He2 & D3).
  subst e_min. unfold fexp, SpecFloat.emin in *. simpl Zdigits2 in *.
  destruct (shr_m r2) as [|q|q] eqn:Er2; [exact I| |lia].
  simpl Zdigits2 in D3.
  assert (Hfin : (e2 <=? e_max - p) = true) by (apply Z.leb_le; lia).
  rewrite Hfin. simpl. lia.
Qed.

Lemma binary_round_not_nan sx mx ex :
  binary_round p e_max sx mx ex <> S754_nan.
Proof using Type.
  unfold binary_round. destruct (shl_align mx ex _) as [mz ez].
  apply binary_round_aux_not_nan. lia.
Qed.

Lemma binary_round_bounded sx mx ex k :
  Zpos (digits2_pos mx) + ex <= k -> e_min <= k -> k < e_max ->
  bounded_by (k + 1) (binary_round p e_max sx mx ex).
Proof using precision_positive precision_below_emax.
  intros Hk Hlo Hhi. unfold binary_round.
  pose proof (shl_align_spec mx ex
                (fexp p e_max (Zpos (digits2_pos mx) + ex))) as H.
  destruct (shl_align mx ex _) as [mz ez]. destruct H as (He & _ & Hd).
  apply binary_round_aux_bounded; try lia.
  subst e_min. unfold fexp, SpecFloat.emin in *. lia.
Qed.

Lemma binary_normalize_not_nan m e szero :
  binary_normalize p e_max m e szero <> S754_nan.
Proof using Type.
  destruct m; simpl; [discriminate|apply binary_round_not_nan..].
Qed.

Lemma binary_normalize_bounded m e szero k :
  Z.abs m < 2 ^ (k - e) -> e <= k -> e_min <= k -> k < e_max ->
  bounded_by (k + 1) (binary_normalize p e_max m e szero).
Proof using precision_positive precision_below_emax.
  intros Hm He Hlo Hhi.
  destruct m as [|q|q]; simpl; [exact I| |];
    apply binary_round_bounded; try lia;
    assert (Zpos (digits2_pos q) <= k - e)
      by (apply digits2_pos_le; lia); lia.
Qed.

(** The sum or the difference of two finite mantissas, normalized. *)
Lemma normalized_sum_bounded (op : Z -> Z -> Z) kx ky sx mx ex sy my ey :
  (forall a b, 0 < a -> 0 < b ->
     Z.abs (op (cond_Zopp sx a) (cond_Zopp sy b)) <= a + b) ->
  Zpos (digits2_pos mx) + ex <= kx -> Zpos (digits2_pos my) + ey <= ky ->
  e_min <= Z.max kx ky + 1 -> Z.max kx ky + 1 < e_max ->
  bounded_by (Z.max kx ky + 2)
    (binary_normalize p e_max
       (op (cond_Zopp sx (Zpos (fst (shl_align mx ex (Z.min ex ey)))))
           (cond_Zopp sy (Zpos (fst (shl_align my ey (Z.min ex ey))))))
       (Z.min ex ey) false).
Proof using precision_positive precision_below_emax.
  intros Hop Hx Hy Hlo Hhi.
  pose proof (shl_align_spec mx ex (Z.min ex ey)) as Ax.
  pose proof (shl_align_spec my ey (Z.min ex ey)) as Ay.
  destruct (shl_align mx ex _) as [mx' ex'],
           (shl_align my ey _) as [my' ey'].
  destruct Ax as (Ex & Vx & _), Ay as (Ey & Vy & _). simpl fst.
  replace (Z.max kx ky + 2) with ((Z.max kx ky + 1) + 1) by lia.
  pose proof (aligned_mantissa_lt mx ex (Z.min ex ey) (Z.max kx ky)) as Bx.
  pose proof (aligned_mantissa_lt my ey (Z.min ex ey) (Z.max kx ky)) as By.
  assert (Hpow : 2 ^ (Z.max kx ky + 1 - Z.min ex ey)
                 = 2 * 2 ^ (Z.max kx ky - Z.min ex ey)).
  { replace (Z.max kx ky + 1 - Z.min ex ey)
      with (Z.succ (Z.max kx ky - Z.min ex ey)) by lia.
    apply Z.pow_succ_r. lia. }
  apply binary_normalize_bounded; try lia.
  rewrite Hpow. replace ex' with (Z.min ex ey) in Vx by lia.
  replace ey' with (Z.min ex ey) in Vy by lia.
  specialize (Hop (Zpos mx') (Zpos my')). rewrite Vx, Vy in *. lia.
Qed.

Lemma SFadd_bounded kx ky x y :
  bounded_by kx x -> bounded_by ky y ->
  e_min <= Z.max kx ky + 1 -> Z.max kx ky + 1 < e_max ->
  bounded_by (Z.max kx ky + 2) (SFadd p e_max x y).
Proof using precision_positive precision_below_emax.
  intros Hx Hy Hlo Hhi.
  destruct x as [sx|sx| |sx mx ex], y as [sy|sy| |sy my ey];
    simpl in Hx, Hy; try contradiction; simpl SFadd.
  - destruct sx, sy; exact I.
  - simpl. lia.
  - simpl. lia.
  - apply (normalized_sum_bounded Z.add); try assumption.
    intros a b Ha Hb. destruct sx, sy; simpl cond_Zopp; lia.
Qed.

Lemma SFsub_bounded kx ky x y :
  bounded_by kx x -> bounded_by ky y ->
  e_min <= Z.max kx ky + 1 -> Z.max kx ky + 1 < e_max ->
  bounded_by (Z.max kx ky + 2) (SFsub p e_max x y).
Proof using precision_positive precision_below_emax.
  intros Hx Hy Hlo Hhi.
  destruct x as [sx|sx| |sx mx ex], y as [sy|sy| |sy my ey];
    simpl in Hx, Hy; try contradiction; simpl SFsub.
  - destruct sx, sy; exact I.
  - simpl. lia.
  - simpl. lia.
  - apply (normalized_sum_bounded Z.sub); try assumption.
    intros a b Ha Hb. destruct sx, sy; simpl cond_Zopp; lia.
Qed.

Lemma SFmul_bounded kx ky x y :
  bounded_by kx x -> bounded_by ky y ->
  e_min <= kx + ky -> kx + ky < e_max -> kx + ky <= e_max - p + 2 ->
  bounded_by (kx + ky + 1) (SFmul p e_max x y).
Proof using precision_positive precision_below_emax.
  intros Hx Hy Hlo Hhi Hexp.
  destruct x as [sx|sx| |sx mx ex], y as [sy|sy| |sy my ey];
    simpl in Hx, Hy; try contradiction; simpl SFmul; try exact I.
  pose proof (digits2_pos_gt mx) as Gx.
  pose proof (digits2_pos_gt my) as Gy.
  apply binary_round_aux_bounded; try lia.
  assert (Zpos (digits2_pos (mx * my))
          <= Zpos (digits2_pos mx) + Zpos (digits2_pos my)).
  { apply digits2_pos_le; [lia|]. rewrite Z.pow_add_r by lia.
    rewrite Pos2Z.inj_mul. nia. }
  lia.
Qed.

(** NaN comes out of a sum only from NaN or from infinities of opposite
    signs, and out of a product only from NaN or from zero times
    infinity. *)
Lemma SFadd_not_nan_r x y :
  x <> S754_nan -> isFinite y = true -> SFadd p e_max x y <> S754_nan.
Proof using Type.
  intros Hx Hy.
  destruct x as [sx|sx| |sx mx ex], y as [sy|sy| |sy my ey];
    try discriminate; try contradiction; simpl; try discriminate.
  - destruct sx, sy; discriminate.
  - apply binary_normalize_not_nan.
Qed.

Lemma SFadd_not_nan_l x y :
  isFinite x = true -> y <> S754_nan -> SFadd p e_max x y <> S754_nan.
Proof using Type.
  intros Hx Hy.
  destruct x as [sx|sx| |sx mx ex], y as [sy|sy| |sy my ey];
    try discriminate; try contradiction; simpl; try discriminate.
  - destruct sx, sy; discriminate.
  - apply binary_normalize_not_nan.
Qed.

Lemma SFsub_finite_not_nan x y :
  isFinite x = true -> isFinite y = true -> SFsub p e_max x y <> S754_nan.
Proof using Type.
  intros Hx Hy.
  destruct x as [sx|sx| |sx mx ex], y as [sy|sy| |sy my ey];
    try discriminate; simpl; try discriminate.
  - destruct sx, sy; discriminate.
  - apply binary_normalize_not_nan.
Qed.

Lemma SFmul_not_nan x s m e :
  x <> S754_nan -> SFmul p e_max x (S754_finite s m e) <> S754_nan.
Proof using Type.
  intros Hx. destruct x as [sx|sx| |sx mx ex]; try contradiction;
    simpl; try discriminate.
  apply binary_round_aux_not_nan. lia.
Qed.

End Rounding.

(** *** Binary64 *)

Lemma binary64_format : 0 < prec /\ prec < emax.
Proof. unfold prec, emax. lia. Qed.

Lemma add_bounded kx ky x y :
  bounded_by kx x -> bounded_by ky y ->
  -1074 <= Z.max kx ky + 1 -> Z.max kx ky + 1 < 1024 ->
  bounded_by (Z.max kx ky + 2) (add x y).
Proof.
  destruct binary64_format. intros. apply SFadd_bounded; assumption.
Qed.

Lemma sub_bounded kx ky x y :
  bounded_by kx x -> bounded_by ky y ->
  -1074 <= Z.max kx ky + 1 -> Z.max kx ky + 1 < 1024 ->
  bounded_by (Z.max kx ky + 2) (sub x y).
Proof.
  destruct binary64_format. intros. apply SFsub_bounded; assumption.
Qed.

Lemma mul_bounded kx ky x y :
  bounded_by kx x -> bounded_by ky y ->
  -1074 <= kx + ky -> kx + ky <= 973 ->
  bounded_by (kx + ky + 1) (mul x y).
Proof.
  destruct binary64_format. intros.
  apply SFmul_bounded; try assumption; unfold prec, emax; lia.
Qed.

Lemma add_not_nan_r x y :
  x <> S754_nan -> isFinite y = true -> add x y <> S754_nan.
Proof. apply SFadd_not_nan_r. Qed.

Lemma add_not_nan_l x y :
  isFinite x = true -> y <> S754_nan -> add x y <> S754_nan.
Proof. apply SFadd_not_nan_l. Qed.

Lemma sub_finite_not_nan x y :
  isFinite x = true -> isFinite y = true -> sub x y <> S754_nan.
Proof. apply SFsub_finite_not_nan. Qed.

Lemma mul_not_nan x m e :
  x <> S754_nan -> mul x (S754_finite false m e) <> S754_nan.
Proof. apply SFmul_not_nan. Qed.

(** *** Comparisons, [Math.max] and [Math.min] *)

Lemma ltb_leb x y : ltb x y = true -> leb x y = true.
Proof. unfold ltb, leb, SFltb, SFleb. destruct (SFcompare x y) as [[]|]; congruence. Qed.

Lemma leb_not_nan_l x y : leb x y = true -> x <> S754_nan.
Proof. intros H ->. discriminate. Qed.

Lemma leb_not_nan_r x y : leb x y = true -> y <> S754_nan.
Proof. intros H ->. destruct x; discriminate. Qed.

Lemma in_range_inv lo hi x :
  in_range lo hi x = true -> leb lo x = true /\ leb x hi = true.
Proof. apply andb_true_iff. Qed.

(** A number between zero and a finite number is finite. *)
Lemma in_range_0_isFinite s m e x :
  in_range n0 (S754_finite s m e) x = true -> isFinite x = true.
Proof.
  intros H. apply in_range_inv in H as [H1 H2].
  destruct x as [| []| |]; try reflexivity; discriminate.
Qed.

Lemma isNaN_false x : x <> S754_nan -> isNaN x = false.
Proof. destruct x; simpl; congruence. Qed.

Lemma Math_max_not_nan a b :
  a <> S754_nan -> b <> S754_nan -> Math_max a b <> S754_nan.
Proof.
  intros Ha Hb. unfold Math_max.
  rewrite (isNaN_false a Ha), (isNaN_false b Hb). simpl.
  destruct (ltb a b || isPosZero b && isNegZero a); assumption.
Qed.

Lemma Math_max_ge a b :
  leb a a = true -> b <> S754_nan -> leb a (Math_max a b) = true.
Proof.
  intros Haa Hb. unfold Math_max.
  rewrite (isNaN_false a (leb_not_nan_l _ _ Haa)), (isNaN_false b Hb). simpl.
  destruct (ltb a b) eqn:E; simpl; [apply ltb_leb, E|].
  destruct (isPosZero b && isNegZero a) eqn:Z; [|assumption].
  destruct b as [[]| | |], a as [[]| | |]; try discriminate; reflexivity.
Qed.

Lemma Math_min_le a b :
  leb a a = true -> b <> S754_nan -> leb (Math_min a b) a = true.
Proof.
  intros Haa Hb. unfold Math_min.
  rewrite (isNaN_false a (leb_not_nan_l _ _ Haa)), (isNaN_false b Hb). simpl.
  destruct (ltb b a) eqn:E; simpl; [apply ltb_leb, E|].
  destruct (isNegZero b && isPosZero a) eqn:Z; [|assumption].
  destruct b as [[]| | |], a as [[]| | |]; try discriminate; reflexivity.
Qed.

(** The minimum is one of its arguments, so a bound that holds for both
    holds for it. *)
Lemma Math_min_ge lo a b :
  leb lo a = true -> leb lo b = true -> leb lo (Math_min a b) = true.
Proof.
  intros Ha Hb. unfold Math_min.
  rewrite (isNaN_false a (leb_not_nan_r _ _ Ha)),
    (isNaN_false b (leb_not_nan_r _ _ Hb)). simpl.
  destruct (ltb b a || isNegZero b && isPosZero a); assumption.
Qed.

(** ** The ease factor and the mastery level, as numbers *)

(** A quality in [[0, 5]] is below [2 ^ 3]. *)
Lemma quality_bounded q :
  in_range n0 n5 q = true -> is_binary64 q = true -> bounded_by 3 q.
Proof.
  intros H V. apply in_range_inv in H as [H0 H5].
  destruct q as [s|[]| |[] m e]; try discriminate; [exact I|].
  unfold is_binary64, valid_binary, bounded, canonical_mantissa in V.
  apply andb_true_iff in V as [V _]. apply Z.eqb_eq in V.
  unfold fexp, SpecFloat.emin, prec, emax in V.
  unfold leb, SFleb, SFcompare, n5 in H5.
  destruct (e ?= -50) eqn:E; try discriminate.
  - apply Z.compare_eq in E. clear H0 H5. simpl. lia.
  - change (e < -50) in E. clear H0 H5. simpl. lia.
Qed.

(** The increment of the ease factor is finite for a quality in range. *)
Lemma ease_increment_finite q :
  in_range n0 n5 q = true -> is_binary64 q = true ->
  isFinite
    (sub n0_1 (mul (sub n5 q) (add n0_08 (mul (sub n5 q) n0_02)))) = true.
Proof.
  intros H V. pose proof (quality_bounded q H V) as Bq.
  assert (B5 : bounded_by 3 n5) by (simpl; lia).
  assert (Ba : bounded_by 5 (sub n5 q))
    by (apply (sub_bounded 3 3); simpl; auto; lia).
  assert (B1 : bounded_by 1 (mul (sub n5 q) n0_02)).
  { apply (mul_bounded 5 (-5)); simpl; auto; lia. }
  assert (B2 : bounded_by 3 (add n0_08 (mul (sub n5 q) n0_02))).
  { apply (add_bounded (-3) 1); simpl; auto; lia. }
  assert (B3 : bounded_by 9 (mul (sub n5 q) (add n0_08 (mul (sub n5 q) n0_02)))).
  { apply (mul_bounded 5 3); simpl; auto; lia. }
  apply (bounded_by_isFinite 11). apply (sub_bounded (-3) 9); simpl; auto; lia.
Qed.

Lemma spec_newEase_ge ef q :
  ef <> S754_nan -> in_range n0 n5 q = true -> is_binary64 q = true ->
  leb n1_3 (spec_newEase ef q) = true.
Proof.
  intros Hef H V. unfold spec_newEase.
  apply Math_max_ge; [reflexivity|].
  apply add_not_nan_r; [assumption|]. apply ease_increment_finite; assumption.
Qed.

Lemma mastery_sum_not_nan m q :
  in_range n0 n100 m = true -> in_range n0 n5 q = true ->
  add m (mul (sub q n2_5) n10) <> S754_nan.
Proof.
  intros Hm Hq. apply add_not_nan_l.
  - apply (in_range_0_isFinite _ _ _ _ Hm).
  - apply mul_not_nan, sub_finite_not_nan; [|reflexivity].
    apply (in_range_0_isFinite _ _ _ _ Hq).
Qed.

Lemma spec_newMastery_in_range m q :
  in_range n0 n100 m = true -> in_range n0 n5 q = true ->
  in_range n0 n100 (spec_newMastery m q) = true.
Proof.
  intros Hm Hq. pose proof (mastery_sum_not_nan m q Hm Hq) as Hx.
  unfold spec_newMastery, clamp, in_range.
  assert (H0 : leb n0 (Math_max n0 (add m (mul (sub q n2_5) n10))) = true)
    by (apply Math_max_ge; [reflexivity|assumption]).
  apply andb_true_iff. split.
  - apply Math_min_ge; [reflexivity|assumption].
  - apply Math_min_le; [reflexivity|]. apply (leb_not_nan_r _ _ H0).
Qed.

(** ** Running the functions *)

Lemma Timestamp_fromDate_Some d ts :
  Timestamp_fromDate d = Some ts -> d = DateAt ts.
Proof.
  unfold Timestamp_fromDate. destruct d as [t|]; [|discriminate].
  destruct (_ && _); [|discriminate]. congruence.
Qed.

(** What the code writes is what the specification's four steps give. *)
Lemma updateRevisionAfterReview_inv scheduleId quality w w' schedule :
  revisionSchedules w !! scheduleId = Some schedule ->
  updateRevisionAfterReview scheduleId quality w = (Ok tt, w') ->
  exists nextTs,
    Timestamp_fromDate
      (Date_addDays (zone w) (DateAt (now w))
         (spec_newInterval (reviewCount schedule) (interval schedule)
            (spec_newEase (easeFactor schedule) quality) quality))
    = Some nextTs /\
    revisionSchedules w' =
      <[scheduleId :=
          spec_recordReview schedule quality (now w + hd 0 (ticks w)) nextTs]>
        (revisionSchedules w) /\
    storedContent w' = storedContent w.
Proof.
  intros Hs Hrun. destruct w as [rs sc t tk fl co tz]. simpl in Hs |- *.
  unfold updateRevisionAfterReview in Hrun. unfold_js.
  destruct fl as [|[] fl]; simpl in Hrun; try discriminate;
    rewrite Hs in Hrun; simpl in Hrun.
  all: destruct (Timestamp_fromDate (DateAt (t + hd 0 tk)))
         as [lastTs|] eqn:EL; simpl in Hrun; [|discriminate].
  all: apply Timestamp_fromDate_Some in EL; injection EL as <-.
  all: destruct (Timestamp_fromDate (Date_addDays _ _ _)) as [nextTs|] eqn:EN;
         simpl in Hrun; [|discriminate].
  all: try (destruct fl as [|[] fl]; simpl in Hrun; try discriminate).
  all: try rewrite Hs in Hrun; simpl in Hrun.
  all: injection Hrun as <-; exists nextTs; simpl.
  all: split; [first [exact EN | reflexivity]|]; split; reflexivity.
Qed.

(** A review of an existing schedule succeeds when the store answers the
    read and the write and accepts the two dates. *)
Lemma updateRevisionAfterReview_ok scheduleId quality w schedule lastTs nextTs :
  revisionSchedules w !! scheduleId = Some schedule ->
  requests_ok 2 w = true ->
  Timestamp_fromDate (DateAt (now w + hd 0 (ticks w))) = Some lastTs ->
  Timestamp_fromDate
    (Date_addDays (zone w) (DateAt (now w))
       (spec_newInterval (reviewCount schedule) (interval schedule)
          (spec_newEase (easeFactor schedule) quality) quality))
  = Some nextTs ->
  updateRevisionAfterReview scheduleId quality w =
    (Ok tt,
     mkWorld
       (<[scheduleId := spec_recordReview schedule quality lastTs nextTs]>
          (revisionSchedules w))
       (storedContent w)
       (now w + hd 0 (ticks w) + hd 0 (tl (ticks w))) (tl (tl (ticks w)))
       (drop 2 (faults w)) (console w) (zone w)).
Proof.
  intros Hs Hreq HL HN. destruct w as [rs sc t tk fl co tz].
  unfold requests_ok in Hreq. unfold spec_newInterval, spec_newEase in HN.
  simpl in Hs, Hreq, HL, HN |- *.
  unfold updateRevisionAfterReview. unfold_js.
  destruct fl as [|[] [|[] fl]]; simpl in Hreq |- *; try discriminate;
    rewrite Hs; simpl; rewrite HL; simpl; rewrite HN; simpl;
    try rewrite Hs; reflexivity.
Qed.

(** ** Recording a review *)

(** C1: after a review of an existing schedule the stored interval is 1
    when the quality is below 3; otherwise 1 when no review had been
    recorded, 6 when one had, and from then on the rounded product of the
    prior interval and the ease factor stored by the same call.  This holds
    for every quality, those in [[0, 5]] among them. *)
Theorem interval_after_review scheduleId quality w w' schedule :
  revisionSchedules w !! scheduleId = Some schedule ->
  updateRevisionAfterReview scheduleId quality w = (Ok tt, w') ->
  exists stored,
    revisionSchedules w' !! scheduleId = Some stored /\
    interval stored =
      if ltb quality n3 then n1
      else if strict_eq (reviewCount schedule) n0 then n1
      else if strict_eq (reviewCount schedule) n1 then n6
      else Math_round (mul (interval schedule) (easeFactor stored)).
Proof.
  intros Hs Hrun.
  destruct (updateRevisionAfterReview_inv _ _ _ _ _ Hs Hrun)
    as (nextTs & _ & Hdb & _).
  eexists. split; [rewrite Hdb; apply lookup_insert_eq|]. reflexivity.
Qed.

Lemma interval_after_review_witness :
  exists stored,
    revisionSchedules (snd (updateRevisionAfterReview "s1" n5 sample_world))
      !! "s1" = Some stored /\
    interval stored =
      if ltb n5 n3 then n1
      else if strict_eq (reviewCount sample_schedule) n0 then n1
      else if strict_eq (reviewCount sample_schedule) n1 then n6
      else Math_round (mul (interval sample_schedule) (easeFactor stored)).
Proof.
  apply (interval_after_review "s1" n5 sample_world _ sample_schedule).
  - reflexivity.
  - vm_compute. reflexivity.
Defined.

(** C6: for a prior ease factor of at least 1.3 and a quality in [[0, 5]],
    the stored ease factor is [max(1.3, easeFactor + (0.1 - (5 - quality) *
    (0.08 + (5 - quality) * 0.02)))], and it is at least 1.3. *)
Theorem easeFactor_after_review scheduleId quality w w' schedule :
  revisionSchedules w !! scheduleId = Some schedule ->
  leb n1_3 (easeFactor schedule) = true ->
  in_range n0 n5 quality = true ->
  is_binary64 quality = true ->
  updateRevisionAfterReview scheduleId quality w = (Ok tt, w') ->
  exists stored,
    revisionSchedules w' !! scheduleId = Some stored /\
    easeFactor stored =
      Math_max n1_3
        (add (easeFactor schedule)
           (sub n0_1
              (mul (sub n5 quality)
                 (add n0_08 (mul (sub n5 quality) n0_02))))) /\
    leb n1_3 (easeFactor stored) = true.
Proof.
  intros Hs Hef Hq Vq Hrun.
  destruct (updateRevisionAfterReview_inv _ _ _ _ _ Hs Hrun)
    as (nextTs & _ & Hdb & _).
  eexists. split; [rewrite Hdb; apply lookup_insert_eq|].
  split; [reflexivity|].
  apply spec_newEase_ge; try assumption.
  apply (leb_not_nan_r _ _ Hef).
Qed.

Lemma easeFactor_after_review_witness :
  exists stored,
    revisionSchedules (snd (updateRevisionAfterReview "s1" n0 sample_world))
      !! "s1" = Some stored /\
    easeFactor stored =
      Math_max n1_3
        (add (easeFactor sample_schedule)
           (sub n0_1
              (mul (sub n5 n0) (add n0_08 (mul (sub n5 n0) n0_02))))) /\
    leb n1_3 (easeFactor stored) = true.
Proof.
  apply (easeFactor_after_review "s1" n0 sample_world _ sample_schedule).
  - reflexivity.
  - reflexivity.
  - reflexivity.
  - reflexivity.
  - vm_compute. reflexivity.
Defined.

(** C7: for a prior mastery level in [[0, 100]] and a quality in [[0, 5]],
    the stored mastery level is [clamp(0, 100, masteryLevel + (quality -
    2.5) * 10)], and it is in [[0, 100]]. *)
Theorem masteryLevel_after_review scheduleId quality w w' schedule :
  revisionSchedules w !! scheduleId = Some schedule ->
  in_range n0 n100 (masteryLevel schedule) = true ->
  in_range n0 n5 quality = true ->
  updateRevisionAfterReview scheduleId quality w = (Ok tt, w') ->
  exists stored,
    revisionSchedules w' !! scheduleId = Some stored /\
    masteryLevel stored =
      clamp n0 n100
        (add (masteryLevel schedule) (mul (sub quality n2_5) n10)) /\
    in_range n0 n100 (masteryLevel stored) = true.
Proof.
  intros Hs Hm Hq Hrun.
  destruct (updateRevisionAfterReview_inv _ _ _ _ _ Hs Hrun)
    as (nextTs & _ & Hdb & _).
  eexists. split; [rewrite Hdb; apply lookup_insert_eq|].
  split; [reflexivity|].
  apply spec_newMastery_in_range; assumption.
Qed.

Lemma masteryLevel_after_review_witness :
  exists stored,
    revisionSchedules (snd (updateRevisionAfterReview "s1" n5 sample_world))
      !! "s1" = Some stored /\
    masteryLevel stored =
      clamp n0 n100
        (add (masteryLevel sample_schedule) (mul (sub n5 n2_5) n10)) /\
    in_range n0 n100 (masteryLevel stored) = true.
Proof.
  apply (masteryLevel_after_review "s1" n5 sample_world _ sample_schedule).
  - reflexivity.
  - reflexivity.
  - reflexivity.
  - vm_compute. reflexivity.
Defined.

(** C8, as the code has it: after a successful review of an existing
    schedule, of any quality, the stored review count is the prior one plus
    1; [nextReviewDate] is the first reading of the clock moved by the
    stored interval in calendar days; [lastReviewDate] is the second
    reading of the clock, which the code takes after it has computed
    [nextReviewDate].  So [nextReviewDate] is [lastReviewDate] plus the
    interval when the clock has not advanced between the two readings. *)
Theorem dates_and_count_after_review scheduleId quality w w' schedule :
  revisionSchedules w !! scheduleId = Some schedule ->
  updateRevisionAfterReview scheduleId quality w = (Ok tt, w') ->
  exists stored,
    revisionSchedules w' !! scheduleId = Some stored /\
    reviewCount stored = add (reviewCount schedule) n1 /\
    lastReviewDate stored = Some (now w + hd 0 (ticks w)) /\
    Timestamp_toDate (nextReviewDate stored) =
      Date_addDays (zone w) (DateAt (now w)) (interval stored) /\
    (hd 0 (ticks w) = 0 ->
     forall reviewed, lastReviewDate stored = Some reviewed ->
       Timestamp_toDate (nextReviewDate stored) =
         Date_addDays (zone w) (Timestamp_toDate reviewed)
           (interval stored)).
Proof.
  intros Hs Hrun.
  destruct (updateRevisionAfterReview_inv _ _ _ _ _ Hs Hrun)
    as (nextTs & Hnext & Hdb & _).
  apply Timestamp_fromDate_Some in Hnext.
  eexists. split; [rewrite Hdb; apply lookup_insert_eq|].
  simpl. split; [reflexivity|]. split; [reflexivity|].
  split; [symmetry; exact Hnext|].
  intros Htick reviewed [= <-]. rewrite Htick, Z.add_0_r.
  symmetry. exact Hnext.
Qed.

Lemma dates_and_count_after_review_witness :
  exists stored,
    revisionSchedules (snd (updateRevisionAfterReview "s1" n1 ticking_world))
      !! "s1" = Some stored /\
    reviewCount stored = add (reviewCount sample_schedule) n1 /\
    lastReviewDate stored
    = Some (now ticking_world + hd 0 (ticks ticking_world)) /\
    Timestamp_toDate (nextReviewDate stored) =
      Date_addDays (zone ticking_world) (DateAt (now ticking_world))
        (interval stored) /\
    (hd 0 (ticks ticking_world) = 0 ->
     forall reviewed, lastReviewDate stored = Some reviewed ->
       Timestamp_toDate (nextReviewDate stored) =
         Date_addDays (zone ticking_world) (Timestamp_toDate reviewed)
           (interval stored)).
Proof.
  apply (dates_and_count_after_review "s1" n1 ticking_world _
           sample_schedule).
  - reflexivity.
  - vm_compute. reflexivity.
Defined.

(** C8 fails as stated: when the clock advances by a millisecond between
    the two readings, the review of the sample schedule succeeds, but
    [lastReviewDate] is not the reading that [nextReviewDate] is counted
    from, and [nextReviewDate] is not [lastReviewDate] plus the
    interval. *)
Lemma next_review_is_not_counted_from_last_review :
  exists stored reviewed,
    updateRevisionAfterReview "s1" n1 ticking_world
    = (Ok tt, snd (updateRevisionAfterReview "s1" n1 ticking_world)) /\
    revisionSchedules (snd (updateRevisionAfterReview "s1" n1 ticking_world))
      !! "s1" = Some stored /\
    lastReviewDate stored = Some reviewed /\
    Timestamp_toDate (nextReviewDate stored) =
      Date_addDays (zone ticking_world) (DateAt (now ticking_world))
        (interval stored) /\
    reviewed <> now ticking_world /\
    Timestamp_toDate (nextReviewDate stored) <>
      Date_addDays (zone ticking_world) (Timestamp_toDate reviewed)
        (interval stored).
Proof.
  eexists _, _. split; [vm_compute; reflexivity|].
  split; [vm_compute; reflexivity|]. split; [reflexivity|].
  split; [vm_compute; reflexivity|]. split; vm_compute; discriminate.
Qed.

(** On a clock that stands still during the call, the stored
    [nextReviewDate] of the sample schedule is its [lastReviewDate] plus
    the stored interval. *)
Example next_review_on_a_still_clock :
  exists stored reviewed,
    revisionSchedules (snd (updateRevisionAfterReview "s1" n1 sample_world))
      !! "s1" = Some stored /\
    lastReviewDate stored = Some reviewed /\
    reviewed = now sample_world /\
    Timestamp_toDate (nextReviewDate stored) =
      Date_addDays (zone sample_world) (Timestamp_toDate reviewed)
        (interval stored).
Proof.
  eexists _, _. split; [vm_compute; reflexivity|].
  split; [reflexivity|]. split; vm_compute; reflexivity.
Qed.

(** The growth of a schedule under perfect recall: 1 day, 6 days, then
    [round(6 * 2.8) = 17] days, the mastery rising by 25 each time and the
    ease factor by one tenth. *)
Example three_perfect_reviews :
  numeric_fields (snd (review_all "s0" [n5] new_world)) "s0"
  = Some (ofZ 1, ofZ 25, ofZ 1, add n2_5 n0_1) /\
  numeric_fields (snd (review_all "s0" [n5; n5] new_world)) "s0"
  = Some (ofZ 2, ofZ 50, ofZ 6, add (add n2_5 n0_1) n0_1) /\
  numeric_fields (snd (review_all "s0" [n5; n5; n5] new_world)) "s0"
  = Some (ofZ 3, ofZ 75, ofZ 17, add (add (add n2_5 n0_1) n0_1) n0_1).
Proof. vm_compute. repeat split. Qed.

(** A failed recall resets the interval and keeps counting: the sample
    schedule (2 reviews, mastery 50, 6 days) reviewed with quality 1. *)
Example failed_recall :
  numeric_fields (snd (review_all "s1" [n1] sample_world)) "s1"
  = Some (ofZ 3, ofZ 35, ofZ 1, spec_newEase n2_5 n1) /\
  ltb (spec_newEase n2_5 n1) n2_5 = true.
Proof. vm_compute. repeat split. Qed.

(** C2, as the code has it: a quality outside of [[0, 5]] is neither
    rejected nor clamped.  On an existing schedule, with a store that
    answers and dates that the store accepts, the call returns normally and
    has overwritten the schedule with the result of the four steps applied
    to the quality as given. *)
Theorem review_with_quality_out_of_range
    scheduleId quality w schedule lastTs nextTs :
  revisionSchedules w !! scheduleId = Some schedule ->
  in_range n0 n5 quality = false ->
  requests_ok 2 w = true ->
  Timestamp_fromDate (DateAt (now w + hd 0 (ticks w))) = Some lastTs ->
  Timestamp_fromDate
    (Date_addDays (zone w) (DateAt (now w))
       (spec_newInterval (reviewCount schedule) (interval schedule)
          (spec_newEase (easeFactor schedule) quality) quality))
  = Some nextTs ->
  exists w',
    updateRevisionAfterReview scheduleId quality w = (Ok tt, w') /\
    revisionSchedules w' !! scheduleId =
      Some (spec_recordReview schedule quality lastTs nextTs).
Proof.
  intros Hs _ Hreq HL HN.
  eexists. split.
  - apply (updateRevisionAfterReview_ok _ _ _ _ _ _ Hs Hreq HL HN).
  - apply lookup_insert_eq.
Qed.

Lemma review_with_quality_out_of_range_witness :
  exists w',
    updateRevisionAfterReview "s1" (ofZ 7) sample_world = (Ok tt, w') /\
    revisionSchedules w' !! "s1" =
      Some (spec_recordReview sample_schedule (ofZ 7)
              1700000000000 1701382400000).
Proof.
  apply (review_with_quality_out_of_range "s1" (ofZ 7) sample_world
           sample_schedule 1700000000000 1701382400000).
  - reflexivity.
  - reflexivity.
  - reflexivity.
  - reflexivity.
  - vm_compute. reflexivity.
Defined.

(** C2 fails as stated: a review of quality 7 of the sample schedule
    returns normally, and the stored schedule has changed. *)
Lemma invalid_quality_is_not_rejected :
  in_range n0 n5 (ofZ 7) = false /\
  fst (updateRevisionAfterReview "s1" (ofZ 7) sample_world) = Ok tt /\
  revisionSchedules (snd (updateRevisionAfterReview "s1" (ofZ 7) sample_world))
    !! "s1" <> revisionSchedules sample_world !! "s1".
Proof.
  split; [reflexivity|]. split; [reflexivity|].
  vm_compute. discriminate.
Qed.




(** ** Creating the schedules of a content *)

Lemma saveRevisionSchedule_initial userId_ contentId_ topic tomorrow ts w :
  Timestamp_fromDate tomorrow = Some ts ->
  saveRevisionSchedule (initialSchedule userId_ contentId_ topic tomorrow) w =
    if hd false (faults w)
    then (Throw Unavailable,
          mkWorld (revisionSchedules w) (storedContent w) (now w) (ticks w)
            (tl (faults w))
            ("Error saving revision schedule:" :: console w) (zone w))
    else (Ok (fresh (dom (revisionSchedules w))),
          mkWorld
            (<[fresh (dom (revisionSchedules w)) :=
                 spec_initialDoc userId_ contentId_ topic ts]>
               (revisionSchedules w))
            (storedContent w) (now w) (ticks w) (tl (faults w)) (console w)
            (zone w)).
Proof.
  intros Hts. destruct w as [rs sc t tk fl co tz].
  unfold saveRevisionSchedule, initialSchedule. unfold_js. simpl.
  rewrite Hts. destruct fl as [|[] fl]; reflexivity.
Qed.

Lemma create_loop_ok userId_ contentId_ tomorrow ts topics_ : forall w,
  Timestamp_fromDate tomorrow = Some ts ->
  requests_ok (length topics_) w = true ->
  create_loop userId_ contentId_ tomorrow topics_ w =
    (Ok tt,
     mkWorld
       (add_all ((fun topic => spec_initialDoc userId_ contentId_ topic ts) <$> topics_)
          (revisionSchedules w))
       (storedContent w) (now w) (ticks w)
       (drop (length topics_) (faults w)) (console w) (zone w)).
Proof.
  induction topics_ as [|topic topics_ IH]; intros w Hts Hreq.
  - destruct w; reflexivity.
  - unfold create_loop. simpl for_of. unfold bind at 1 2.
    rewrite (saveRevisionSchedule_initial _ _ _ _ ts) by assumption.
    unfold requests_ok in Hreq.
    destruct w as [rs sc t tk fl co tz]. simpl in Hreq |- *.
    destruct fl as [|[] fl]; simpl in Hreq |- *; try discriminate.
    + fold (create_loop userId_ contentId_ tomorrow topics_).
      rewrite IH; [|assumption|].
      * simpl. rewrite drop_nil. reflexivity.
      * unfold requests_ok. simpl. rewrite take_nil. reflexivity.
    + fold (create_loop userId_ contentId_ tomorrow topics_).
      rewrite IH; [reflexivity|assumption|]. exact Hreq.
Qed.

Lemma create_loop_fails userId_ contentId_ tomorrow ts k : forall topics_ w fs,
  Timestamp_fromDate tomorrow = Some ts ->
  faults w = replicate k false ++ true :: fs ->
  (k < length topics_)%nat ->
  create_loop userId_ contentId_ tomorrow topics_ w =
    (Throw Unavailable,
     mkWorld
       (add_all ((fun topic => spec_initialDoc userId_ contentId_ topic ts)
            <$> take k topics_)
          (revisionSchedules w))
       (storedContent w) (now w) (ticks w) fs
       ("Error saving revision schedule:" :: console w) (zone w)).
Proof.
  induction k as [|k IH]; intros topics_ w fs Hts Hf Hk;
    (destruct topics_ as [|topic topics_]; [simpl in Hk; lia|]).
  - unfold create_loop. simpl for_of. unfold bind at 1 2.
    rewrite (saveRevisionSchedule_initial _ _ _ _ ts) by assumption.
    rewrite Hf. reflexivity.
  - unfold create_loop. simpl for_of. unfold bind at 1 2.
    rewrite (saveRevisionSchedule_initial _ _ _ _ ts) by assumption.
    rewrite Hf. simpl hd.
    fold (create_loop userId_ contentId_ tomorrow topics_).
    unfold ret at 1. cbv beta iota.
    rewrite (IH topics_ _ fs); [reflexivity|assumption|reflexivity|].
    simpl in Hk. lia.
Qed.

(** The documents added by [add_all] go under distinct new keys, one per
    document, and leave the others as they were. *)
Lemma add_all_spec {D} (ds : list D) : forall m : gmap string D,
  exists keys : list string,
    length keys = length ds /\
    NoDup keys /\
    Forall (fun key => m !! key = None) keys /\
    add_all ds m = list_to_map (zip keys ds) ∪ m.
Proof.
  induction ds as [|d ds IH]; intros m.
  - exists []. repeat split; [constructor|constructor|].
    simpl. rewrite (left_id_L ∅ (∪)). reflexivity.
  - set (k0 := fresh (dom m)).
    assert (Hk0 : m !! k0 = None) by (apply not_elem_of_dom, is_fresh).
    destruct (IH (<[k0 := d]> m)) as (keys & Hlen & Hnd & Hfresh & Heq).
    assert (Hk0keys : k0 ∉ keys).
    { intros Hin. rewrite Forall_forall in Hfresh.
      specialize (Hfresh _ Hin). rewrite lookup_insert_eq in Hfresh.
      discriminate. }
    exists (k0 :: keys). repeat split.
    + simpl. congruence.
    + constructor; assumption.
    + constructor; [assumption|].
      eapply Forall_impl; [exact Hfresh|]. intros key Hkey. simpl in Hkey.
      destruct (decide (k0 = key)) as [->|Hne].
      * rewrite lookup_insert_eq in Hkey. discriminate.
      * rewrite lookup_insert_ne in Hkey by assumption. assumption.
    + change (add_all (d :: ds) m) with (add_all ds (<[k0 := d]> m)).
      rewrite Heq. simpl. rewrite <- insert_union_l.
      rewrite <- insert_union_r; [reflexivity|].
      apply not_elem_of_list_to_map_1. intros Hin. apply Hk0keys.
      rewrite fst_zip in Hin by lia. exact Hin.
Qed.

Lemma createRevisionSchedulesForContent_eq userId_ contentId_ topics_ w :
  createRevisionSchedulesForContent userId_ contentId_ topics_ w =
    match
      create_loop userId_ contentId_
        (Date_addDays (zone w) (DateAt (now w)) n1) topics_
        (mkWorld (revisionSchedules w) (storedContent w)
           (now w + hd 0 (ticks w)) (tl (ticks w)) (faults w) (console w)
           (zone w))
    with
    | (Ok a, w') => (Ok a, w')
    | (Throw e, w') => console_error "Error creating revision schedules:" w'
    end.
Proof. reflexivity. Qed.

Lemma one_day_later tza t ts :
  Timestamp_fromDate (Date_addDays tza (DateAt t) n1) = Some ts ->
  ts = UTC tza (LocalTime tza t + msPerDay).
Proof.
  intros H. apply Timestamp_fromDate_Some in H.
  unfold Date_addDays in H. change (toInteger n1) with (Some 1) in H.
  unfold TimeClip in H.
  destruct (Z.abs _ <=? 8640000000000000); [|discriminate].
  injection H as <-. rewrite Z.mul_1_l. reflexivity.
Qed.

(** C9: when the store accepts the writes, the call returns normally, logs
    nothing, and has added one schedule per topic, each under a new key of
    its own: daily, due one calendar day after the reading of the clock,
    never reviewed, with review count 0, mastery 0, interval 1 and ease
    factor 2.5.  One calendar day later is the same local time on the next
    day: 86400000 ms later when the offset of local time from UTC is the
    same at both ends.  For the empty list the call returns normally,
    whatever the store does, and the schedules are as they were. *)
Theorem schedules_created_for_topics userId_ contentId_ topics_ w :
  (exists w',
     createRevisionSchedulesForContent userId_ contentId_ [] w = (Ok tt, w') /\
     revisionSchedules w' = revisionSchedules w /\
     console w' = console w) /\
  (forall tomorrow,
     requests_ok (length topics_) w = true ->
     Timestamp_fromDate (Date_addDays (zone w) (DateAt (now w)) n1)
     = Some tomorrow ->
     tomorrow = UTC (zone w) (LocalTime (zone w) (now w) + msPerDay) /\
     (zone w (LocalTime (zone w) (now w) + msPerDay) false
      = zone w (now w) true ->
      tomorrow = now w + msPerDay) /\
     exists w' keys,
       createRevisionSchedulesForContent userId_ contentId_ topics_ w
       = (Ok tt, w') /\
       console w' = console w /\
       length keys = length topics_ /\
       NoDup keys /\
       Forall (fun key => revisionSchedules w !! key = None) keys /\
       revisionSchedules w' =
         list_to_map
           (zip keys
              ((fun topic =>
                  mkSchedule userId_ contentId_ (topic_id topic)
                    (topic_name topic) daily tomorrow None n0 n0 n1 n2_5)
                 <$> topics_))
         ∪ revisionSchedules w).
Proof.
  split.
  - eexists. split; [reflexivity|]. split; reflexivity.
  - intros tomorrow Hreq Hts.
    split; [exact (one_day_later _ _ _ Hts)|]. split.
    { intros Hsame. rewrite (one_day_later _ _ _ Hts).
      unfold UTC. rewrite Hsame. unfold LocalTime. lia. }
    destruct (add_all_spec
                ((fun topic => spec_initialDoc userId_ contentId_ topic tomorrow)
                   <$> topics_) (revisionSchedules w))
      as (keys & Hlen & Hnd & Hfresh & Heq).
    rewrite length_fmap in Hlen.
    eexists. exists keys. split.
    + rewrite createRevisionSchedulesForContent_eq.
      rewrite (create_loop_ok _ _ _ tomorrow); [reflexivity|assumption|].
      exact Hreq.
    + simpl. repeat split; assumption.
Qed.

Lemma schedules_created_for_topics_witness :
  1700090000000
  = UTC (zone autumn_world)
      (LocalTime (zone autumn_world) (now autumn_world) + msPerDay) /\
  (zone autumn_world
     (LocalTime (zone autumn_world) (now autumn_world) + msPerDay) false
   = zone autumn_world (now autumn_world) true ->
   1700090000000 = now autumn_world + msPerDay) /\
  exists w' keys,
    createRevisionSchedulesForContent "u1" "c1"
      [sample_topic "a"; sample_topic "b"] autumn_world
    = (Ok tt, w') /\
    console w' = console autumn_world /\
    length keys = length [sample_topic "a"; sample_topic "b"] /\
    NoDup keys /\
    Forall (fun key => revisionSchedules autumn_world !! key = None) keys /\
    revisionSchedules w' =
      list_to_map
        (zip keys
           ((fun topic =>
               mkSchedule "u1" "c1" (topic_id topic) (topic_name topic)
                 daily 1700090000000 None n0 n0 n1 n2_5)
              <$> [sample_topic "a"; sample_topic "b"]))
      ∪ revisionSchedules autumn_world.
Proof.
  apply (proj2 (schedules_created_for_topics "u1" "c1"
                  [sample_topic "a"; sample_topic "b"] autumn_world)
           1700090000000).
  - reflexivity.
  - reflexivity.
Defined.

(** C5, as the code has it: the first write that fails ends the batch.
    When the write of the topic at position [k] is the first to fail, the
    schedules of the [k] topics before it have been added and no other;
    the writes of the later topics are not attempted; the failure is
    logged and the call returns normally, with no account of what
    failed. *)
Theorem creation_stops_at_first_failure
    userId_ contentId_ topics_ w k fs tomorrow :
  faults w = replicate k false ++ true :: fs ->
  (k < length topics_)%nat ->
  Timestamp_fromDate (Date_addDays (zone w) (DateAt (now w)) n1)
  = Some tomorrow ->
  exists w',
    createRevisionSchedulesForContent userId_ contentId_ topics_ w
    = (Ok tt, w') /\
    revisionSchedules w' =
      add_all
        ((fun topic => spec_initialDoc userId_ contentId_ topic tomorrow)
           <$> take k topics_)
        (revisionSchedules w) /\
    faults w' = fs /\
    console w' =
      "Error creating revision schedules:"
        :: "Error saving revision schedule:" :: console w.
Proof.
  intros Hf Hk Hts. eexists. split.
  - rewrite createRevisionSchedulesForContent_eq.
    rewrite (create_loop_fails _ _ _ tomorrow k _ _ fs);
      [reflexivity|assumption|exact Hf|assumption].
  - simpl. repeat split.
Qed.

Lemma creation_stops_at_first_failure_witness :
  exists w',
    createRevisionSchedulesForContent "u1" "c1"
      [sample_topic "a"; sample_topic "b"; sample_topic "c"] failing_world
    = (Ok tt, w') /\
    revisionSchedules w' =
      add_all
        ((fun topic => spec_initialDoc "u1" "c1" topic 1700086400000)
           <$> take 1 [sample_topic "a"; sample_topic "b"; sample_topic "c"])
        (revisionSchedules failing_world) /\
    faults w' = [] /\
    console w' =
      "Error creating revision schedules:"
        :: "Error saving revision schedule:" :: console failing_world.
Proof.
  apply (creation_stops_at_first_failure "u1" "c1"
           [sample_topic "a"; sample_topic "b"; sample_topic "c"]
           failing_world 1 [] 1700086400000).
  - reflexivity.
  - simpl. lia.
  - reflexivity.
Defined.

(** C5 fails as stated: of three topics whose second write fails, the
    third gets no schedule although the store would have taken it, and the
    result of the call does not tell. *)
Lemma later_topics_are_not_created :
  let run :=
    createRevisionSchedulesForContent "u1" "c1"
      [sample_topic "a"; sample_topic "b"; sample_topic "c"] failing_world in
  faults failing_world = [false; true] /\
  fst run = Ok tt /\
  (topicId ∘ snd) <$> map_to_list (revisionSchedules (snd run)) = ["t1"; "a"].
Proof. vm_compute. repeat split. Qed.

(** ** Queries *)

Lemma elem_of_insert_by_date x y l :
  y ∈ insert_by_date x l <-> y = x \/ y ∈ l.
Proof.
  induction l as [|z l IH]; simpl.
  - rewrite list_elem_of_singleton, elem_of_nil. tauto.
  - destruct (nextReviewDate (snd x) <=? nextReviewDate (snd z)).
    + rewrite elem_of_cons. tauto.
    + rewrite !elem_of_cons, IH. tauto.
Qed.

Lemma elem_of_orderBy_nextReviewDate y l :
  y ∈ orderBy_nextReviewDate l <-> y ∈ l.
Proof.
  unfold orderBy_nextReviewDate. induction l as [|x l IH]; simpl.
  - tauto.
  - rewrite elem_of_insert_by_date, elem_of_cons, IH. tauto.
Qed.

(** The documents of a query are documents of the collection that satisfy
    its [where] clauses. *)
Lemma elem_of_query where_ (m : gmap string (ScheduleData Timestamp)) kd :
  kd ∈ orderBy_nextReviewDate
         (filter (fun kd => where_ (snd kd) = true) (map_to_list m)) ->
  m !! fst kd = Some (snd kd) /\ where_ (snd kd) = true.
Proof.
  rewrite elem_of_orderBy_nextReviewDate, list_elem_of_filter.
  intros [Hw Hin]. destruct kd as [key d].
  apply elem_of_map_to_list in Hin. auto.
Qed.

(** A query that no document satisfies is empty. *)
Lemma query_nil where_ (m : gmap string (ScheduleData Timestamp)) :
  (forall key d, m !! key = Some d -> where_ d = false) ->
  orderBy_nextReviewDate
    (filter (fun kd => where_ (snd kd) = true) (map_to_list m)) = [].
Proof.
  intros Hnone.
  destruct (orderBy_nextReviewDate _) as [|kd l] eqn:E; [reflexivity|].
  assert (Hin : kd ∈ kd :: l) by (apply elem_of_cons; auto).
  rewrite <- E in Hin. apply elem_of_query in Hin as [Hm Hw].
  rewrite (Hnone _ _ Hm) in Hw. discriminate.
Qed.

Lemma getDocs_revisionSchedules_run where_ w :
  getDocs_revisionSchedules where_ w =
    (if hd false (faults w) then Throw Unavailable
     else Ok (orderBy_nextReviewDate
                (filter (fun kd => where_ (snd kd) = true)
                   (map_to_list (revisionSchedules w)))),
     after_requests 1 w).
Proof. destruct w as [rs sc t tk [|[] fl] co tz]; reflexivity. Qed.

(** [getRevisionSchedules] never throws and writes to no collection; the
    schedules it returns are stored schedules of the user it was given. *)
Lemma getRevisionSchedules_run userId_ w :
  exists schedules w',
    getRevisionSchedules userId_ w = (Ok schedules, w') /\
    revisionSchedules w' = revisionSchedules w /\
    storedContent w' = storedContent w /\
    forall schedule, schedule ∈ schedules ->
      exists d, revisionSchedules w !! id schedule = Some d /\
                userId d = userId_.
Proof.
  unfold getRevisionSchedules, try_catch, bind.
  rewrite getDocs_revisionSchedules_run.
  destruct (hd false (faults w)).
  - eexists _, _. split; [reflexivity|]. repeat split.
    intros schedule Hin. apply elem_of_nil in Hin. contradiction.
  - eexists _, _. split; [reflexivity|]. repeat split.
    intros schedule Hin. apply list_elem_of_fmap in Hin as (kd & -> & Hin).
    destruct (elem_of_query (fun d => bool_decide (userId d = userId_))
                _ _ Hin) as [Hm Hw].
    exists (snd kd). split; [exact Hm|].
    apply bool_decide_eq_true in Hw. exact Hw.
Qed.

(** Deleting the documents of a list leaves those of other keys. *)
Lemma for_of_deleteDoc_other key schedules : forall w r w',
  for_of schedules
    (fun schedule => deleteDoc revisionSchedulesC (id schedule)) w = (r, w') ->
  key ∉ id <$> schedules ->
  revisionSchedules w' !! key = revisionSchedules w !! key.
Proof.
  induction schedules as [|schedule schedules IH]; intros w r w' Hrun Hkey.
  - injection Hrun as <- <-. reflexivity.
  - rewrite fmap_cons, not_elem_of_cons in Hkey. destruct Hkey as [Hne Hkey].
    simpl in Hrun. destruct w as [rs sc t tk fl co tz].
    unfold bind at 1, deleteDoc, bind, request in Hrun.
    destruct fl as [|[] fl]; simpl in Hrun.
    + apply IH in Hrun; [|assumption]. rewrite Hrun. simpl.
      apply lookup_delete_ne. congruence.
    + injection Hrun as <- <-. reflexivity.
    + apply IH in Hrun; [|assumption]. rewrite Hrun. simpl.
      apply lookup_delete_ne. congruence.
Qed.

(** ** Deleting a content *)

(** C4 fails on the code: deleting a content deletes the schedules whose
    _user_ identifier is the identifier of the content.  A schedule that
    references the content, of a user with another identifier, is still
    stored after the call, whatever its outcome. *)
Theorem schedules_survive_their_content contentId_ w r w' key schedule :
  revisionSchedules w !! key = Some schedule ->
  contentId schedule = contentId_ ->
  userId schedule <> contentId_ ->
  deleteStoredContent contentId_ w = (r, w') ->
  revisionSchedules w' !! key = Some schedule.
Proof.
  intros Hs _ Huser Hrun. rewrite <- Hs.
  unfold deleteStoredContent, try_catch in Hrun.
  unfold bind at 1 in Hrun.
  destruct (deleteDoc storedContentC contentId_ w) as [[[]|e] w1] eqn:E1.
  - assert (Hw1 : revisionSchedules w1 = revisionSchedules w).
    { destruct w as [rs sc t tk fl co tz].
      unfold deleteDoc, bind, request in E1.
      destruct fl as [|[] fl]; simpl in E1; try discriminate;
        injection E1 as <-; reflexivity. }
    unfold bind at 1 in Hrun.
    destruct (getRevisionSchedules_run contentId_ w1)
      as (schedules & w2 & E2 & Hrs2 & _ & Hin).
    rewrite E2 in Hrun.
    assert (Hkey : key ∉ id <$> schedules).
    { intros Hk. apply list_elem_of_fmap in Hk as (x & -> & Hx).
      destruct (Hin _ Hx) as (d & Hd & Hu).
      rewrite Hw1, Hs in Hd. injection Hd as <-. contradiction. }
    destruct (for_of schedules _ w2) as [[[]|e] w3] eqn:E3.
    + injection Hrun as <- <-.
      rewrite (for_of_deleteDoc_other _ _ _ _ _ E3 Hkey). congruence.
    + unfold bind, console_error, throw in Hrun. injection Hrun as <- <-.
      simpl. rewrite (for_of_deleteDoc_other _ _ _ _ _ E3 Hkey). congruence.
  - unfold bind, console_error, throw in Hrun. injection Hrun as <- <-.
    destruct w as [rs sc t tk fl co tz].
    unfold deleteDoc, bind, request in E1.
    destruct fl as [|[] fl]; simpl in E1; try discriminate;
      injection E1 as <- <-; reflexivity.
Qed.

Lemma schedules_survive_their_content_witness :
  revisionSchedules (snd (deleteStoredContent "c1" sample_world)) !! "s1"
  = Some sample_schedule.
Proof.
  apply (schedules_survive_their_content "c1" sample_world
           (fst (deleteStoredContent "c1" sample_world)) _ "s1").
  - reflexivity.
  - reflexivity.
  - vm_compute. discriminate.
  - vm_compute. reflexivity.
Defined.

(** The deletion of the sample content succeeds, removes the content, and
    leaves its schedule in the store. *)
Lemma delete_sample_content :
  fst (deleteStoredContent "c1" sample_world) = Ok tt /\
  storedContent (snd (deleteStoredContent "c1" sample_world)) !! "c1" = None /\
  contentId <$>
    revisionSchedules (snd (deleteStoredContent "c1" sample_world)) !! "s1"
  = Some "c1".
Proof. vm_compute. repeat split. Qed.

(** ** Reading the schedules of a user *)

(** C10: when the read of the store fails, [getRevisionSchedules] and
    [getDueRevisions] log the error and return the empty list.  That is
    also what they return when the read succeeds (or not) for a user with
    no schedule, or with no schedule due: the result of the call does not
    tell a failed read from there being nothing to return. *)
Theorem failed_read_returns_empty_list userId_ w :
  hd false (faults w) = true ->
  (fst (getRevisionSchedules userId_ w) = Ok [] /\
   console (snd (getRevisionSchedules userId_ w)) =
     "Error getting revision schedules:" :: console w /\
   fst (getDueRevisions userId_ w) = Ok []) /\
  (forall w0,
     (forall key d, revisionSchedules w0 !! key = Some d ->
        userId d <> userId_) ->
     fst (getRevisionSchedules userId_ w0) = Ok []) /\
  (forall w0,
     (forall key d, revisionSchedules w0 !! key = Some d ->
        userId d = userId_ -> now w0 < nextReviewDate d) ->
     fst (getDueRevisions userId_ w0) = Ok []).
Proof.
  intros Hfail. split; [|split].
  - unfold getRevisionSchedules, getDueRevisions, try_catch, bind, new_Date,
      fromDate.
    rewrite getDocs_revisionSchedules_run, Hfail. simpl.
    split; [reflexivity|]. split; [reflexivity|].
    destruct (Timestamp_fromDate (DateAt (now w))); simpl; [|reflexivity].
    rewrite getDocs_revisionSchedules_run. simpl. rewrite Hfail. reflexivity.
  - intros w0 Hnone.
    unfold getRevisionSchedules, try_catch, bind.
    rewrite getDocs_revisionSchedules_run.
    destruct (hd false (faults w0)); [reflexivity|].
    pose proof (query_nil (fun d => bool_decide (userId d = userId_))
                  (revisionSchedules w0)) as E.
    cbv beta in E. rewrite E; [reflexivity|].
    intros key d Hd. apply bool_decide_eq_false. exact (Hnone _ _ Hd).
  - intros w0 Hnone.
    unfold getDueRevisions, try_catch, bind, new_Date, fromDate.
    destruct (Timestamp_fromDate (DateAt (now w0))) as [limit|] eqn:E;
      simpl; [|reflexivity].
    apply Timestamp_fromDate_Some in E. injection E as <-.
    rewrite getDocs_revisionSchedules_run. simpl.
    destruct (hd false (faults w0)); [reflexivity|].
    pose proof (query_nil
                  (fun d => bool_decide (userId d = userId_)
                            && (nextReviewDate d <=? now w0))
                  (revisionSchedules w0)) as E.
    cbv beta in E. rewrite E; [reflexivity|].
    intros key d Hd. apply andb_false_iff.
    destruct (decide (userId d = userId_)) as [Hu|Hu].
    + right. apply Z.leb_gt. exact (Hnone _ _ Hd Hu).
    + left. apply bool_decide_eq_false. exact Hu.
Qed.

Lemma failed_read_returns_empty_list_witness :
  (fst (getRevisionSchedules "u1" unreadable_world) = Ok [] /\
   console (snd (getRevisionSchedules "u1" unreadable_world)) =
     "Error getting revision schedules:" :: console unreadable_world /\
   fst (getDueRevisions "u1" unreadable_world) = Ok []) /\
  (forall w0,
     (forall key d, revisionSchedules w0 !! key = Some d ->
        userId d <> "u1") ->
     fst (getRevisionSchedules "u1" w0) = Ok []) /\
  (forall w0,
     (forall key d, revisionSchedules w0 !! key = Some d ->
        userId d = "u1" -> now w0 < nextReviewDate d) ->
     fst (getDueRevisions "u1" w0) = Ok []).
Proof.
  apply (failed_read_returns_empty_list "u1" unreadable_world).
  reflexivity.
Defined.

(** With a store that answers, the same user gets the stored schedule. *)
Lemma successful_read_returns_schedules :
  fst (getRevisionSchedules "u1" sample_world)
  = Ok [toRevisionSchedule ("s1", sample_schedule)].
Proof. vm_compute. reflexivity. Qed.

(** * More properties of the service *)

(** ** A review writes one schedule, or nothing *)

(** Every outcome of a review, spelled out. *)
Lemma updateRevisionAfterReview_cases scheduleId quality w :
  exists r w',
    updateRevisionAfterReview scheduleId quality w = (r, w') /\
    storedContent w' = storedContent w /\
    ((exists e, r = Throw e /\
        revisionSchedules w' = revisionSchedules w /\
        console w' = "Error updating revision schedule:" :: console w) \/
     (r = Ok tt /\ revisionSchedules w !! scheduleId = None /\
        revisionSchedules w' = revisionSchedules w /\
        console w' = console w) \/
     (r = Ok tt /\ console w' = console w /\
        exists schedule nextTs,
          revisionSchedules w !! scheduleId = Some schedule /\
          revisionSchedules w' =
            <[scheduleId :=
                spec_recordReview schedule quality
                  (now w + hd 0 (ticks w)) nextTs]>
              (revisionSchedules w))).
Proof.
  destruct w as [rs sc t tk fl co tz].
  unfold updateRevisionAfterReview. unfold_js. simpl.
  destruct fl as [|[] fl]; simpl.
  2: { eexists _, _. split; [reflexivity|]. split; [reflexivity|].
       left. eexists. repeat split. }
  all: destruct (rs !! scheduleId) as [schedule|] eqn:Hs; simpl.
  all: try (eexists _, _; split; [reflexivity|]; split; [reflexivity|];
            right; left; repeat split; assumption).
  all: destruct (Timestamp_fromDate (DateAt (t + hd 0 tk)))
         as [lastTs|] eqn:EL; simpl.
  all: try (eexists _, _; split; [reflexivity|]; split; [reflexivity|];
            left; eexists; repeat split).
  all: apply Timestamp_fromDate_Some in EL; injection EL as <-.
  all: destruct (Timestamp_fromDate (Date_addDays _ _ _)) as [nextTs|] eqn:EN;
         simpl.
  all: try (eexists _, _; split; [reflexivity|]; split; [reflexivity|];
            left; eexists; repeat split).
  - rewrite Hs. simpl. eexists _, _. split; [reflexivity|].
    split; [reflexivity|]. right; right. repeat split.
    exists schedule, nextTs. split; reflexivity.
  - destruct fl as [|[] fl]; simpl.
    + rewrite Hs. simpl. eexists _, _. split; [reflexivity|].
      split; [reflexivity|]. right; right. repeat split.
      exists schedule, nextTs. split; reflexivity.
    + eexists _, _. split; [reflexivity|]. split; [reflexivity|].
      left. eexists. repeat split.
    + rewrite Hs. simpl. eexists _, _. split; [reflexivity|].
      split; [reflexivity|]. right; right. repeat split.
      exists schedule, nextTs. split; reflexivity.
Qed.

(** X1: a review that throws has written nothing: the two collections are
    as they were before the call, and the error has been logged once. *)
Theorem failed_review_writes_nothing scheduleId quality w e w' :
  updateRevisionAfterReview scheduleId quality w = (Throw e, w') ->
  revisionSchedules w' = revisionSchedules w /\
  storedContent w' = storedContent w /\
  console w' = "Error updating revision schedule:" :: console w.
Proof.
  intros Hrun.
  destruct (updateRevisionAfterReview_cases scheduleId quality w)
    as (r & w1 & E & Hsc & Hcases).
  rewrite Hrun in E. injection E as <- <-.
  destruct Hcases as [(e' & _ & Hrs & Hco)|[(Habs & _)|(Habs & _)]];
    try discriminate.
  auto.
Qed.

Lemma failed_review_writes_nothing_witness :
  revisionSchedules (snd (updateRevisionAfterReview "s1" n5 failing_world))
  = revisionSchedules failing_world /\
  storedContent (snd (updateRevisionAfterReview "s1" n5 failing_world))
  = storedContent failing_world /\
  console (snd (updateRevisionAfterReview "s1" n5 failing_world))
  = "Error updating revision schedule:" :: console failing_world.
Proof.
  apply (failed_review_writes_nothing "s1" n5 failing_world Unavailable).
  vm_compute. reflexivity.
Defined.

(** X2: whatever its outcome, a review leaves every other schedule and
    every stored content as they were. *)
Theorem review_leaves_other_schedules scheduleId quality w r w' key :
  updateRevisionAfterReview scheduleId quality w = (r, w') ->
  key <> scheduleId ->
  revisionSchedules w' !! key = revisionSchedules w !! key /\
  storedContent w' = storedContent w.
Proof.
  intros Hrun Hkey.
  destruct (updateRevisionAfterReview_cases scheduleId quality w)
    as (r1 & w1 & E & Hsc & Hcases).
  rewrite Hrun in E. injection E as <- <-. split; [|assumption].
  destruct Hcases
    as [(e' & _ & Hrs & _)|[(_ & _ & Hrs & _)|(_ & _ & s & ts & _ & Hrs)]];
    rewrite Hrs; [reflexivity..|].
  apply lookup_insert_ne. congruence.
Qed.

Lemma review_leaves_other_schedules_witness :
  revisionSchedules
    (snd (updateRevisionAfterReview "s1" n5 two_schedules_world)) !! "s2"
  = revisionSchedules two_schedules_world !! "s2" /\
  storedContent (snd (updateRevisionAfterReview "s1" n5 two_schedules_world))
  = storedContent two_schedules_world.
Proof.
  apply (review_leaves_other_schedules "s1" n5 two_schedules_world
           (fst (updateRevisionAfterReview "s1" n5 two_schedules_world))).
  - vm_compute. reflexivity.
  - discriminate.
Defined.

(** X3: a successful review keeps the owner, the content, the topic and
    the schedule type of the schedule. *)
Theorem review_keeps_identity scheduleId quality w w' schedule :
  revisionSchedules w !! scheduleId = Some schedule ->
  updateRevisionAfterReview scheduleId quality w = (Ok tt, w') ->
  exists stored,
    revisionSchedules w' !! scheduleId = Some stored /\
    userId stored = userId schedule /\
    contentId stored = contentId schedule /\
    topicId stored = topicId schedule /\
    topicName stored = topicName schedule /\
    scheduleType stored = scheduleType schedule.
Proof.
  intros Hs Hrun.
  destruct (updateRevisionAfterReview_inv _ _ _ _ _ Hs Hrun)
    as (nextTs & _ & Hdb & _).
  eexists. split; [rewrite Hdb; apply lookup_insert_eq|].
  repeat split.
Qed.

Lemma review_keeps_identity_witness :
  exists stored,
    revisionSchedules (snd (updateRevisionAfterReview "s1" n3 sample_world))
      !! "s1" = Some stored /\
    userId stored = userId sample_schedule /\
    contentId stored = contentId sample_schedule /\
    topicId stored = topicId sample_schedule /\
    topicName stored = topicName sample_schedule /\
    scheduleType stored = scheduleType sample_schedule.
Proof.
  apply (review_keeps_identity "s1" n3 sample_world _ sample_schedule).
  - reflexivity.
  - vm_compute. reflexivity.
Defined.

(** ** What the queries return *)

Lemma elem_of_query_iff where_ (m : gmap string (ScheduleData Timestamp)) kd :
  kd ∈ orderBy_nextReviewDate
         (filter (fun kd => where_ (snd kd) = true) (map_to_list m)) <->
  m !! fst kd = Some (snd kd) /\ where_ (snd kd) = true.
Proof.
  rewrite elem_of_orderBy_nextReviewDate, list_elem_of_filter.
  destruct kd as [key d]. rewrite elem_of_map_to_list. simpl. tauto.
Qed.

Lemma insert_by_date_sorted x l :
  StronglySorted
    (fun a b => nextReviewDate (snd a) <= nextReviewDate (snd b)) l ->
  StronglySorted
    (fun a b => nextReviewDate (snd a) <= nextReviewDate (snd b))
    (insert_by_date x l).
Proof.
  induction 1 as [|y l Hl IH Hy]; simpl.
  - repeat constructor.
  - match goal with
    | |- context [?a <=? ?b] => destruct (Z.leb_spec a b) as [E|E]
    end.
    + constructor; [constructor; assumption|].
      constructor; [assumption|].
      eapply Forall_impl; [exact Hy|]. simpl. intros z Hz.
      exact (Z.le_trans _ _ _ E Hz).
    + constructor; [assumption|].
      apply Forall_forall. intros z Hz.
      apply elem_of_insert_by_date in Hz as [->|Hz];
        [exact (Z.lt_le_incl _ _ E)|].
      rewrite Forall_forall in Hy. exact (Hy z Hz).
Qed.

Lemma orderBy_nextReviewDate_sorted l :
  StronglySorted
    (fun a b => nextReviewDate (snd a) <= nextReviewDate (snd b))
    (orderBy_nextReviewDate l).
Proof.
  unfold orderBy_nextReviewDate. induction l as [|x l IH]; simpl.
  - constructor.
  - apply insert_by_date_sorted, IH.
Qed.

Lemma insert_by_date_Permutation x l : insert_by_date x l ≡ₚ x :: l.
Proof.
  induction l as [|y l IH]; simpl; [reflexivity|].
  destruct (nextReviewDate (snd x) <=? nextReviewDate (snd y));
    [reflexivity|].
  rewrite IH. apply Permutation_swap.
Qed.

Lemma orderBy_nextReviewDate_Permutation l : orderBy_nextReviewDate l ≡ₚ l.
Proof.
  unfold orderBy_nextReviewDate. induction l as [|x l IH]; simpl.
  - reflexivity.
  - rewrite insert_by_date_Permutation, IH. reflexivity.
Qed.

(** The documents of a query, in the order of their review dates, each
    once. *)
Lemma query_sorted_NoDup where_ (m : gmap string (ScheduleData Timestamp)) :
  let l := toRevisionSchedule <$>
             orderBy_nextReviewDate
               (filter (fun kd => where_ (snd kd) = true) (map_to_list m)) in
  StronglySorted due_before l /\ NoDup (id <$> l).
Proof.
  simpl. split.
  - pose proof (orderBy_nextReviewDate_sorted
                  (filter (fun kd => where_ (snd kd) = true) (map_to_list m)))
      as Hs.
    induction Hs as [|x l Hl IH Hx]; simpl; constructor; [assumption|].
    rewrite Forall_fmap. eapply Forall_impl; [exact Hx|].
    intros y Hy. exact Hy.
  - rewrite <- list_fmap_compose.
    rewrite orderBy_nextReviewDate_Permutation.
    apply (NoDup_fmap_2_strong _).
    + intros [k1 d1] [k2 d2] H1 H2 Hk. simpl in Hk. subst k2.
      apply list_elem_of_filter in H1 as [_ H1].
      apply list_elem_of_filter in H2 as [_ H2].
      apply elem_of_map_to_list in H1, H2. congruence.
    + apply NoDup_filter, NoDup_map_to_list.
Qed.

(** The result of [getDueRevisions]: the query, or the empty list when
    the store or the SDK fails. *)
Lemma getDueRevisions_run userId_ w :
  exists w',
    revisionSchedules w' = revisionSchedules w /\
    storedContent w' = storedContent w /\
    (getDueRevisions userId_ w = (Ok [], w') \/
     Timestamp_fromDate (DateAt (now w)) = Some (now w) /\
     hd false (faults w) = false /\
     getDueRevisions userId_ w =
       (Ok (toRevisionSchedule <$>
              orderBy_nextReviewDate
                (filter
                   (fun kd =>
                      bool_decide (userId (snd kd) = userId_)
                      && (nextReviewDate (snd kd) <=? now w) = true)
                   (map_to_list (revisionSchedules w)))), w')).
Proof.
  unfold getDueRevisions, try_catch, bind, new_Date, fromDate.
  destruct (Timestamp_fromDate (DateAt (now w))) as [limit|] eqn:E; simpl.
  - apply Timestamp_fromDate_Some in E. injection E as <-.
    rewrite getDocs_revisionSchedules_run. simpl.
    destruct (hd false (faults w)) eqn:F; simpl.
    + eexists. split; [|split; [|left; reflexivity]]; reflexivity.
    + eexists. split; [|split; [|right; repeat split; reflexivity]];
        reflexivity.
  - eexists. split; [|split; [|left; reflexivity]]; reflexivity.
Qed.

(** X4: when the store answers, [getDueRevisions] returns the schedules
    of the user whose next review date is not after the reading of the
    clock, all of them and no other. *)
Theorem due_revisions_are_the_due_schedules userId_ w :
  requests_ok 1 w = true ->
  Timestamp_fromDate (DateAt (now w)) = Some (now w) ->
  exists due,
    fst (getDueRevisions userId_ w) = Ok due /\
    forall schedule,
      schedule ∈ due <->
      exists key d,
        schedule = toRevisionSchedule (key, d) /\
        revisionSchedules w !! key = Some d /\
        userId d = userId_ /\
        nextReviewDate d <= now w.
Proof.
  intros Hreq Hts.
  assert (Hf : hd false (faults w) = false).
  { unfold requests_ok in Hreq. destruct (faults w) as [|[] fl];
      simpl in *; congruence. }
  unfold getDueRevisions, try_catch, bind, new_Date, fromDate.
  rewrite Hts. simpl. rewrite getDocs_revisionSchedules_run. simpl.
  rewrite Hf. simpl. eexists. split; [reflexivity|].
  intros schedule. rewrite list_elem_of_fmap. split.
  - intros ([key d] & -> & Hin).
    destruct (elem_of_query
                (fun d => bool_decide (userId d = userId_)
                          && (nextReviewDate d <=? now w)) _ _ Hin)
      as [Hm Hw].
    simpl in Hm, Hw. apply andb_true_iff in Hw as [Hu Hd].
    apply bool_decide_eq_true in Hu. apply Z.leb_le in Hd.
    exists key, d. auto.
  - intros (key & d & -> & Hm & Hu & Hd). exists (key, d).
    split; [reflexivity|].
    refine (proj2 (elem_of_query_iff
                     (fun d => bool_decide (userId d = userId_)
                               && (nextReviewDate d <=? now w))
                     _ (key, d)) _).
    simpl. split; [assumption|]. apply andb_true_iff. split.
    + apply bool_decide_eq_true. assumption.
    + apply Z.leb_le. assumption.
Qed.

Lemma due_revisions_are_the_due_schedules_witness :
  exists due,
    fst (getDueRevisions "u1" two_schedules_world) = Ok due /\
    forall schedule,
      schedule ∈ due <->
      exists key d,
        schedule = toRevisionSchedule (key, d) /\
        revisionSchedules two_schedules_world !! key = Some d /\
        userId d = "u1" /\
        nextReviewDate d <= now two_schedules_world.
Proof.
  apply (due_revisions_are_the_due_schedules "u1" two_schedules_world).
  - reflexivity.
  - reflexivity.
Defined.

Lemma revision_schedules_are_those_of_the_user_aux userId_ w :
  requests_ok 1 w = true ->
  exists schedules,
    fst (getRevisionSchedules userId_ w) = Ok schedules /\
    forall schedule,
      schedule ∈ schedules <->
      exists key d,
        schedule = toRevisionSchedule (key, d) /\
        revisionSchedules w !! key = Some d /\
        userId d = userId_.
Proof.
  intros Hreq.
  assert (Hf : hd false (faults w) = false).
  { unfold requests_ok in Hreq. destruct (faults w) as [|[] fl];
      simpl in *; congruence. }
  unfold getRevisionSchedules, try_catch, bind.
  rewrite getDocs_revisionSchedules_run, Hf. simpl.
  eexists. split; [reflexivity|].
  intros schedule. rewrite list_elem_of_fmap. split.
  - intros ([key d] & -> & Hin).
    destruct (elem_of_query (fun d => bool_decide (userId d = userId_))
                _ _ Hin) as [Hm Hu].
    simpl in Hm, Hu. apply bool_decide_eq_true in Hu.
    exists key, d. auto.
  - intros (key & d & -> & Hm & Hu). exists (key, d).
    split; [reflexivity|].
    refine (proj2 (elem_of_query_iff
                     (fun d => bool_decide (userId d = userId_))
                     _ (key, d)) _).
    simpl. split; [assumption|]. apply bool_decide_eq_true. assumption.
Qed.

(** X5: when the store answers, [getRevisionSchedules] returns the
    schedules whose [userId] is its argument, all of them and no other. *)
Theorem revision_schedules_are_those_of_the_user userId_ w :
  requests_ok 1 w = true ->
  exists schedules,
    fst (getRevisionSchedules userId_ w) = Ok schedules /\
    forall schedule,
      schedule ∈ schedules <->
      exists key d,
        schedule = toRevisionSchedule (key, d) /\
        revisionSchedules w !! key = Some d /\
        userId d = userId_.
Proof. exact (revision_schedules_are_those_of_the_user_aux userId_ w). Qed.

Lemma revision_schedules_are_those_of_the_user_witness :
  exists schedules,
    fst (getRevisionSchedules "u1" two_schedules_world) = Ok schedules /\
    forall schedule,
      schedule ∈ schedules <->
      exists key d,
        schedule = toRevisionSchedule (key, d) /\
        revisionSchedules two_schedules_world !! key = Some d /\
        userId d = "u1".
Proof.
  apply (revision_schedules_are_those_of_the_user "u1" two_schedules_world).
  reflexivity.
Defined.

(** X6: the list that [getRevisionSchedules] or [getDueRevisions] returns
    is in ascending order of next review date and holds no schedule
    twice. *)
Theorem schedules_come_sorted_and_once userId_ w schedules :
  fst (getRevisionSchedules userId_ w) = Ok schedules \/
  fst (getDueRevisions userId_ w) = Ok schedules ->
  StronglySorted due_before schedules /\ NoDup (id <$> schedules).
Proof.
  assert (Hnil : StronglySorted due_before [] /\
                 NoDup (id <$> @nil RevisionSchedule)).
  { split; constructor. }
  intros [H|H].
  - unfold getRevisionSchedules, try_catch, bind in H.
    rewrite getDocs_revisionSchedules_run in H.
    destruct (hd false (faults w)); simpl in H; injection H as <-;
      [exact Hnil|].
    pose proof (query_sorted_NoDup
                  (fun d => bool_decide (userId d = userId_))
                  (revisionSchedules w)) as Hq.
    exact Hq.
  - destruct (getDueRevisions_run userId_ w)
      as (w' & _ & _ & [E|(_ & _ & E)]);
      rewrite E in H; simpl in H; injection H as <-; [exact Hnil|].
    pose proof (query_sorted_NoDup
                  (fun d => bool_decide (userId d = userId_)
                            && (nextReviewDate d <=? now w))
                  (revisionSchedules w)) as Hq.
    exact Hq.
Qed.

Lemma schedules_come_sorted_and_once_witness :
  StronglySorted due_before
    [toRevisionSchedule ("s1", sample_schedule);
     toRevisionSchedule ("s2", other_schedule)] /\
  NoDup (id <$> [toRevisionSchedule ("s1", sample_schedule);
                 toRevisionSchedule ("s2", other_schedule)]).
Proof.
  apply (schedules_come_sorted_and_once "u1" two_schedules_world).
  left. vm_compute. reflexivity.
Defined.

(** X7: the two queries never throw and never write: they return a list,
    and the two collections are as they were. *)
Theorem queries_only_read userId_ w :
  (exists schedules w',
     getRevisionSchedules userId_ w = (Ok schedules, w') /\
     revisionSchedules w' = revisionSchedules w /\
     storedContent w' = storedContent w) /\
  (exists due w',
     getDueRevisions userId_ w = (Ok due, w') /\
     revisionSchedules w' = revisionSchedules w /\
     storedContent w' = storedContent w).
Proof.
  split.
  - destruct (getRevisionSchedules_run userId_ w)
      as (l & w' & E & Hrs & Hsc & _).
    exists l, w'. auto.
  - destruct (getDueRevisions_run userId_ w)
      as (w' & Hrs & Hsc & [E|(_ & _ & E)]);
      eexists _, w'; (split; [exact E|]); auto.
Qed.

(** ** What the batch creation does in every case *)

Lemma add_all_subseteq {D} (ds : list D) : forall m : gmap string D,
  m ⊆ add_all ds m.
Proof.
  induction ds as [|d ds IH]; intros m; [reflexivity|].
  change (add_all (d :: ds) m)
    with (add_all ds (<[fresh (dom m) := d]> m)).
  etransitivity; [|apply IH].
  apply insert_subseteq, not_elem_of_dom, is_fresh.
Qed.

(** A document of [add_all ds m] is a document of [m] or one of [ds]. *)
Lemma add_all_lookup {D} (ds : list D) : forall (m : gmap string D) key d,
  add_all ds m !! key = Some d -> m !! key = Some d \/ d ∈ ds.
Proof.
  induction ds as [|d0 ds IH]; intros m key d Hd; [left; exact Hd|].
  change (add_all (d0 :: ds) m)
    with (add_all ds (<[fresh (dom m) := d0]> m)) in Hd.
  apply IH in Hd as [Hd|Hd].
  - destruct (decide (fresh (dom m) = key)) as [<-|Hne].
    + rewrite lookup_insert_eq in Hd. injection Hd as <-.
      right. apply elem_of_cons. auto.
    + rewrite lookup_insert_ne in Hd by assumption. left. exact Hd.
  - right. apply elem_of_cons. auto.
Qed.

(** A schedule whose next review date the SDK refuses is not written. *)
Lemma saveRevisionSchedule_refused schedule w :
  Timestamp_fromDate (nextReviewDate schedule) = None ->
  saveRevisionSchedule schedule w =
    (Throw InvalidArgument,
     mkWorld (revisionSchedules w) (storedContent w) (now w) (ticks w)
       (faults w) ("Error saving revision schedule:" :: console w) (zone w)).
Proof.
  intros H. unfold saveRevisionSchedule, try_catch, bind at 1, fromDate.
  rewrite H. reflexivity.
Qed.

(** The loop stops at the first write that fails, whatever the store
    does. *)
Lemma create_loop_prefix userId_ contentId_ tomorrow ts topics_ : forall w,
  Timestamp_fromDate tomorrow = Some ts ->
  exists k r w',
    create_loop userId_ contentId_ tomorrow topics_ w = (r, w') /\
    (k <= length topics_)%nat /\
    revisionSchedules w' =
      add_all
        ((fun topic => spec_initialDoc userId_ contentId_ topic ts)
           <$> take k topics_)
        (revisionSchedules w) /\
    storedContent w' = storedContent w.
Proof.
  induction topics_ as [|topic topics_ IH]; intros w Hts.
  - exists 0%nat. eexists _, _. split; [reflexivity|]. simpl. auto.
  - unfold create_loop. simpl for_of. unfold bind at 1 2.
    rewrite (saveRevisionSchedule_initial _ _ _ _ ts) by assumption.
    destruct (hd false (faults w)).
    + exists 0%nat. eexists _, _. split; [reflexivity|]. simpl.
      split; [lia|]. auto.
    + fold (create_loop userId_ contentId_ tomorrow topics_).
      unfold ret at 1. cbv beta iota.
      match goal with
      | |- context [create_loop _ _ _ _ ?w1] =>
          destruct (IH w1 Hts) as (k & r & w' & E & Hk & Hrs & Hsc)
      end.
      exists (S k), r, w'. split; [exact E|]. simpl in *.
      split; [lia|]. auto.
Qed.

(** The batch in every case: a prefix of the topics is written. *)
Lemma createRevisionSchedulesForContent_cases userId_ contentId_ topics_ w :
  exists k w',
    createRevisionSchedulesForContent userId_ contentId_ topics_ w
    = (Ok tt, w') /\
    (k <= length topics_)%nat /\
    revisionSchedules w' =
      add_all
        ((fun topic =>
            mkSchedule userId_ contentId_ (topic_id topic)
              (topic_name topic) daily
              (UTC (zone w) (LocalTime (zone w) (now w) + msPerDay)) None
              n0 n0 n1 n2_5)
           <$> take k topics_)
        (revisionSchedules w) /\
    revisionSchedules w ⊆ revisionSchedules w' /\
    storedContent w' = storedContent w.
Proof.
  rewrite createRevisionSchedulesForContent_eq.
  destruct (Timestamp_fromDate (Date_addDays (zone w) (DateAt (now w)) n1))
    as [ts|] eqn:Hts.
  - pose proof (one_day_later _ _ _ Hts) as Hday.
    rewrite <- Hday. clear Hday.
    match goal with
    | |- context [create_loop _ _ ?d _ ?w1] =>
        destruct (create_loop_prefix userId_ contentId_ d _ topics_ w1 Hts)
          as (k & r & w' & E & Hk & Hrs & Hsc)
    end.
    rewrite E. simpl in Hrs, Hsc.
    assert (Hsub : revisionSchedules w ⊆ revisionSchedules w')
      by (rewrite Hrs; apply add_all_subseteq).
    exists k. destruct r as [[]|e]; eexists; (split; [reflexivity|]);
      simpl; auto.
  - exists 0%nat. destruct topics_ as [|topic topics_].
    + eexists. split; [reflexivity|]. simpl. auto.
    + unfold create_loop. simpl for_of. unfold bind at 1 2.
      rewrite saveRevisionSchedule_refused by exact Hts.
      eexists. split; [reflexivity|]. simpl. split; [lia|]. auto.
Qed.

(** X8: [createRevisionSchedulesForContent] returns normally whatever the
    store does.  It has added the initial schedules of the first topics of
    the list, up to some position, and nothing else, each due at the same
    local time on the day after the reading of the clock; every schedule
    stored before is still there, unchanged, and the stored contents are
    as they were. *)
Theorem creation_never_throws_and_only_adds userId_ contentId_ topics_ w :
  exists k w',
    createRevisionSchedulesForContent userId_ contentId_ topics_ w
    = (Ok tt, w') /\
    (k <= length topics_)%nat /\
    revisionSchedules w' =
      add_all
        ((fun topic =>
            mkSchedule userId_ contentId_ (topic_id topic)
              (topic_name topic) daily
              (UTC (zone w) (LocalTime (zone w) (now w) + msPerDay)) None
              n0 n0 n1 n2_5)
           <$> take k topics_)
        (revisionSchedules w) /\
    revisionSchedules w ⊆ revisionSchedules w' /\
    storedContent w' = storedContent w.
Proof.
  exact (createRevisionSchedulesForContent_cases userId_ contentId_ topics_ w).
Qed.

(** X9: a schedule that [createRevisionSchedulesForContent] has just
    added is not due until the same local time on the next day: as long as
    the clock reads less than the reading of the creation moved by one
    calendar day, and nothing else has been written, every schedule that
    [getDueRevisions] returns was stored before the creation. *)
Theorem new_schedules_are_not_due
    userId_ contentId_ topics_ w r w' reader later due schedule :
  createRevisionSchedulesForContent userId_ contentId_ topics_ w = (r, w') ->
  revisionSchedules later = revisionSchedules w' ->
  now later < UTC (zone w) (LocalTime (zone w) (now w) + msPerDay) ->
  fst (getDueRevisions reader later) = Ok due ->
  schedule ∈ due ->
  is_Some (revisionSchedules w !! id schedule).
Proof.
  intros Hrun Hsame Hnow Hdue Hin.
  destruct (createRevisionSchedulesForContent_cases userId_ contentId_
              topics_ w)
    as (k & w1 & E & _ & Hrs & _ & _).
  rewrite Hrun in E. injection E as -> <-.
  destruct (getDueRevisions_run reader later)
    as (w2 & _ & _ & [E|(_ & _ & E)]);
    rewrite E in Hdue; simpl in Hdue; injection Hdue as <-.
  { apply elem_of_nil in Hin. contradiction. }
  apply list_elem_of_fmap in Hin as ([key d] & -> & Hin).
  destruct (elem_of_query
              (fun d => bool_decide (userId d = reader)
                        && (nextReviewDate d <=? now later)) _ _ Hin)
    as [Hm Hw].
  simpl in Hm, Hw |- *. apply andb_true_iff in Hw as [_ Hd].
  apply Z.leb_le in Hd.
  rewrite Hsame, Hrs in Hm. apply add_all_lookup in Hm as [Hm|Hm].
  - rewrite Hm. eauto.
  - apply list_elem_of_fmap in Hm as (topic & -> & _). simpl in Hd. lia.
Qed.

Lemma new_schedules_are_not_due_witness :
  is_Some
    (revisionSchedules autumn_world
       !! id (toRevisionSchedule ("s1", sample_schedule))).
Proof.
  apply (new_schedules_are_not_due "u1" "c9"
           [sample_topic "a"; sample_topic "b"] autumn_world
           (fst (createRevisionSchedulesForContent "u1" "c9"
                   [sample_topic "a"; sample_topic "b"] autumn_world))
           (snd (createRevisionSchedulesForContent "u1" "c9"
                   [sample_topic "a"; sample_topic "b"] autumn_world))
           "u1"
           (a_day_later
              (snd (createRevisionSchedulesForContent "u1" "c9"
                      [sample_topic "a"; sample_topic "b"] autumn_world)))
           [toRevisionSchedule ("s1", sample_schedule)]).
  - reflexivity.
  - reflexivity.
  - reflexivity.
  - reflexivity.
  - constructor.
Defined.

(** ** A review and the next query *)

(** X10: a schedule reviewed with a quality below 3 is due again at the
    same local time on the next day, not before: as long as the clock
    reads less than the reading of the review moved by one calendar day,
    and nothing else has been written, [getDueRevisions] does not return
    it. *)
Theorem failed_item_is_not_due_the_same_day
    scheduleId quality w w' schedule reader later due :
  revisionSchedules w !! scheduleId = Some schedule ->
  ltb quality n3 = true ->
  updateRevisionAfterReview scheduleId quality w = (Ok tt, w') ->
  revisionSchedules later = revisionSchedules w' ->
  now later < UTC (zone w) (LocalTime (zone w) (now w) + msPerDay) ->
  fst (getDueRevisions reader later) = Ok due ->
  scheduleId ∉ id <$> due.
Proof.
  intros Hs Hq Hrun Hsame Hnow Hdue Hin.
  destruct (updateRevisionAfterReview_inv _ _ _ _ _ Hs Hrun)
    as (nextTs & Hnext & Hdb & _).
  unfold spec_newInterval in Hnext. rewrite Hq in Hnext.
  apply one_day_later in Hnext. subst nextTs.
  destruct (getDueRevisions_run reader later)
    as (w2 & _ & _ & [E|(_ & _ & E)]);
    rewrite E in Hdue; simpl in Hdue; injection Hdue as <-.
  { apply elem_of_nil in Hin. contradiction. }
  rewrite <- list_fmap_compose in Hin.
  apply list_elem_of_fmap in Hin as ([key d] & Hkey & Hin).
  simpl in Hkey. subst key.
  destruct (elem_of_query
              (fun d => bool_decide (userId d = reader)
                        && (nextReviewDate d <=? now later)) _ _ Hin)
    as [Hm Hw].
  simpl in Hm, Hw. apply andb_true_iff in Hw as [_ Hd].
  apply Z.leb_le in Hd.
  rewrite Hsame, Hdb, lookup_insert_eq in Hm. injection Hm as <-.
  simpl in Hd. lia.
Qed.

Lemma failed_item_is_not_due_the_same_day_witness :
  "s1" ∉ id <$> @nil RevisionSchedule.
Proof.
  apply (failed_item_is_not_due_the_same_day "s1" n1 autumn_world
           (snd (updateRevisionAfterReview "s1" n1 autumn_world))
           sample_schedule "u1"
           (a_day_later
              (snd (updateRevisionAfterReview "s1" n1 autumn_world)))).
  - reflexivity.
  - reflexivity.
  - reflexivity.
  - reflexivity.
  - reflexivity.
  - reflexivity.
Defined.

(** ** Saving a schedule and reading it back *)

Lemma Timestamp_round_trip d ts :
  Timestamp_fromDate d = Some ts -> Timestamp_toDate ts = d.
Proof. intros H. apply Timestamp_fromDate_Some in H. subst d. reflexivity. Qed.

(** A successful save has written the stored form of the schedule under a
    new key. *)
Lemma saveRevisionSchedule_inv schedule w key w' :
  saveRevisionSchedule schedule w = (Ok key, w') ->
  revisionSchedules w !! key = None /\
  storedContent w' = storedContent w /\
  exists d,
    revisionSchedules w' = <[key := d]> (revisionSchedules w) /\
    toRevisionSchedule (key, d) = mkRevisionSchedule key schedule.
Proof.
  intros Hrun. destruct w as [rs sc t tk fl co tz].
  destruct schedule as [u c ti tn st next last rc ml iv ef].
  unfold saveRevisionSchedule in Hrun. unfold_js. simpl in Hrun.
  destruct (Timestamp_fromDate next) as [nextTs|] eqn:EN; simpl in Hrun;
    [|discriminate].
  apply Timestamp_round_trip in EN.
  destruct last as [last|]; simpl in Hrun.
  - destruct (Timestamp_fromDate last) as [lastTs|] eqn:EL; simpl in Hrun;
      [|discriminate].
    apply Timestamp_round_trip in EL.
    destruct fl as [|[] fl]; simpl in Hrun; try discriminate;
      injection Hrun as <- <-; simpl;
      (split; [apply not_elem_of_dom, is_fresh|]);
      (split; [reflexivity|]); eexists; (split; [reflexivity|]);
      unfold toRevisionSchedule; simpl; rewrite EN, EL; reflexivity.
  - destruct fl as [|[] fl]; simpl in Hrun; try discriminate;
      injection Hrun as <- <-; simpl;
      (split; [apply not_elem_of_dom, is_fresh|]);
      (split; [reflexivity|]); eexists; (split; [reflexivity|]);
      unfold toRevisionSchedule; simpl; rewrite EN; reflexivity.
Qed.

(** X11: a schedule that [saveRevisionSchedule] has saved gets an
    identifier that no stored schedule had, overwrites nothing, and comes
    back from [getRevisionSchedules] for its user as it was given, dates
    included, under that identifier. *)
Theorem saved_schedule_is_read_back schedule w key w' later :
  saveRevisionSchedule schedule w = (Ok key, w') ->
  revisionSchedules later = revisionSchedules w' ->
  requests_ok 1 later = true ->
  revisionSchedules w !! key = None /\
  revisionSchedules w ⊆ revisionSchedules w' /\
  exists schedules,
    fst (getRevisionSchedules (userId schedule) later) = Ok schedules /\
    mkRevisionSchedule key schedule ∈ schedules.
Proof.
  intros Hrun Hsame Hreq.
  destruct (saveRevisionSchedule_inv _ _ _ _ Hrun)
    as (Hnew & _ & d & Hrs & Hd).
  split; [assumption|]. split.
  { rewrite Hrs. apply insert_subseteq. assumption. }
  destruct (revision_schedules_are_those_of_the_user_aux
              (userId schedule) later Hreq) as (l & El & Hl).
  exists l. split; [assumption|]. apply Hl. exists key, d.
  split; [symmetry; assumption|].
  split; [rewrite Hsame, Hrs; apply lookup_insert_eq|].
  apply (f_equal data) in Hd. simpl in Hd.
  apply (f_equal userId) in Hd. exact Hd.
Qed.

Lemma saved_schedule_is_read_back_witness :
  revisionSchedules sample_world !! "0" = None /\
  revisionSchedules sample_world
  ⊆ revisionSchedules
      (snd (saveRevisionSchedule
              (data (toRevisionSchedule ("s2", other_schedule)))
              sample_world)) /\
  exists schedules,
    fst (getRevisionSchedules
           (userId (data (toRevisionSchedule ("s2", other_schedule))))
           (snd (saveRevisionSchedule
                   (data (toRevisionSchedule ("s2", other_schedule)))
                   sample_world)))
    = Ok schedules /\
    mkRevisionSchedule "0"
      (data (toRevisionSchedule ("s2", other_schedule))) ∈ schedules.
Proof.
  apply (saved_schedule_is_read_back
           (data (toRevisionSchedule ("s2", other_schedule)))
           sample_world "0").
  - vm_compute. reflexivity.
  - reflexivity.
  - reflexivity.
Defined.

(** ** What deleting a content deletes *)

Lemma deleteDoc_storedContent_run contentId_ w :
  deleteDoc storedContentC contentId_ w =
    (if hd false (faults w) then Throw Unavailable else Ok tt,
     mkWorld (revisionSchedules w)
       (if hd false (faults w) then storedContent w
        else delete contentId_ (storedContent w))
       (now w) (ticks w) (tl (faults w)) (console w) (zone w)).
Proof. destruct w as [rs sc t tk [|[] fl] co tz]; reflexivity. Qed.

(** A loop of deletions that completes has deleted the schedules of the
    list and no other. *)
Lemma for_of_deleteDoc_ok schedules : forall w w' key,
  for_of schedules
    (fun schedule => deleteDoc revisionSchedulesC (id schedule)) w
  = (Ok tt, w') ->
  storedContent w' = storedContent w /\
  revisionSchedules w' !! key =
    if decide (key ∈ id <$> schedules) then None
    else revisionSchedules w !! key.
Proof.
  induction schedules as [|schedule schedules IH]; intros w w' key Hrun.
  - injection Hrun as <-. split; [reflexivity|].
    destruct (decide _) as [Hin|]; [|reflexivity].
    apply elem_of_nil in Hin. contradiction.
  - simpl in Hrun. destruct w as [rs sc t tk fl co tz].
    unfold bind at 1, deleteDoc, bind, request in Hrun.
    assert (Hstep : forall fl',
      for_of schedules
        (fun schedule => deleteDoc revisionSchedulesC (id schedule))
        (mkWorld (delete (id schedule) rs) sc t tk fl' co tz) = (Ok tt, w') ->
      storedContent w' = sc /\
      revisionSchedules w' !! key =
        if decide (key ∈ id <$> schedule :: schedules) then None
        else rs !! key).
    { intros fl' Hrest. destruct (IH _ _ key Hrest) as [Hsc Hk].
      split; [exact Hsc|]. rewrite Hk. cbn [revisionSchedules].
      rewrite fmap_cons.
      destruct (decide (key ∈ id <$> schedules)) as [Hin|Hnin].
      - rewrite decide_True by (apply elem_of_cons; auto). reflexivity.
      - destruct (decide (key = id schedule)) as [->|Hne].
        + rewrite decide_True by (apply elem_of_cons; auto).
          apply lookup_delete_eq.
        + rewrite decide_False.
          * apply lookup_delete_ne. congruence.
          * rewrite elem_of_cons. tauto. }
    destruct fl as [|[] fl]; simpl in Hrun; try discriminate;
      exact (Hstep _ Hrun).
Qed.

Lemma deleteStoredContent_ok contentId_ w w' :
  deleteStoredContent contentId_ w = (Ok tt, w') ->
  hd false (faults w) = false /\
  storedContent w' = delete contentId_ (storedContent w) /\
  (hd false (tl (faults w)) = true /\
     revisionSchedules w' = revisionSchedules w \/
   hd false (tl (faults w)) = false /\
     revisionSchedules w' =
       filter (fun kd => userId (snd kd) <> contentId_)
         (revisionSchedules w)).
Proof.
  intros Hrun. unfold deleteStoredContent, try_catch in Hrun.
  unfold bind at 1 in Hrun. rewrite deleteDoc_storedContent_run in Hrun.
  destruct (hd false (faults w)) eqn:F1.
  { unfold bind, console_error, throw in Hrun. discriminate. }
  split; [reflexivity|].
  unfold bind at 1 in Hrun.
  unfold getRevisionSchedules, try_catch, bind at 1 in Hrun.
  rewrite getDocs_revisionSchedules_run in Hrun.
  cbn [faults hd] in Hrun.
  destruct (hd false (tl (faults w))) eqn:F2.
  - (* the read of the schedules fails and is swallowed *)
    unfold bind, console_error, ret in Hrun. simpl in Hrun.
    injection Hrun as <-. simpl. split; [reflexivity|]. left. auto.
  - unfold ret at 1 in Hrun. cbv beta iota in Hrun.
    match type of Hrun with
    | (let (r, w1) := for_of ?l ?body ?w0 in _) = _ =>
        destruct (for_of l body w0) as [[[]|e] w3] eqn:E3
    end.
    2: { unfold bind, console_error, throw in Hrun. discriminate. }
    injection Hrun as <-.
    split.
    { destruct (for_of_deleteDoc_ok _ _ _ contentId_ E3) as [Hsc _].
      rewrite Hsc. reflexivity. }
    right. split; [reflexivity|].
    apply map_eq. intros key.
    destruct (for_of_deleteDoc_ok _ _ _ key E3) as [_ Hk].
    rewrite Hk. clear Hk E3. simpl.
    destruct (decide (key ∈ _)) as [Hin|Hnin].
    + symmetry. apply map_lookup_filter_None. right. intros d Hd Hne.
      apply Hne. simpl.
      rewrite <- list_fmap_compose in Hin.
      apply list_elem_of_fmap in Hin as ([k d'] & Hk & Hin).
      simpl in Hk. subst k.
      destruct (elem_of_query (fun d => bool_decide (userId d = contentId_))
                  _ _ Hin) as [Hm Hu].
      simpl in Hm, Hu. apply bool_decide_eq_true in Hu. congruence.
    + destruct (revisionSchedules w !! key) as [d|] eqn:Hd.
      * symmetry. apply map_lookup_filter_Some. split; [assumption|].
        simpl. intros Hu. apply Hnin.
        rewrite <- list_fmap_compose.
        apply list_elem_of_fmap. exists (key, d). split; [reflexivity|].
        refine (proj2 (elem_of_query_iff
                         (fun d => bool_decide (userId d = contentId_))
                         _ (key, d)) _).
        simpl. split; [assumption|]. apply bool_decide_eq_true. assumption.
      * symmetry. apply map_lookup_filter_None. left. assumption.
Qed.

(** X12: a deletion that succeeds after the store has answered the read of
    the schedules has removed the content and no other content, and has
    removed the schedules whose [userId] is the identifier it was given,
    those and no other. *)
Theorem successful_deletion contentId_ w w' :
  deleteStoredContent contentId_ w = (Ok tt, w') ->
  requests_ok 2 w = true ->
  storedContent w' = delete contentId_ (storedContent w) /\
  revisionSchedules w' =
    filter (fun kd => userId (snd kd) <> contentId_) (revisionSchedules w).
Proof.
  intros Hrun Hreq.
  destruct (deleteStoredContent_ok _ _ _ Hrun) as (F1 & Hsc & Hrs).
  split; [assumption|].
  destruct Hrs as [[F2 _]|[_ Hrs]]; [|assumption].
  unfold requests_ok in Hreq.
  destruct (faults w) as [|[] [|[] fl]]; simpl in *; discriminate.
Qed.

Lemma successful_deletion_witness :
  storedContent (snd (deleteStoredContent "u1" two_schedules_world))
  = delete "u1" (storedContent two_schedules_world) /\
  revisionSchedules (snd (deleteStoredContent "u1" two_schedules_world))
  = filter (fun kd => userId (snd kd) <> "u1")
      (revisionSchedules two_schedules_world).
Proof.
  apply (successful_deletion "u1" two_schedules_world).
  - vm_compute. reflexivity.
  - reflexivity.
Defined.

(** X13: for a document identifier, when the store answers the deletion
    of the content but not the read of the schedules, the failure is
    swallowed: the call returns normally, the content is deleted and every
    schedule is still stored. *)
Theorem deletion_swallows_failed_read contentId_ w fs :
  is_document_id contentId_ = true ->
  faults w = false :: true :: fs ->
  exists w',
    deleteStoredContent contentId_ w = (Ok tt, w') /\
    storedContent w' = delete contentId_ (storedContent w) /\
    revisionSchedules w' = revisionSchedules w /\
    console w' = "Error getting revision schedules:" :: console w.
Proof.
  intros _ Hf. destruct w as [rs sc t tk fl co tz]. simpl in Hf. subst fl.
  eexists. split; [reflexivity|]. simpl. auto.
Qed.

Lemma deletion_swallows_failed_read_witness :
  exists w',
    deleteStoredContent "c1" failing_world = (Ok tt, w') /\
    storedContent w' = delete "c1" (storedContent failing_world) /\
    revisionSchedules w' = revisionSchedules failing_world /\
    console w' = "Error getting revision schedules:" :: console failing_world.
Proof.
  apply (deletion_swallows_failed_read "c1" failing_world []).
  - reflexivity.
  - reflexivity.
Defined.

(** ** Stored contents *)

(** [getStoredContent] in one step: the document or [null], and [null]
    with a line on the console when the read fails. *)
Lemma getStoredContent_run contentId_ w :
  getStoredContent contentId_ w =
  (Ok (if hd false (faults w) then None
       else (fun d => toStoredContent (contentId_, d))
              <$> storedContent w !! contentId_),
   mkWorld (revisionSchedules w) (storedContent w) (now w) (ticks w)
     (tl (faults w))
     (if hd false (faults w)
      then "Error getting stored content:" :: console w else console w)
     (zone w)).
Proof.
  destruct w as [rs sc t tk fl co tz]. unfold getStoredContent. unfold_js.
  simpl. destruct fl as [|[] fl]; simpl; try reflexivity;
    destruct (sc !! contentId_); reflexivity.
Qed.

(** X14: [getStoredContent] never throws and never writes.  It returns
    [null] for an identifier under which nothing is stored and for a read
    that fails, and otherwise the stored content with its identifier. *)
Theorem stored_content_or_null contentId_ w :
  exists r w',
    getStoredContent contentId_ w = (Ok r, w') /\
    revisionSchedules w' = revisionSchedules w /\
    storedContent w' = storedContent w /\
    (storedContent w !! contentId_ = None -> r = None) /\
    (hd false (faults w) = true -> r = None) /\
    (forall d,
        hd false (faults w) = false ->
        storedContent w !! contentId_ = Some d ->
        r = Some (toStoredContent (contentId_, d))).
Proof.
  eexists _, _. split; [apply getStoredContent_run|].
  split; [reflexivity|]. split; [reflexivity|]. split; [|split].
  - intros ->. destruct (hd false (faults w)); reflexivity.
  - intros ->. reflexivity.
  - intros d -> ->. reflexivity.
Qed.

(** A successful save has written the stored form of the content under a
    new key. *)
Lemma saveStoredContent_inv content_ w key w' :
  saveStoredContent content_ w = (Ok key, w') ->
  storedContent w !! key = None /\
  revisionSchedules w' = revisionSchedules w /\
  exists d,
    storedContent w' = <[key := d]> (storedContent w) /\
    toStoredContent (key, d) = mkStored key content_.
Proof.
  intros Hrun. destruct w as [rs sc t tk fl co tz].
  destruct content_ as [u ti fn co_ su tp created revised ft].
  unfold saveStoredContent in Hrun. unfold_js. simpl in Hrun.
  destruct (Timestamp_fromDate created) as [createdTs|] eqn:EN;
    simpl in Hrun; [|discriminate].
  apply Timestamp_round_trip in EN.
  destruct revised as [revised|]; simpl in Hrun.
  - destruct (Timestamp_fromDate revised) as [revisedTs|] eqn:EL;
      simpl in Hrun; [|discriminate].
    apply Timestamp_round_trip in EL.
    destruct fl as [|[] fl]; simpl in Hrun; try discriminate;
      injection Hrun as <- <-; simpl;
      (split; [apply not_elem_of_dom, is_fresh|]);
      (split; [reflexivity|]); eexists; (split; [reflexivity|]);
      unfold toStoredContent; simpl; rewrite EN, EL; reflexivity.
  - destruct fl as [|[] fl]; simpl in Hrun; try discriminate;
      injection Hrun as <- <-; simpl;
      (split; [apply not_elem_of_dom, is_fresh|]);
      (split; [reflexivity|]); eexists; (split; [reflexivity|]);
      unfold toStoredContent; simpl; rewrite EN; reflexivity.
Qed.

(** X15: a content that [saveStoredContent] has saved gets an identifier
    that no stored content had, overwrites nothing, leaves the schedules
    alone, and comes back from [getStoredContent] under that identifier as
    it was given, dates included. *)
Theorem saved_content_is_read_back content_ w key w' later :
  saveStoredContent content_ w = (Ok key, w') ->
  storedContent later = storedContent w' ->
  requests_ok 1 later = true ->
  storedContent w !! key = None /\
  storedContent w ⊆ storedContent w' /\
  revisionSchedules w' = revisionSchedules w /\
  fst (getStoredContent key later) = Ok (Some (mkStored key content_)).
Proof.
  intros Hrun Hsame Hreq.
  destruct (saveStoredContent_inv _ _ _ _ Hrun)
    as (Hnew & Hrs & d & Hsc & Hd).
  split; [assumption|]. split.
  { rewrite Hsc. apply insert_subseteq. assumption. }
  split; [assumption|].
  assert (Hf : hd false (faults later) = false).
  { unfold requests_ok in Hreq. destruct (faults later) as [|[] fl];
      simpl in *; congruence. }
  rewrite getStoredContent_run, Hf, Hsame, Hsc, lookup_insert_eq. simpl.
  rewrite Hd. reflexivity.
Qed.

Lemma saved_content_is_read_back_witness :
  storedContent sample_world !! "0" = None /\
  storedContent sample_world
  ⊆ storedContent (snd (saveStoredContent sample_content sample_world)) /\
  revisionSchedules (snd (saveStoredContent sample_content sample_world))
  = revisionSchedules sample_world /\
  fst (getStoredContent "0"
         (snd (saveStoredContent sample_content sample_world)))
  = Ok (Some (mkStored "0" sample_content)).
Proof.
  apply (saved_content_is_read_back sample_content sample_world "0").
  - vm_compute. reflexivity.
  - reflexivity.
  - reflexivity.
Defined.

(** X16: a save that throws, of a schedule or of a content, has stored
    nothing: both collections are as they were. *)
Theorem failed_save_writes_nothing schedule content_ w e w' :
  saveRevisionSchedule schedule w = (Throw e, w') \/
  saveStoredContent content_ w = (Throw e, w') ->
  revisionSchedules w' = revisionSchedules w /\
  storedContent w' = storedContent w.
Proof.
  destruct w as [rs sc t tk fl co tz]. intros [Hrun|Hrun].
  - destruct schedule as [u c ti tn st next last rc ml iv ef].
    unfold saveRevisionSchedule in Hrun. unfold_js. simpl in Hrun.
    destruct (Timestamp_fromDate next); simpl in Hrun;
      [|injection Hrun as <- <-; split; reflexivity].
    destruct last as [last|]; simpl in Hrun;
      [destruct (Timestamp_fromDate last); simpl in Hrun;
       [|injection Hrun as <- <-; split; reflexivity]|];
      destruct fl as [|[] fl]; simpl in Hrun; try discriminate;
      injection Hrun as <- <-; split; reflexivity.
  - destruct content_ as [u ti fn co_ su tp created revised ft].
    unfold saveStoredContent in Hrun. unfold_js. simpl in Hrun.
    destruct (Timestamp_fromDate created); simpl in Hrun;
      [|injection Hrun as <- <-; split; reflexivity].
    destruct revised as [revised|]; simpl in Hrun;
      [destruct (Timestamp_fromDate revised); simpl in Hrun;
       [|injection Hrun as <- <-; split; reflexivity]|];
      destruct fl as [|[] fl]; simpl in Hrun; try discriminate;
      injection Hrun as <- <-; split; reflexivity.
Qed.

Lemma failed_save_writes_nothing_witness :
  revisionSchedules
    (snd (saveStoredContent sample_content unreadable_world))
  = revisionSchedules unreadable_world /\
  storedContent (snd (saveStoredContent sample_content unreadable_world))
  = storedContent unreadable_world.
Proof.
  apply (failed_save_writes_nothing
           (data (toRevisionSchedule ("s2", other_schedule)))
           sample_content unreadable_world Unavailable).
  right. vm_compute. reflexivity.
Defined.

(** ** The contents of a user *)

Lemma insert_by_created_Permutation x l : insert_by_created x l ≡ₚ x :: l.
Proof.
  induction l as [|y l IH]; simpl; [reflexivity|].
  destruct (createdAt (snd y) <=? createdAt (snd x)); [reflexivity|].
  rewrite IH. apply Permutation_swap.
Qed.

Lemma orderBy_createdAt_desc_Permutation l : orderBy_createdAt_desc l ≡ₚ l.
Proof.
  unfold orderBy_createdAt_desc. induction l as [|x l IH]; simpl.
  - reflexivity.
  - rewrite insert_by_created_Permutation, IH. reflexivity.
Qed.

Lemma insert_by_created_sorted x l :
  StronglySorted (fun a b => createdAt (snd b) <= createdAt (snd a)) l ->
  StronglySorted (fun a b => createdAt (snd b) <= createdAt (snd a))
    (insert_by_created x l).
Proof.
  induction 1 as [|y l Hl IH Hy]; simpl.
  - repeat constructor.
  - match goal with
    | |- context [?a <=? ?b] => destruct (Z.leb_spec a b) as [E|E]
    end.
    + constructor; [constructor; assumption|].
      constructor; [assumption|].
      eapply Forall_impl; [exact Hy|]. simpl. intros z Hz.
      exact (Z.le_trans _ _ _ Hz E).
    + constructor; [assumption|].
      apply Forall_forall. intros z Hz.
      rewrite insert_by_created_Permutation in Hz.
      apply elem_of_cons in Hz as [->|Hz];
        [exact (Z.lt_le_incl _ _ E)|].
      rewrite Forall_forall in Hy. exact (Hy z Hz).
Qed.

Lemma orderBy_createdAt_desc_sorted l :
  StronglySorted (fun a b => createdAt (snd b) <= createdAt (snd a))
    (orderBy_createdAt_desc l).
Proof.
  unfold orderBy_createdAt_desc. induction l as [|x l IH]; simpl.
  - constructor.
  - apply insert_by_created_sorted, IH.
Qed.

Lemma getStoredContents_run userId_ w :
  getStoredContents userId_ w =
  (Ok (if hd false (faults w) then []
       else toStoredContent <$>
              orderBy_createdAt_desc
                (filter
                   (fun kd =>
                      bool_decide (content_userId (snd kd) = userId_) = true)
                   (map_to_list (storedContent w)))),
   mkWorld (revisionSchedules w) (storedContent w) (now w) (ticks w)
     (tl (faults w))
     (if hd false (faults w)
      then "Error getting stored contents:" :: console w else console w)
     (zone w)).
Proof.
  destruct w as [rs sc t tk fl co tz].
  unfold getStoredContents, getDocs_storedContent. unfold_js. simpl.
  destruct fl as [|[] fl]; reflexivity.
Qed.

(** X17: when the store answers, [getStoredContents] returns the stored
    contents of the user, all of them and no other, each under its
    identifier and once, the most recently created first. *)
Theorem stored_contents_are_those_of_the_user userId_ w :
  requests_ok 1 w = true ->
  exists contents,
    fst (getStoredContents userId_ w) = Ok contents /\
    (forall c,
        c ∈ contents <->
        exists key d,
          c = toStoredContent (key, d) /\
          storedContent w !! key = Some d /\
          content_userId d = userId_) /\
    StronglySorted newer_first contents /\
    NoDup (stored_id <$> contents).
Proof.
  intros Hreq.
  assert (Hf : hd false (faults w) = false).
  { unfold requests_ok in Hreq. destruct (faults w) as [|[] fl];
      simpl in *; congruence. }
  rewrite getStoredContents_run, Hf. simpl.
  eexists. split; [reflexivity|]. split; [|split].
  - intros c. rewrite list_elem_of_fmap. split.
    + intros ([key d] & -> & Hin).
      rewrite orderBy_createdAt_desc_Permutation in Hin.
      apply list_elem_of_filter in Hin as [Hu Hin]. simpl in Hu.
      apply bool_decide_eq_true in Hu.
      apply elem_of_map_to_list in Hin. exists key, d. auto.
    + intros (key & d & -> & Hm & Hu). exists (key, d).
      split; [reflexivity|].
      rewrite orderBy_createdAt_desc_Permutation.
      apply list_elem_of_filter. split.
      * simpl. apply bool_decide_eq_true. assumption.
      * apply elem_of_map_to_list. assumption.
  - match goal with
    | |- StronglySorted _ (_ <$> orderBy_createdAt_desc ?l) =>
        pose proof (orderBy_createdAt_desc_sorted l) as Hs
    end.
    induction Hs as [|x l Hl IH Hx]; simpl; constructor; [assumption|].
    rewrite Forall_fmap. eapply Forall_impl; [exact Hx|].
    intros y Hy. exact Hy.
  - rewrite <- list_fmap_compose.
    rewrite orderBy_createdAt_desc_Permutation.
    apply (NoDup_fmap_2_strong _).
    + intros [k1 d1] [k2 d2] H1 H2 Hk. simpl in Hk. subst k2.
      apply list_elem_of_filter in H1 as [_ H1].
      apply list_elem_of_filter in H2 as [_ H2].
      apply elem_of_map_to_list in H1, H2. congruence.
    + apply NoDup_filter, NoDup_map_to_list.
Qed.

Lemma stored_contents_are_those_of_the_user_witness :
  exists contents,
    fst (getStoredContents "u1" sample_world) = Ok contents /\
    (forall c,
        c ∈ contents <->
        exists key d,
          c = toStoredContent (key, d) /\
          storedContent sample_world !! key = Some d /\
          content_userId d = "u1") /\
    StronglySorted newer_first contents /\
    NoDup (stored_id <$> contents).
Proof.
  apply (stored_contents_are_those_of_the_user "u1" sample_world).
  reflexivity.
Defined.

(** ** The topics to revise *)

Lemma n7_correctly_rounded : n7 = ofZ 7.
Proof. vm_compute. reflexivity. Qed.

Lemma getRevisionSchedules_eq userId_ w :
  getRevisionSchedules userId_ w =
  (Ok (if hd false (faults w) then []
       else toRevisionSchedule <$>
              orderBy_nextReviewDate
                (filter
                   (fun kd => bool_decide (userId (snd kd) = userId_) = true)
                   (map_to_list (revisionSchedules w)))),
   mkWorld (revisionSchedules w) (storedContent w) (now w) (ticks w)
     (tl (faults w))
     (if hd false (faults w)
      then "Error getting revision schedules:" :: console w
      else console w) (zone w)).
Proof.
  destruct w as [rs sc t tk fl co tz]. unfold getRevisionSchedules. unfold_js.
  simpl. destruct fl as [|[] fl]; reflexivity.
Qed.

Lemma collect_topic_run schedule results w :
  collect_topic schedule results w =
  (Ok (results ++
       if hd false (faults w) then []
       else option_list (revision_item (storedContent w) schedule)),
   mkWorld (revisionSchedules w) (storedContent w) (now w) (ticks w)
     (tl (faults w))
     (if hd false (faults w)
      then "Error getting stored content:" :: console w else console w)
     (zone w)).
Proof.
  unfold collect_topic, bind. rewrite getStoredContent_run.
  unfold revision_item.
  destruct (hd false (faults w)); simpl.
  - unfold ret. rewrite app_nil_r. reflexivity.
  - destruct (storedContent w !! contentId (data schedule)) as [cd|]; simpl.
    + destruct (List.find _ (topics cd)); unfold ret; simpl;
        rewrite ?app_nil_r; reflexivity.
    + unfold ret. rewrite app_nil_r. reflexivity.
Qed.

Lemma store_answers_next w :
  store_answers w = true ->
  hd false (faults w) = false /\
  store_answers
    (mkWorld (revisionSchedules w) (storedContent w) (now w) (ticks w)
       (tl (faults w)) (console w) (zone w)) = true.
Proof.
  unfold store_answers. simpl. destruct (faults w) as [|[] fl]; simpl;
    auto; discriminate.
Qed.

(** The loop of [getTopicsForRevision]: it collects items of the schedules
    in their order, all of them when the store answers every time. *)
Lemma for_of_collect_run schedules : forall results w,
  exists items w',
    for_of_collect schedules results collect_topic w
    = (Ok (results ++ items), w') /\
    revisionSchedules w' = revisionSchedules w /\
    storedContent w' = storedContent w /\
    items `sublist_of` omap (revision_item (storedContent w)) schedules /\
    (store_answers w = true ->
     items = omap (revision_item (storedContent w)) schedules).
Proof.
  induction schedules as [|s l IH]; intros results w.
  - exists [], w. simpl. unfold ret. rewrite app_nil_r.
    repeat split; auto.
  - cbn [for_of_collect]. unfold bind at 1. rewrite collect_topic_run.
    match goal with
    | |- context [for_of_collect l ?r _ ?w1] =>
        destruct (IH r w1) as (items & w' & E & Hrs & Hsc & Hsub & Hall)
    end.
    cbn [revisionSchedules storedContent] in Hrs, Hsc, Hsub, Hall.
    rewrite E, <- app_assoc. eexists _, w'. split; [reflexivity|].
    split; [assumption|]. split; [assumption|]. split.
    + cbn [omap list_omap]. fold (omap (revision_item (storedContent w)) l).
      destruct (hd false (faults w)).
      * simpl. destruct (revision_item (storedContent w) s);
          [apply sublist_cons|]; assumption.
      * destruct (revision_item (storedContent w) s); simpl;
          [apply sublist_skip|]; assumption.
    + intros Hok. destruct (store_answers_next w Hok) as [Hf Hnext].
      rewrite Hf. cbn [omap list_omap].
      fold (omap (revision_item (storedContent w)) l).
      assert (Hitems : items = omap (revision_item (storedContent w)) l).
      { apply Hall. destruct w as [rs sc t tk fl co tz]. simpl in *.
        rewrite Hf. exact Hnext. }
      rewrite Hitems.
      destruct (revision_item (storedContent w) s); reflexivity.
Qed.

(** The result of [getTopicsForRevision]: items of the user's schedules
    that are due by the limit. *)
Lemma getTopicsForRevision_run
    (getDate getMonth : Date -> number)
    (setDate setMonth : Date -> number -> Date) userId_ scheduleType_ w :
  let due :=
    filter
      (fun s =>
         Date_leb (nextReviewDate (data s))
           (dateLimit_at getDate getMonth setDate setMonth scheduleType_ w)
         = true)
      (toRevisionSchedule <$>
         orderBy_nextReviewDate
           (filter
              (fun kd => bool_decide (userId (snd kd) = userId_) = true)
              (map_to_list (revisionSchedules w)))) in
  exists items w',
    getTopicsForRevision getDate getMonth setDate setMonth userId_
      scheduleType_ w = (Ok items, w') /\
    revisionSchedules w' = revisionSchedules w /\
    storedContent w' = storedContent w /\
    items `sublist_of` omap (revision_item (storedContent w)) due /\
    (store_answers w = true ->
     items = omap (revision_item (storedContent w)) due).
Proof.
  intros due. destruct w as [rs sc t tk fl co tz].
  unfold getTopicsForRevision, try_catch.
  unfold bind at 1. unfold new_Date at 1.
  cbn [now ticks revisionSchedules storedContent faults console].
  unfold bind at 1. unfold new_Date at 1.
  cbn [now ticks revisionSchedules storedContent faults console].
  unfold bind at 1. rewrite getRevisionSchedules_eq.
  cbn [now ticks revisionSchedules storedContent faults console].
  match goal with
  | |- context [for_of_collect ?l [] _ ?w1] =>
      destruct (for_of_collect_run l [] w1)
        as (items & w' & E & Hrs & Hsc & Hsub & Hall)
  end.
  cbn [revisionSchedules storedContent faults] in Hrs, Hsc, Hsub, Hall.
  rewrite E. exists items, w'. split; [reflexivity|].
  split; [assumption|]. split; [assumption|].
  cbn [storedContent]. split.
  - destruct (hd false fl).
    + rewrite filter_nil in Hsub. simpl in Hsub.
      apply sublist_nil_r in Hsub. subst items. apply sublist_nil_l.
    + exact Hsub.
  - intros Hok. destruct (store_answers_next _ Hok) as [Hf Hnext].
    cbn [faults] in Hf. rewrite Hf in Hall. apply Hall. exact Hnext.
Qed.

Lemma StronglySorted_sublist {A} (R : relation A) l1 l2 :
  StronglySorted R l2 -> l1 `sublist_of` l2 -> StronglySorted R l1.
Proof.
  intros Hs. revert l1.
  induction Hs as [|x l Hl IH Hx]; intros l1 Hsub.
  - apply sublist_nil_r in Hsub. subst l1. constructor.
  - inversion Hsub as [|y k1 k2 Hk|y k1 k2 Hk]; subst.
    + constructor; [apply IH; assumption|].
      rewrite Forall_forall in Hx. apply Forall_forall. intros z Hz.
      apply Hx. eapply elem_of_sublist; eassumption.
    + apply IH. assumption.
Qed.

Lemma revision_item_inv sc schedule item :
  revision_item sc schedule = Some item ->
  item_schedule item = schedule /\
  exists cd,
    sc !! contentId (data schedule) = Some cd /\
    item_content item = toStoredContent (contentId (data schedule), cd) /\
    List.find (fun t => String.eqb (topic_id t) (topicId (data schedule)))
      (topics cd) = Some (item_topic item).
Proof.
  unfold revision_item.
  destruct (sc !! contentId (data schedule)) as [cd|]; [|discriminate].
  destruct (List.find _ (topics cd)) as [topic|] eqn:E; [|discriminate].
  intros [= <-]. simpl. split; [reflexivity|]. exists cd. auto.
Qed.

Lemma item_schedules_sublist sc schedules :
  item_schedule <$> omap (revision_item sc) schedules
  `sublist_of` schedules.
Proof.
  induction schedules as [|s l IH]; [constructor|].
  cbn [omap list_omap]. fold (omap (revision_item sc) l).
  destruct (revision_item sc s) as [item|] eqn:E.
  - apply revision_item_inv in E as [<- _]. rewrite fmap_cons.
    apply sublist_skip, IH.
  - apply sublist_cons, IH.
Qed.

(** X18: [getTopicsForRevision] never throws and never writes, whatever
    the store answers: it returns a list, and the two collections are as
    they were. *)
Theorem topics_for_revision_only_reads
    (getDate getMonth : Date -> number)
    (setDate setMonth : Date -> number -> Date) userId_ scheduleType_ w :
  exists items w',
    getTopicsForRevision getDate getMonth setDate setMonth userId_
      scheduleType_ w = (Ok items, w') /\
    revisionSchedules w' = revisionSchedules w /\
    storedContent w' = storedContent w.
Proof.
  destruct (getTopicsForRevision_run getDate getMonth setDate setMonth
              userId_ scheduleType_ w)
    as (items & w' & E & Hrs & Hsc & _).
  exists items, w'. auto.
Qed.

(** X19: every item that [getTopicsForRevision] returns is consistent:
    its schedule is a stored schedule of the user that is due by the date
    limit, its content is the content stored under the schedule's
    [contentId], and its topic is the first topic of that content with the
    schedule's [topicId].  The items come in ascending order of next review
    date, at most one for a schedule. *)
Theorem topics_for_revision_are_consistent
    (getDate getMonth : Date -> number)
    (setDate setMonth : Date -> number -> Date) userId_ scheduleType_ w
    items :
  fst (getTopicsForRevision getDate getMonth setDate setMonth userId_
         scheduleType_ w) = Ok items ->
  (forall item,
      item ∈ items ->
      exists key d cd,
        item_schedule item = toRevisionSchedule (key, d) /\
        revisionSchedules w !! key = Some d /\
        userId d = userId_ /\
        Date_leb (DateAt (nextReviewDate d))
          (dateLimit_at getDate getMonth setDate setMonth scheduleType_ w)
        = true /\
        storedContent w !! contentId d = Some cd /\
        item_content item = toStoredContent (contentId d, cd) /\
        List.find (fun t => String.eqb (topic_id t) (topicId d)) (topics cd)
        = Some (item_topic item)) /\
  StronglySorted due_before (item_schedule <$> items) /\
  NoDup (id <$> (item_schedule <$> items)).
Proof.
  intros Hrun.
  destruct (getTopicsForRevision_run getDate getMonth setDate setMonth
              userId_ scheduleType_ w)
    as (items' & w' & E & _ & _ & Hsub & _).
  rewrite E in Hrun. simpl in Hrun. injection Hrun as ->.
  split.
  - intros item Hin.
    apply (elem_of_sublist _ _ _ Hin) in Hsub.
    apply list_elem_of_omap in Hsub as (s & Hs & Hitem).
    apply list_elem_of_filter in Hs as [Hdue Hs].
    apply list_elem_of_fmap in Hs as ([key d] & -> & Hq).
    destruct (elem_of_query (fun d => bool_decide (userId d = userId_))
                _ _ Hq) as [Hm Hu].
    simpl in Hm, Hu. apply bool_decide_eq_true in Hu.
    apply revision_item_inv in Hitem as (Hsched & cd & Hc & Hcontent & Hf).
    exists key, d, cd. auto 10.
  - assert (Hsched :
      item_schedule <$> items `sublist_of`
      toRevisionSchedule <$>
        orderBy_nextReviewDate
          (filter (fun kd => bool_decide (userId (snd kd) = userId_) = true)
             (map_to_list (revisionSchedules w)))).
    { etrans; [apply fmap_sublist, Hsub|].
      etrans; [apply item_schedules_sublist|]. apply sublist_filter. }
    pose proof (query_sorted_NoDup
                  (fun d => bool_decide (userId d = userId_))
                  (revisionSchedules w)) as [Hsorted Hnodup].
    split.
    + exact (StronglySorted_sublist _ _ _ Hsorted Hsched).
    + eapply sublist_NoDup; [exact Hnodup|]. apply fmap_sublist, Hsched.
Qed.

Lemma topics_for_revision_are_consistent_witness :
  (forall item,
      item ∈ [mkItem (sample_topic "t1")
                (toRevisionSchedule ("s1", sample_schedule))
                (mkStored "c1"
                   (mkStoredContent "u1" "Algorithms" "algo.pdf" "..." None
                      [sample_topic "t0"; sample_topic "t1"]
                      (DateAt 1699395200000) None pdf))] ->
      exists key d cd,
        item_schedule item = toRevisionSchedule (key, d) /\
        revisionSchedules revision_world !! key = Some d /\
        userId d = "u1" /\
        Date_leb (DateAt (nextReviewDate d))
          (dateLimit_at sample_getDate sample_getMonth sample_setDate
             sample_setMonth daily revision_world)
        = true /\
        storedContent revision_world !! contentId d = Some cd /\
        item_content item = toStoredContent (contentId d, cd) /\
        List.find (fun t => String.eqb (topic_id t) (topicId d)) (topics cd)
        = Some (item_topic item)) /\
  StronglySorted due_before
    [toRevisionSchedule ("s1", sample_schedule)] /\
  NoDup ["s1"].
Proof.
  apply (topics_for_revision_are_consistent sample_getDate sample_getMonth
           sample_setDate sample_setMonth "u1" daily revision_world).
  vm_compute. reflexivity.
Defined.

(** X20: when the store answers every request, [getTopicsForRevision]
    misses nothing: every stored schedule of the user that is due by the
    date limit, and whose content is stored and has a topic with its
    [topicId], has its item in the list. *)
Theorem every_due_topic_is_returned
    (getDate getMonth : Date -> number)
    (setDate setMonth : Date -> number -> Date) userId_ scheduleType_ w
    items key d cd topic :
  store_answers w = true ->
  fst (getTopicsForRevision getDate getMonth setDate setMonth userId_
         scheduleType_ w) = Ok items ->
  revisionSchedules w !! key = Some d ->
  userId d = userId_ ->
  Date_leb (DateAt (nextReviewDate d))
    (dateLimit_at getDate getMonth setDate setMonth scheduleType_ w)
  = true ->
  storedContent w !! contentId d = Some cd ->
  List.find (fun t => String.eqb (topic_id t) (topicId d)) (topics cd)
  = Some topic ->
  mkItem topic (toRevisionSchedule (key, d))
    (toStoredContent (contentId d, cd)) ∈ items.
Proof.
  intros Hok Hrun Hm Hu Hdue Hc Hf.
  destruct (getTopicsForRevision_run getDate getMonth setDate setMonth
              userId_ scheduleType_ w)
    as (items' & w' & E & _ & _ & _ & Hall).
  rewrite E in Hrun. simpl in Hrun. injection Hrun as ->.
  rewrite (Hall Hok). apply list_elem_of_omap.
  exists (toRevisionSchedule (key, d)). split.
  - apply list_elem_of_filter. split; [exact Hdue|].
    apply list_elem_of_fmap. exists (key, d). split; [reflexivity|].
    refine (proj2 (elem_of_query_iff
                     (fun d => bool_decide (userId d = userId_))
                     _ (key, d)) _).
    simpl. split; [assumption|]. apply bool_decide_eq_true. assumption.
  - unfold revision_item, toRevisionSchedule.
    cbn [data contentId topicId fst snd]. unfold Timestamp in *.
    rewrite Hc, Hf. reflexivity.
Qed.

Lemma every_due_topic_is_returned_witness :
  mkItem (sample_topic "t1") (toRevisionSchedule ("s1", sample_schedule))
    (toStoredContent
       ("c1",
        mkStoredContent "u1" "Algorithms" "algo.pdf" "..." None
          [sample_topic "t0"; sample_topic "t1"] 1699395200000 None pdf))
  ∈ [mkItem (sample_topic "t1")
       (toRevisionSchedule ("s1", sample_schedule))
       (mkStored "c1"
          (mkStoredContent "u1" "Algorithms" "algo.pdf" "..." None
             [sample_topic "t0"; sample_topic "t1"]
             (DateAt 1699395200000) None pdf))].
Proof.
  apply (every_due_topic_is_returned sample_getDate sample_getMonth
           sample_setDate sample_setMonth "u1" daily revision_world _
           "s1" sample_schedule).
  - reflexivity.
  - vm_compute. reflexivity.
  - reflexivity.
  - reflexivity.
  - vm_compute. reflexivity.
  - reflexivity.
  - reflexivity.
Defined.

(** X21: the topics of a deleted content are no longer proposed for
    revision: after a successful [deleteStoredContent], and as long as no
    content is stored again, no item that [getTopicsForRevision] returns
    has a schedule of the deleted content, or the deleted content. *)
Theorem deleted_content_is_not_proposed
    (getDate getMonth : Date -> number)
    (setDate setMonth : Date -> number -> Date) contentId_ w w' userId_
    scheduleType_ later items item :
  deleteStoredContent contentId_ w = (Ok tt, w') ->
  storedContent later = storedContent w' ->
  fst (getTopicsForRevision getDate getMonth setDate setMonth userId_
         scheduleType_ later) = Ok items ->
  item ∈ items ->
  contentId (data (item_schedule item)) <> contentId_ /\
  stored_id (item_content item) <> contentId_.
Proof.
  intros Hdel Hsame Hrun Hin.
  destruct (deleteStoredContent_ok _ _ _ Hdel) as (_ & Hsc & _).
  destruct (getTopicsForRevision_run getDate getMonth setDate setMonth
              userId_ scheduleType_ later)
    as (items' & w1 & E & _ & _ & Hsub & _).
  rewrite E in Hrun. simpl in Hrun. injection Hrun as ->.
  apply (elem_of_sublist _ _ _ Hin) in Hsub.
  apply list_elem_of_omap in Hsub as (s & _ & Hitem).
  apply revision_item_inv in Hitem as (-> & cd & Hc & -> & _).
  rewrite Hsame, Hsc in Hc.
  assert (Hne : contentId (data s) <> contentId_).
  { intros Heq. rewrite Heq, lookup_delete_eq in Hc. discriminate. }
  split; [exact Hne|]. exact Hne.
Qed.

Lemma deleted_content_is_not_proposed_witness :
  contentId (data (toRevisionSchedule ("s1", sample_schedule))) <> "c2" /\
  stored_id
    (mkStored "c1"
       (mkStoredContent "u1" "Algorithms" "algo.pdf" "..." None
          [sample_topic "t0"; sample_topic "t1"] (DateAt 1699395200000)
          None pdf)) <> "c2".
Proof.
  apply (deleted_content_is_not_proposed sample_getDate sample_getMonth
           sample_setDate sample_setMonth "c2" two_contents_world
           (snd (deleteStoredContent "c2" two_contents_world)) "u1" daily
           (snd (deleteStoredContent "c2" two_contents_world))
           [mkItem (sample_topic "t1")
              (toRevisionSchedule ("s1", sample_schedule))
              (mkStored "c1"
                 (mkStoredContent "u1" "Algorithms" "algo.pdf" "..." None
                    [sample_topic "t0"; sample_topic "t1"]
                    (DateAt 1699395200000) None pdf))]
           (mkItem (sample_topic "t1")
              (toRevisionSchedule ("s1", sample_schedule))
              (mkStored "c1"
                 (mkStoredContent "u1" "Algorithms" "algo.pdf" "..." None
                    [sample_topic "t0"; sample_topic "t1"]
                    (DateAt 1699395200000) None pdf)))).
  - vm_compute. reflexivity.
  - reflexivity.
  - vm_compute. reflexivity.
  - constructor.
Defined.

(** ** The learning progress *)

Lemma progress_literals_correctly_rounded : n60 = ofZ 60 /\ n70 = ofZ 70.
Proof. vm_compute. split; reflexivity. Qed.

Lemma logged_refl pw : logged [] pw pw.
Proof. repeat split. Qed.

Lemma quiet_refl pw : quiet pw pw.
Proof. repeat split. Qed.

Lemma logged_trans m1 m2 pw pw1 pw2 :
  logged m1 pw pw1 -> logged m2 pw1 pw2 -> logged (m2 ++ m1) pw pw2.
Proof.
  intros (D1 & A1 & B1 & C1) (D2 & A2 & B2 & C2). split; [congruence|].
  split; [congruence|]. split; [congruence|].
  rewrite C2, C1, app_assoc. reflexivity.
Qed.

Lemma quiet_trans pw pw1 pw2 : quiet pw pw1 -> quiet pw1 pw2 -> quiet pw pw2.
Proof.
  intros [L1 H1] [L2 H2]. split; [congruence|].
  exact (logged_trans _ _ _ _ _ H1 H2).
Qed.

Lemma new_Date_quiet pw :
  exists d pw', lift new_Date pw = (Ok d, pw') /\ quiet pw pw'.
Proof.
  destruct pw as [lp qa [rs sc t tk fl co tz]]. eexists _, _.
  split; [reflexivity|]. repeat split.
Qed.

Lemma toDate_or_now_quiet x pw :
  exists d pw', toDate_or_now x pw = (Ok d, pw') /\ quiet pw pw'.
Proof.
  destruct x as [ts|]; [|apply new_Date_quiet].
  eexists _, _. split; [reflexivity|]. apply quiet_refl.
Qed.

(** Reading the topics of a document changes their dates only. *)
Lemma read_topics_quiet (l : list (TopicProgress (option Timestamp))) :
  forall pw,
  exists l' pw',
    P_map
      (fun t =>
         P_bind (toDate_or_now (lastStudied t))
           (fun lastStudied_ =>
              P_ret
                (mkTopicProgress (tp_topic t) (subject t)
                   (tp_masteryLevel t) (quizzesTaken t) (tp_averageScore t)
                   lastStudied_ (conceptsCovered t))))
      l pw = (Ok l', pw') /\
    quiet pw pw' /\
    without_date <$> l' = without_date <$> l.
Proof.
  induction l as [|t l IH]; intros pw.
  - exists [], pw. split; [reflexivity|]. split; [apply quiet_refl|].
    reflexivity.
  - cbn [P_map]. unfold P_bind at 1. unfold P_bind at 1.
    destruct (toDate_or_now_quiet (lastStudied t) pw)
      as (d & pw1 & E1 & Q1).
    rewrite E1. unfold P_ret at 1. unfold P_bind at 1.
    destruct (IH pw1) as (l' & pw' & E & Q & Hl). rewrite E.
    eexists _, pw'. split; [reflexivity|].
    split; [exact (quiet_trans _ _ _ Q1 Q)|].
    rewrite !fmap_cons, Hl. reflexivity.
Qed.

Lemma lift_request_run pw :
  lift request pw =
  (if hd false (faults (rest pw)) then Throw Unavailable else Ok tt,
   after_request pw).
Proof. destruct pw as [lp qa [rs sc t tk [|[] fl] co tz]]; reflexivity. Qed.

Lemma after_request_quiet pw :
  quiet pw (after_request pw).
Proof. repeat split. Qed.

Lemma getDoc_learningProgress_run key pw :
  getDoc_learningProgress key pw =
  (if hd false (faults (rest pw)) then Throw Unavailable
   else Ok (learningProgress pw !! key),
   after_request pw).
Proof.
  unfold getDoc_learningProgress, P_bind. rewrite lift_request_run.
  destruct (hd false (faults (rest pw))); reflexivity.
Qed.

Lemma setDoc_learningProgress_run key d pw :
  setDoc_learningProgress key d pw =
  if hd false (faults (rest pw))
  then (Throw Unavailable,
        after_request pw)
  else (Ok tt,
        mkProgressWorld (<[key := d]> (learningProgress pw))
          (quizAttempts pw) (after_requests 1 (rest pw))).
Proof.
  unfold setDoc_learningProgress, P_bind. rewrite lift_request_run.
  destruct (hd false (faults (rest pw))); reflexivity.
Qed.

Lemma updateDoc_learningProgress_run key u pw :
  updateDoc_learningProgress key u pw =
  if hd false (faults (rest pw))
  then (Throw Unavailable,
        after_request pw)
  else
    match learningProgress pw !! key with
    | Some d =>
        (Ok tt,
         mkProgressWorld (<[key := set_fields u d]> (learningProgress pw))
           (quizAttempts pw) (after_requests 1 (rest pw)))
    | None =>
        (Throw NotFound,
         after_request pw)
    end.
Proof.
  unfold updateDoc_learningProgress, P_bind. rewrite lift_request_run.
  destruct (hd false (faults (rest pw))); [reflexivity|]. simpl.
  destruct (learningProgress pw !! key); reflexivity.
Qed.

Lemma console_error_run msg pw :
  exists pw',
    lift (console_error msg) pw = (Ok tt, pw') /\
    learningProgress pw' = learningProgress pw /\
    logged [msg] pw pw'.
Proof.
  destruct pw as [lp qa [rs sc t tk fl co tz]]. eexists. split; [reflexivity|].
  repeat split.
Qed.

(** What [getLearningProgress] does: it fails and logs, or reads the
    document of the user, or creates it. *)
Lemma getLearningProgress_cases userId_ pw :
  exists r pw',
    getLearningProgress userId_ pw = (Ok r, pw') /\
    ((r = None /\
      learningProgress pw' = learningProgress pw /\
      logged ["Error getting learning progress:"] pw pw') \/
     (exists d p,
        r = Some p /\
        learningProgress pw !! userId_ = Some d /\
        quiet pw pw' /\
        without_date <$> lp_topics p = without_date <$> stored_topics d /\
        lp_userId p = lp_userId d /\
        totalQuizzesTaken p = totalQuizzesTaken d /\
        averageScore p = averageScore d /\
        streakDays p = streakDays d /\
        studyTimeTotal p = studyTimeTotal d /\
        weakTopics p = weakTopics d /\
        strongTopics p = strongTopics d) \/
     (exists today,
        r = Some (initial_progress userId_ today) /\
        learningProgress pw !! userId_ = None /\
        learningProgress pw' =
          <[userId_ := initial_document userId_ today]> (learningProgress pw) /\
        logged [] pw pw')).
Proof.
  unfold getLearningProgress, P_try_catch. unfold P_bind at 1.
  rewrite getDoc_learningProgress_run.
  pose proof (after_request_quiet pw) as Q0.
  set (pw0 := after_request pw) in *.
  destruct (hd false (faults (rest pw))).
  { (* the read fails *)
    unfold P_bind.
    destruct (console_error_run "Error getting learning progress:" pw0)
      as (pw' & E & Hlp & Hlog).
    rewrite E. eexists _, _. split; [reflexivity|]. left.
    split; [reflexivity|]. split; [rewrite Hlp; apply Q0|].
    destruct Q0 as [_ Q0]. exact (logged_trans _ _ _ _ _ Q0 Hlog). }
  destruct (learningProgress pw !! userId_) as [d|] eqn:Ed.
  - (* the document exists *)
    unfold P_bind at 1.
    destruct (toDate_or_now_quiet (lastStudyDate d) pw0)
      as (day & pw1 & E1 & Q1).
    rewrite E1. unfold P_bind at 1.
    destruct (lp_topics d) as [ts|] eqn:Et.
    + destruct (read_topics_quiet ts pw1) as (l' & pw' & E & Q & Hl).
      rewrite E. unfold P_ret. eexists _, _. split; [reflexivity|].
      right. left. eexists d, _. split; [reflexivity|].
      split; [reflexivity|].
      split; [exact (quiet_trans _ _ _ (quiet_trans _ _ _ Q0 Q1) Q)|].
      unfold stored_topics. rewrite Et. simpl. auto 12.
    + unfold P_ret. eexists _, _. split; [reflexivity|].
      right. left. eexists d, _. split; [reflexivity|].
      split; [reflexivity|].
      split; [exact (quiet_trans _ _ _ Q0 Q1)|].
      unfold stored_topics. rewrite Et. simpl. auto 12.
  - (* the document is created *)
    unfold P_bind at 1.
    destruct (new_Date_quiet pw0) as (today & pw1 & E1 & Q1).
    assert (Htoday : today = DateAt (now (rest pw0))).
    { destruct pw0 as [lp qa [rs sc t tk fl co tz]]. simpl in E1.
      injection E1 as <- _. reflexivity. }
    rewrite E1. unfold P_bind at 1.
    cbn [lastStudyDate]. unfold lift at 1, fromDate.
    destruct (Timestamp_fromDate today) as [ts|] eqn:Ets.
    + apply Timestamp_fromDate_Some in Ets. subst today.
      injection Ets as Ets.
      unfold ret at 1. unfold P_bind at 1.
      rewrite setDoc_learningProgress_run.
      pose proof (after_request_quiet
                    (mkProgressWorld (learningProgress pw1) (quizAttempts pw1)
                       (rest pw1)))
        as Q2.
      cbn [learningProgress rest] in Q2 |- *.
      assert (Q12 : quiet pw (mkProgressWorld (learningProgress pw1)
                                (quizAttempts pw1) (rest pw1))).
      { destruct pw1. exact (quiet_trans _ _ _ Q0 Q1). }
      destruct (hd false (faults (rest pw1))).
      * unfold P_bind.
        match goal with
        | |- context [lift (console_error ?m) ?w] =>
            destruct (console_error_run m w) as (pw' & E & Hlp & Hlog)
        end.
        rewrite E. unfold P_ret. eexists _, _. split; [reflexivity|].
        left. split; [reflexivity|].
        pose proof (quiet_trans _ _ _ Q12 Q2) as [L Q].
        split; [rewrite Hlp; exact L|].
        exact (logged_trans _ _ _ _ _ Q Hlog).
      * unfold P_ret. eexists _, _. split; [reflexivity|].
        right. right. exists ts. split.
        { unfold initial_progress. rewrite <- Ets. reflexivity. }
        split; [reflexivity|]. cbn [learningProgress rest].
        destruct Q12 as [L Q]. cbn [learningProgress] in L.
        split; [rewrite L; reflexivity|].
        destruct Q2 as [_ Q2].
        exact (logged_trans _ _ _ _ _ Q Q2).
    + unfold throw at 1. unfold P_bind.
      match goal with
      | |- context [lift (console_error ?m) ?w] =>
          destruct (console_error_run m w) as (pw' & E & Hlp & Hlog)
      end.
      rewrite E. unfold P_ret. eexists _, _. split; [reflexivity|].
      left. split; [reflexivity|].
      assert (Q12 : quiet pw (mkProgressWorld (learningProgress pw1)
                                (quizAttempts pw1) (rest pw1))).
      { destruct pw1. exact (quiet_trans _ _ _ Q0 Q1). }
      destruct Q12 as [L Q].
      split; [rewrite Hlp; exact L|].
      exact (logged_trans _ _ _ _ _ Q Hlog).
Qed.

(** X22: [getLearningProgress] never throws, and never changes a document
    that exists: the only document it can write is the one of the user it
    is asked for, when that user has none.  When it returns [null], it has
    written nothing but a line on the console. *)
Theorem reading_progress_never_throws userId_ pw :
  exists r pw',
    getLearningProgress userId_ pw = (Ok r, pw') /\
    revisionSchedules (rest pw') = revisionSchedules (rest pw) /\
    storedContent (rest pw') = storedContent (rest pw) /\
    (forall key,
        key <> userId_ ->
        learningProgress pw' !! key = learningProgress pw !! key) /\
    (is_Some (learningProgress pw !! userId_) ->
     learningProgress pw' = learningProgress pw) /\
    (r = None ->
     learningProgress pw' = learningProgress pw /\
     console (rest pw')
     = "Error getting learning progress:" :: console (rest pw)).
Proof.
  destruct (getLearningProgress_cases userId_ pw)
    as (r & pw' & E &
        [(-> & Hlp & Hqa & Hrs & Hsc & Hco)
        |[(d & p & -> & Hd & [Hlp (Hqa & Hrs & Hsc & Hco)] & _)
         |(today & -> & Hd & Hlp & Hqa & Hrs & Hsc & Hco)]]);
    eexists _, pw'; (split; [exact E|]);
    (split; [exact Hrs|]); (split; [exact Hsc|]).
  - rewrite Hlp. auto.
  - rewrite Hlp. split; [auto|]. split; [auto|]. discriminate.
  - split; [|split].
    + intros key Hkey. rewrite Hlp. apply lookup_insert_ne. congruence.
    + rewrite Hd. intros [x Hx]. discriminate.
    + discriminate.
Qed.

(** X23: for a user without progress whose identifier is a document
    identifier, when the store answers and the clock reads a date that a
    timestamp can hold, [getLearningProgress]
    stores and returns the initial progress: no topic, all counts at zero,
    last study at the reading of the clock.  A later call returns the same
    progress. *)
Theorem progress_is_created_and_read_back userId_ pw :
  is_document_id userId_ = true ->
  learningProgress pw !! userId_ = None ->
  requests_ok 2 (rest pw) = true ->
  Timestamp_fromDate (DateAt (now (rest pw))) = Some (now (rest pw)) ->
  exists pw',
    getLearningProgress userId_ pw
    = (Ok (Some (initial_progress userId_ (now (rest pw)))), pw') /\
    learningProgress pw'
    = <[userId_ := initial_document userId_ (now (rest pw))]>
        (learningProgress pw) /\
    forall later,
      learningProgress later = learningProgress pw' ->
      requests_ok 1 (rest later) = true ->
      fst (getLearningProgress userId_ later)
      = Ok (Some (initial_progress userId_ (now (rest pw)))).
Proof.
  intros _ Hnone Hreq Hts.
  assert (Hrun :
    exists pw',
      getLearningProgress userId_ pw
      = (Ok (Some (initial_progress userId_ (now (rest pw)))), pw') /\
      learningProgress pw'
      = <[userId_ := initial_document userId_ (now (rest pw))]>
          (learningProgress pw)).
  { destruct pw as [lp qa [rs sc t tk fl co tz]]. simpl in *.
    unfold getLearningProgress. unfold_progress. simpl.
    unfold requests_ok in Hreq. simpl in Hreq.
    destruct fl as [|[] [|[] fl]]; simpl in *; try discriminate;
      rewrite Hnone; simpl; rewrite Hts; simpl;
      eexists; split; reflexivity. }
  destruct Hrun as (pw' & E & Hlp). exists pw'.
  split; [exact E|]. split; [exact Hlp|].
  intros later Hsame Hlater.
  assert (Hdoc : learningProgress later !! userId_
                 = Some (initial_document userId_ (now (rest pw)))).
  { rewrite Hsame, Hlp. apply lookup_insert_eq. }
  destruct later as [lp' qa' [rs' sc' t' tk' fl' co' tz']]. simpl in *.
  unfold getLearningProgress. unfold_progress. simpl.
  unfold requests_ok in Hlater. simpl in Hlater.
  destruct fl' as [|[] fl']; simpl in *; try discriminate;
    rewrite Hdoc; reflexivity.
Qed.

Lemma progress_is_created_and_read_back_witness :
  exists pw',
    getLearningProgress "u2" progress_world
    = (Ok (Some (initial_progress "u2" (now (rest progress_world)))), pw') /\
    learningProgress pw'
    = <["u2" := initial_document "u2" (now (rest progress_world))]>
        (learningProgress progress_world) /\
    forall later,
      learningProgress later = learningProgress pw' ->
      requests_ok 1 (rest later) = true ->
      fst (getLearningProgress "u2" later)
      = Ok (Some (initial_progress "u2" (now (rest progress_world)))).
Proof.
  apply (progress_is_created_and_read_back "u2" progress_world).
  - reflexivity.
  - reflexivity.
  - reflexivity.
  - vm_compute. reflexivity.
Defined.

(** ** Writing the progress *)

Lemma fromDate_quiet d pw :
  exists pw',
    lift (fromDate d) pw
    = (match Timestamp_fromDate d with
       | Some ts => Ok ts
       | None => Throw InvalidArgument
       end, pw') /\
    quiet pw pw'.
Proof.
  destruct pw as [lp qa w]. unfold lift, fromDate. simpl.
  destruct (Timestamp_fromDate d); eexists;
    (split; [reflexivity|]); apply quiet_refl.
Qed.

(** Writing the topics changes their dates only. *)
Lemma write_topics_quiet (l : list (TopicProgress Date)) :
  forall pw,
  exists r pw',
    P_map
      (fun t =>
         P_bind (lift (fromDate (lastStudied t)))
           (fun lastStudied_ =>
              P_ret
                (mkTopicProgress (tp_topic t) (subject t)
                   (tp_masteryLevel t) (quizzesTaken t) (tp_averageScore t)
                   lastStudied_ (conceptsCovered t))))
      l pw = (r, pw') /\
    quiet pw pw' /\
    match r with
    | Ok l' => without_date <$> l' = without_date <$> l
    | Throw _ => True
    end.
Proof.
  induction l as [|t l IH]; intros pw.
  - exists (Ok []), pw. split; [reflexivity|]. split; [apply quiet_refl|].
    reflexivity.
  - cbn [P_map]. unfold P_bind at 1. unfold P_bind at 1.
    destruct (fromDate_quiet (lastStudied t) pw) as (pw1 & E1 & Q1).
    rewrite E1. destruct (Timestamp_fromDate (lastStudied t)) as [ts|].
    + unfold P_ret at 1. unfold P_bind at 1.
      destruct (IH pw1) as (r & pw' & E & Q & Hl). rewrite E.
      destruct r as [l'|e].
      * eexists _, pw'. split; [reflexivity|].
        split; [exact (quiet_trans _ _ _ Q1 Q)|].
        rewrite !fmap_cons, Hl. reflexivity.
      * eexists _, pw'. split; [reflexivity|].
        split; [exact (quiet_trans _ _ _ Q1 Q)|]. exact I.
    + eexists _, pw1. split; [reflexivity|]. split; [exact Q1|]. exact I.
Qed.

(** What [updateLearningProgress] does: it throws, writes nothing and
    logs; or it overwrites fields of the document of the user. *)
Lemma updateLearningProgress_cases userId_ updates pw :
  exists r pw',
    updateLearningProgress userId_ updates pw = (r, pw') /\
    ((exists e,
        r = Throw e /\
        learningProgress pw' = learningProgress pw /\
        logged ["Error updating learning progress:"] pw pw') \/
     (exists d updateData,
        r = Ok tt /\
        logged [] pw pw' /\
        learningProgress pw !! userId_ = Some d /\
        learningProgress pw'
        = <[userId_ := set_fields updateData d]> (learningProgress pw) /\
        same_updates updates updateData)).
Proof.
  assert (Hthrow : forall e pw1,
    quiet pw pw1 ->
    exists r pw',
      P_bind (lift (console_error "Error updating learning progress:"))
        (fun _ => P_throw e) pw1 = (r, pw') /\
      ((exists e,
          r = Throw e /\
          learningProgress pw' = learningProgress pw /\
          logged ["Error updating learning progress:"] pw pw') \/
       (exists d updateData,
          r = Ok tt /\
          logged [] pw pw' /\
          learningProgress pw !! userId_ = Some d /\
          learningProgress pw'
          = <[userId_ := set_fields updateData d]> (learningProgress pw) /\
          same_updates updates updateData))).
  { intros e pw1 [L Q]. unfold P_bind.
    destruct (console_error_run "Error updating learning progress:" pw1)
      as (pw' & E & Hlp & Hlog).
    rewrite E. unfold P_throw. eexists _, _. split; [reflexivity|].
    left. exists e. split; [reflexivity|]. split; [congruence|].
    exact (logged_trans _ _ _ _ _ Q Hlog). }
  unfold updateLearningProgress, P_try_catch. unfold P_bind at 1.
  (* the date *)
  assert (Hdate :
    exists r1 pw1,
      match upd_lastStudyDate updates with
      | Some d =>
          P_bind (lift (fromDate d)) (fun ts => P_ret (Some ts))
      | None => P_ret None
      end pw = (r1, pw1) /\
      quiet pw pw1 /\
      match r1 with
      | Ok o =>
          match upd_lastStudyDate updates, o with
          | Some d, Some ts => Timestamp_fromDate d = Some ts
          | None, None => True
          | _, _ => False
          end
      | Throw _ => True
      end).
  { destruct (upd_lastStudyDate updates) as [d|].
    - unfold P_bind.
      destruct (fromDate_quiet d pw) as (pw1 & E1 & Q1).
      rewrite E1.
      destruct (Timestamp_fromDate d) as [ts|]; eexists _, _;
        (split; [reflexivity|]); (split; [exact Q1|]); reflexivity.
    - eexists _, _. split; [reflexivity|]. split; [apply quiet_refl|].
      exact I. }
  destruct Hdate as (r1 & pw1 & E1 & Q1 & Hnone). rewrite E1.
  destruct r1 as [date|e]; [|exact (Hthrow e pw1 Q1)].
  unfold P_bind at 1.
  (* the topics *)
  destruct (upd_topics updates) as [ts|] eqn:Et.
  - unfold P_bind at 1.
    destruct (write_topics_quiet ts pw1) as (r2 & pw2 & E2 & Q2 & Hl).
    rewrite E2. pose proof (quiet_trans _ _ _ Q1 Q2) as Q12.
    destruct r2 as [ts'|e]; [|exact (Hthrow e pw2 Q12)].
    unfold P_ret at 1. rewrite updateDoc_learningProgress_run.
    pose proof (quiet_trans _ _ _ Q12 (after_request_quiet pw2)) as Q.
    destruct (hd false (faults (rest pw2))); [exact (Hthrow _ _ Q)|].
    destruct Q12 as [L12 _].
    destruct (learningProgress pw2 !! userId_) as [d|] eqn:Ed;
      [|exact (Hthrow _ _ Q)].
    rewrite L12 in Ed.
    eexists _, _. split; [reflexivity|]. right. eexists d, _.
    split; [reflexivity|]. destruct Q as [_ Q]. split; [exact Q|].
    split; [exact Ed|]. split; [cbn [learningProgress]; rewrite L12;
                                reflexivity|].
    unfold same_updates.
    cbn [upd_userId upd_totalQuizzesTaken upd_averageScore upd_streakDays
         upd_studyTimeTotal upd_weakTopics upd_strongTopics
         upd_lastStudyDate upd_topics].
    repeat (split; [reflexivity|]). split.
    + exact Hnone.
    + rewrite Et. exact Hl.
  - unfold P_ret at 1. rewrite updateDoc_learningProgress_run.
    pose proof (quiet_trans _ _ _ Q1 (after_request_quiet pw1)) as Q.
    destruct (hd false (faults (rest pw1))); [exact (Hthrow _ _ Q)|].
    destruct Q1 as [L1 _].
    destruct (learningProgress pw1 !! userId_) as [d|] eqn:Ed;
      [|exact (Hthrow _ _ Q)].
    rewrite L1 in Ed.
    eexists _, _. split; [reflexivity|]. right. eexists d, _.
    split; [reflexivity|]. destruct Q as [_ Q]. split; [exact Q|].
    split; [exact Ed|]. split; [cbn [learningProgress]; rewrite L1;
                                reflexivity|].
    unfold same_updates.
    cbn [upd_userId upd_totalQuizzesTaken upd_averageScore upd_streakDays
         upd_studyTimeTotal upd_weakTopics upd_strongTopics
         upd_lastStudyDate upd_topics].
    repeat (split; [reflexivity|]). split.
    + exact Hnone.
    + rewrite Et. exact I.
Qed.

(** X24: [updateLearningProgress] either throws, and then it has written
    nothing but a line on the console, or overwrites the given fields of
    the document of the user and nothing else.  It creates no document:
    for a user without progress it always throws. *)
Theorem update_of_progress userId_ updates pw :
  exists r pw',
    updateLearningProgress userId_ updates pw = (r, pw') /\
    revisionSchedules (rest pw') = revisionSchedules (rest pw) /\
    storedContent (rest pw') = storedContent (rest pw) /\
    (learningProgress pw !! userId_ = None -> exists e, r = Throw e) /\
    match r with
    | Throw _ =>
        learningProgress pw' = learningProgress pw /\
        console (rest pw')
        = "Error updating learning progress:" :: console (rest pw)
    | Ok _ =>
        console (rest pw') = console (rest pw) /\
        exists d updateData,
          learningProgress pw !! userId_ = Some d /\
          same_updates updates updateData /\
          learningProgress pw'
          = <[userId_ := set_fields updateData d]> (learningProgress pw)
    end.
Proof.
  destruct (updateLearningProgress_cases userId_ updates pw)
    as (r & pw' & E &
        [(e & -> & Hlp & Hqa & Hrs & Hsc & Hco)
        |(d & updateData & -> & (Hqa & Hrs & Hsc & Hco) & Hd & Hlp & Hsame)]);
    eexists _, pw'; (split; [exact E|]);
    (split; [exact Hrs|]); (split; [exact Hsc|]).
  - split; [eauto|]. split; [exact Hlp|exact Hco].
  - split; [rewrite Hd; discriminate|]. split; [exact Hco|].
    exists d, updateData. auto.
Qed.

(** ** The performance on the topics of a quiz *)

(** No mastery level is both below 60 and at least 70. *)
Lemma weak_not_strong x : ltb x n60 = true -> leb n70 x = true -> False.
Proof.
  unfold ltb, leb, SFltb, SFleb, SFcompare, n60, n70.
  destruct x as [s|[]| |[] m e]; try discriminate.
  destruct (e ?= -47) eqn:E1; try discriminate;
    destruct (-46 ?= e) eqn:E2; try discriminate; intros _ _.
  - apply Z.compare_eq in E1, E2. lia.
  - apply Z.compare_eq in E1. change (-46 < e) in E2. lia.
  - change (e < -47) in E1. apply Z.compare_eq in E2. lia.
  - change (e < -47) in E1. change (-46 < e) in E2. lia.
Qed.

Lemma names_without_date {D1 D2} (l1 : list (TopicProgress D1))
    (l2 : list (TopicProgress D2)) :
  without_date <$> l1 = without_date <$> l2 ->
  tp_topic <$> l1 = tp_topic <$> l2.
Proof.
  intros H. apply (f_equal (fmap tp_topic)) in H.
  rewrite <- !list_fmap_compose in H. exact H.
Qed.

Lemma elem_of_without_date {D1 D2} (l1 : list (TopicProgress D1))
    (l2 : list (TopicProgress D2)) t1 :
  without_date <$> l1 = without_date <$> l2 ->
  t1 ∈ l1 ->
  exists t2, t2 ∈ l2 /\ without_date t2 = without_date t1.
Proof.
  intros H Hin. apply (list_elem_of_fmap_2 without_date) in Hin.
  rewrite H in Hin. apply list_elem_of_fmap in Hin as (t2 & E & Hin).
  exists t2. auto.
Qed.

(** The result of a quiz on one topic updates the topic of that name, or
    adds it at the end; it leaves the other topics alone. *)
Lemma record_result_cases result l pw :
  exists l' pw',
    record_result result l pw = (Ok l', pw') /\
    quiet pw pw' /\
    ((result_topic result ∈ (tp_topic <$> l) /\
      tp_topic <$> l' = tp_topic <$> l) \/
     ((result_topic result ∉ tp_topic <$> l) /\
      tp_topic <$> l' = (tp_topic <$> l) ++ [result_topic result])) /\
    (forall t, t ∈ l -> tp_topic t <> result_topic result -> t ∈ l').
Proof.
  unfold record_result.
  destruct (list_find _ l) as [[i x]|] eqn:Ef.
  - apply list_find_Some in Ef as (Hi & Hx & _). unfold P_bind.
    destruct (new_Date_quiet pw) as (today & pw' & E & Q). rewrite E.
    unfold P_ret. eexists _, _. split; [reflexivity|].
    split; [exact Q|]. split.
    + left. split.
      * rewrite <- Hx. apply list_elem_of_fmap_2.
        eapply list_elem_of_lookup_2. exact Hi.
      * rewrite list_fmap_insert. apply list_insert_id.
        rewrite list_lookup_fmap, Hi. reflexivity.
    + intros t Ht Hne. apply list_elem_of_lookup_1 in Ht as [j Hj].
      apply (list_elem_of_lookup_2 _ j).
      rewrite list_lookup_insert_ne; [exact Hj|].
      intros ->. congruence.
  - apply list_find_None in Ef. unfold P_bind.
    destruct (new_Date_quiet pw) as (today & pw' & E & Q). rewrite E.
    unfold P_ret. eexists _, _. split; [reflexivity|].
    split; [exact Q|]. split.
    + right. split.
      * intros Hin. apply list_elem_of_fmap in Hin as (t & Ht & Hin).
        rewrite Forall_forall in Ef. exact (Ef t Hin (eq_sym Ht)).
      * rewrite fmap_app. reflexivity.
    + intros t Ht _. apply elem_of_app. left. exact Ht.
Qed.

(** The first loop of [updateTopicPerformance]. *)
Lemma record_results results : forall l pw,
  exists l' pw',
    P_forEach results l record_result pw = (Ok l', pw') /\
    quiet pw pw' /\
    (tp_topic <$> l) `prefix_of` (tp_topic <$> l') /\
    (NoDup (tp_topic <$> l) -> NoDup (tp_topic <$> l')) /\
    (forall r, r ∈ results -> result_topic r ∈ tp_topic <$> l') /\
    (forall t,
        t ∈ l -> tp_topic t ∉ result_topic <$> results -> t ∈ l').
Proof.
  induction results as [|r results IH]; intros l pw.
  - exists l, pw. split; [reflexivity|]. split; [apply quiet_refl|].
    split; [reflexivity|]. split; [auto|]. split; [|auto].
    intros r Hr. apply elem_of_nil in Hr. contradiction.
  - cbn [P_forEach]. unfold P_bind at 1.
    destruct (record_result_cases r l pw)
      as (l1 & pw1 & E1 & Q1 & Hnames & Hkeep1).
    rewrite E1.
    destruct (IH l1 pw1) as (l' & pw' & E & Q & Hpre & Hnd & Hres & Hkeep).
    rewrite E. exists l', pw'. split; [reflexivity|].
    split; [exact (quiet_trans _ _ _ Q1 Q)|].
    assert (Hpre1 : (tp_topic <$> l) `prefix_of` (tp_topic <$> l1)).
    { destruct Hnames as [[_ ->]|[_ ->]]; [reflexivity|].
      apply prefix_app_r. reflexivity. }
    assert (Hr : result_topic r ∈ tp_topic <$> l1).
    { destruct Hnames as [[Hin ->]|[_ ->]]; [exact Hin|].
      apply elem_of_app. right. apply list_elem_of_singleton.
      reflexivity. }
    split; [etrans; eassumption|]. split; [|split].
    + intros Hl. apply Hnd.
      destruct Hnames as [[_ ->]|[Hnot ->]]; [exact Hl|].
      apply NoDup_app. split; [exact Hl|]. split.
      * intros x Hx Hx'. apply list_elem_of_singleton in Hx'. subst x.
        contradiction.
      * apply NoDup_singleton.
    + intros r' Hr'. apply elem_of_cons in Hr' as [->|Hr'].
      * destruct Hpre as [k ->]. apply elem_of_app. left. exact Hr.
      * apply Hres. exact Hr'.
    + intros t Ht Hnot. rewrite fmap_cons in Hnot.
      apply not_elem_of_cons in Hnot as [Hne Hnot].
      apply Hkeep; [|exact Hnot]. apply Hkeep1; assumption.
Qed.

(** The second loop of [updateTopicPerformance]. *)
Lemma categorize_all l : forall weak strong,
  NoDup weak -> NoDup strong ->
  NoDup (foldl categorize (weak, strong) l).1 /\
  NoDup (foldl categorize (weak, strong) l).2 /\
  (forall name,
      name ∈ (foldl categorize (weak, strong) l).1 <->
      name ∈ weak \/
      exists t, t ∈ l /\ tp_topic t = name /\
                ltb (tp_masteryLevel t) n60 = true) /\
  (forall name,
      name ∈ (foldl categorize (weak, strong) l).2 <->
      name ∈ strong \/
      exists t, t ∈ l /\ tp_topic t = name /\
                leb n70 (tp_masteryLevel t) = true).
Proof.
  induction l as [|t l IH]; intros weak strong Hw Hs.
  - simpl. split; [exact Hw|]. split; [exact Hs|].
    split; intros name; split; auto; intros [H|(t & Ht & _)]; auto;
      apply elem_of_nil in Ht; contradiction.
  - cbn [foldl]. unfold categorize at 2 4 6 8.
    destruct (ltb (tp_masteryLevel t) n60) eqn:Eweak.
    + assert (Estrong : leb n70 (tp_masteryLevel t) = false).
      { destruct (leb n70 (tp_masteryLevel t)) eqn:E; [|reflexivity].
        destruct (weak_not_strong _ Eweak E). }
      destruct (bool_decide (tp_topic t ∈ weak)) eqn:Ein.
      * apply bool_decide_eq_true in Ein.
        destruct (IH weak strong Hw Hs) as (N1 & N2 & M1 & M2).
        split; [exact N1|]. split; [exact N2|].
        split; intros name; [rewrite M1|rewrite M2]; split.
        -- intros [H|(t' & Ht' & Hn & Hm)]; [auto|].
           right. exists t'. rewrite elem_of_cons. auto.
        -- intros [H|(t' & Ht' & Hn & Hm)]; [auto|].
           apply elem_of_cons in Ht' as [->|Ht'].
           ++ left. rewrite <- Hn. exact Ein.
           ++ right. exists t'. auto.
        -- intros [H|(t' & Ht' & Hn & Hm)]; [auto|].
           right. exists t'. rewrite elem_of_cons. auto.
        -- intros [H|(t' & Ht' & Hn & Hm)]; [auto|].
           apply elem_of_cons in Ht' as [->|Ht']; [congruence|].
           right. exists t'. auto.
      * apply bool_decide_eq_false in Ein.
        assert (Hw' : NoDup (weak ++ [tp_topic t])).
        { apply NoDup_app. split; [exact Hw|]. split.
          - intros x Hx Hx'. apply list_elem_of_singleton in Hx'.
            subst x. contradiction.
          - apply NoDup_singleton. }
        destruct (IH (weak ++ [tp_topic t]) strong Hw' Hs)
          as (N1 & N2 & M1 & M2).
        split; [exact N1|]. split; [exact N2|].
        split; intros name; [rewrite M1|rewrite M2]; split.
        -- rewrite elem_of_app, list_elem_of_singleton.
           intros [[H| ->]|(t' & Ht' & Hn & Hm)]; [auto| |].
           ++ right. exists t. rewrite elem_of_cons. auto.
           ++ right. exists t'. rewrite elem_of_cons. auto.
        -- rewrite elem_of_app, list_elem_of_singleton.
           intros [H|(t' & Ht' & Hn & Hm)]; [auto|].
           apply elem_of_cons in Ht' as [->|Ht']; [auto|].
           right. exists t'. auto.
        -- intros [H|(t' & Ht' & Hn & Hm)]; [auto|].
           right. exists t'. rewrite elem_of_cons. auto.
        -- intros [H|(t' & Ht' & Hn & Hm)]; [auto|].
           apply elem_of_cons in Ht' as [->|Ht']; [congruence|].
           right. exists t'. auto.
    + destruct (leb n70 (tp_masteryLevel t)) eqn:Estrong.
      * destruct (bool_decide (tp_topic t ∈ strong)) eqn:Ein.
        -- apply bool_decide_eq_true in Ein.
           destruct (IH weak strong Hw Hs) as (N1 & N2 & M1 & M2).
           split; [exact N1|]. split; [exact N2|].
           split; intros name; [rewrite M1|rewrite M2]; split.
           ++ intros [H|(t' & Ht' & Hn & Hm)]; [auto|].
              right. exists t'. rewrite elem_of_cons. auto.
           ++ intros [H|(t' & Ht' & Hn & Hm)]; [auto|].
              apply elem_of_cons in Ht' as [->|Ht']; [congruence|].
              right. exists t'. auto.
           ++ intros [H|(t' & Ht' & Hn & Hm)]; [auto|].
              right. exists t'. rewrite elem_of_cons. auto.
           ++ intros [H|(t' & Ht' & Hn & Hm)]; [auto|].
              apply elem_of_cons in Ht' as [->|Ht'].
              ** left. rewrite <- Hn. exact Ein.
              ** right. exists t'. auto.
        -- apply bool_decide_eq_false in Ein.
           assert (Hs' : NoDup (strong ++ [tp_topic t])).
           { apply NoDup_app. split; [exact Hs|]. split.
             - intros x Hx Hx'. apply list_elem_of_singleton in Hx'.
               subst x. contradiction.
             - apply NoDup_singleton. }
           destruct (IH weak (strong ++ [tp_topic t]) Hw Hs')
             as (N1 & N2 & M1 & M2).
           split; [exact N1|]. split; [exact N2|].
           split; intros name; [rewrite M1|rewrite M2]; split.
           ++ intros [H|(t' & Ht' & Hn & Hm)]; [auto|].
              right. exists t'. rewrite elem_of_cons. auto.
           ++ intros [H|(t' & Ht' & Hn & Hm)]; [auto|].
              apply elem_of_cons in Ht' as [->|Ht']; [congruence|].
              right. exists t'. auto.
           ++ rewrite elem_of_app, list_elem_of_singleton.
              intros [[H| ->]|(t' & Ht' & Hn & Hm)]; [auto| |].
              ** right. exists t. rewrite elem_of_cons. auto.
              ** right. exists t'. rewrite elem_of_cons. auto.
           ++ rewrite elem_of_app, list_elem_of_singleton.
              intros [H|(t' & Ht' & Hn & Hm)]; [auto|].
              apply elem_of_cons in Ht' as [->|Ht']; [auto|].
              right. exists t'. auto.
      * destruct (IH weak strong Hw Hs) as (N1 & N2 & M1 & M2).
        split; [exact N1|]. split; [exact N2|].
        split; intros name; [rewrite M1|rewrite M2]; split.
        -- intros [H|(t' & Ht' & Hn & Hm)]; [auto|].
           right. exists t'. rewrite elem_of_cons. auto.
        -- intros [H|(t' & Ht' & Hn & Hm)]; [auto|].
           apply elem_of_cons in Ht' as [->|Ht']; [congruence|].
           right. exists t'. auto.
        -- intros [H|(t' & Ht' & Hn & Hm)]; [auto|].
           right. exists t'. rewrite elem_of_cons. auto.
        -- intros [H|(t' & Ht' & Hn & Hm)]; [auto|].
           apply elem_of_cons in Ht' as [->|Ht']; [congruence|].
           right. exists t'. auto.
Qed.

(** A progress that [getLearningProgress] returns is the one of a
    document that is stored when it returns. *)
Lemma getLearningProgress_Some userId_ pw p pw1 :
  getLearningProgress userId_ pw = (Ok (Some p), pw1) ->
  exists d0,
    (learningProgress pw !! userId_ = Some d0 \/
     (learningProgress pw !! userId_ = None /\
      exists today, d0 = initial_document userId_ today)) /\
    learningProgress pw1 !! userId_ = Some d0 /\
    (forall x,
        <[userId_ := x]> (learningProgress pw1)
        = <[userId_ := x]> (learningProgress pw)) /\
    logged [] pw pw1 /\
    without_date <$> lp_topics p = without_date <$> stored_topics d0 /\
    totalQuizzesTaken p = totalQuizzesTaken d0 /\
    averageScore p = averageScore d0 /\
    streakDays p = streakDays d0 /\
    studyTimeTotal p = studyTimeTotal d0.
Proof.
  intros Hrun.
  destruct (getLearningProgress_cases userId_ pw)
    as (r & pw' & E &
        [(-> & _)
        |[(d & p' & -> & Hd & [Hlp Hlog] & Ht & _ & H1 & H2 & H3 & H4 & _)
         |(today & -> & Hd & Hlp & Hlog)]]);
    rewrite Hrun in E; try discriminate;
    injection E as -> <-.
  - exists d. split; [left; exact Hd|]. rewrite Hlp.
    split; [exact Hd|]. split; [reflexivity|]. split; [exact Hlog|].
    auto.
  - exists (initial_document userId_ today). split; [right; eauto|].
    rewrite Hlp. split; [apply lookup_insert_eq|].
    split; [intros x; apply insert_insert_eq|]. split; [exact Hlog|].
    repeat split.
Qed.

(** What [updateTopicPerformance] does: it returns normally; either a
    line has been logged, or the topics, the weak topics and the strong
    topics of the document of the user have been written. *)
Lemma updateTopicPerformance_cases userId_ results pw :
  exists pw',
    updateTopicPerformance userId_ results pw = (Ok tt, pw') /\
    revisionSchedules (rest pw') = revisionSchedules (rest pw) /\
    storedContent (rest pw') = storedContent (rest pw) /\
    (forall key,
        key <> userId_ ->
        learningProgress pw' !! key = learningProgress pw !! key) /\
    ((exists msg msgs,
        console (rest pw') = msg :: msgs ++ console (rest pw)) \/
     (console (rest pw') = console (rest pw) /\
      exists d0 updated ts,
        (learningProgress pw !! userId_ = Some d0 \/
         (learningProgress pw !! userId_ = None /\
          exists today, d0 = initial_document userId_ today)) /\
        (tp_topic <$> stored_topics d0) `prefix_of` (tp_topic <$> updated) /\
        (NoDup (tp_topic <$> stored_topics d0) ->
         NoDup (tp_topic <$> updated)) /\
        (forall r, r ∈ results -> result_topic r ∈ tp_topic <$> updated) /\
        (forall t,
            t ∈ stored_topics d0 ->
            tp_topic t ∉ result_topic <$> results ->
            without_date t ∈ without_date <$> updated) /\
        without_date <$> ts = without_date <$> updated /\
        learningProgress pw'
        = <[userId_ :=
              set_fields
                (mkUpdates None (Some ts) None None None None None
                   (Some (foldl categorize ([], []) updated).1)
                   (Some (foldl categorize ([], []) updated).2))
                d0]> (learningProgress pw))).
Proof.
  unfold updateTopicPerformance, P_try_catch. unfold P_bind at 1.
  destruct (getLearningProgress_cases userId_ pw)
    as (r & pw1 & E1 & Hcases).
  rewrite E1. destruct r as [p|].
  2:{ (* no progress *)
    destruct Hcases
      as [(_ & Hlp & Hqa & Hrs & Hsc & Hco)
         |[(d & p' & Habs & _)|(today & Habs & _)]];
      try discriminate.
    unfold P_ret. exists pw1. split; [reflexivity|].
    split; [exact Hrs|]. split; [exact Hsc|].
    split; [intros key _; rewrite Hlp; reflexivity|].
    left. exists "Error getting learning progress:", []. exact Hco. }
  clear Hcases.
  destruct (getLearningProgress_Some _ _ _ _ E1)
    as (d0 & Hd0 & Hd1 & Hins & Hlog1 & Ht & _).
  assert (Hother : forall key,
    key <> userId_ ->
    learningProgress pw1 !! key = learningProgress pw !! key).
  { intros key Hkey.
    rewrite <- (lookup_insert_ne (learningProgress pw1) userId_ key d0),
            <- (lookup_insert_ne (learningProgress pw) userId_ key d0)
      by congruence.
    rewrite Hins. reflexivity. }
  unfold P_bind at 1.
  destruct (record_results results (lp_topics p) pw1)
    as (updated & pw2 & E2 & [Hlp2 Hlog2] & Hpre & Hnd & Hres & Hkeep).
  rewrite E2.
  pose proof (logged_trans _ _ _ _ _ Hlog1 Hlog2) as Hlog12.
  destruct (foldl categorize ([], []) updated) as [weak strong] eqn:Ef.
  match goal with
  | |- context [updateLearningProgress userId_ ?u pw2] =>
      destruct (updateLearningProgress_cases userId_ u pw2)
        as (r3 & pw3 & E3 &
            [(e & -> & Hlp3 & Hlog3)
            |(d & updateData & -> & Hlog3 & Hd & Hlp3 & Hsame)])
  end; rewrite E3.
  - (* the write throws *)
    unfold P_bind.
    destruct (console_error_run "Error updating topic performance:" pw3)
      as (pw' & E & Hlp & Hlog).
    rewrite E. unfold P_ret. exists pw'. split; [reflexivity|].
    pose proof (logged_trans _ _ _ _ _
                  (logged_trans _ _ _ _ _ Hlog12 Hlog3) Hlog)
      as (Hqa & Hrs & Hsc & Hco).
    split; [exact Hrs|]. split; [exact Hsc|]. split.
    + intros key Hkey. rewrite Hlp, Hlp3, Hlp2. apply Hother, Hkey.
    + left.
      exists "Error updating topic performance:",
        ["Error updating learning progress:"].
      exact Hco.
  - (* the write succeeds *)
    exists pw3. split; [reflexivity|].
    pose proof (logged_trans _ _ _ _ _ Hlog12 Hlog3) as (Hqa & Hrs & Hsc & Hco).
    split; [exact Hrs|]. split; [exact Hsc|].
    rewrite Hlp2, Hd1 in Hd. injection Hd as <-.
    rewrite Hlp2, Hins in Hlp3. split.
    + intros key Hkey. rewrite Hlp3. apply lookup_insert_ne. congruence.
    + right. split; [exact Hco|].
      destruct updateData as [a ts b c e f g h i].
      destruct Hsame as (Ha & Hb & Hc & He & Hg & Hh & Hi & Hf & Hts).
      simpl in Ha, Hb, Hc, He, Hg, Hh, Hi, Hf, Hts.
      destruct ts as [ts|]; [|contradiction].
      destruct f; [contradiction|]. subst a b c e g h i.
      exists d0, updated, ts. split; [exact Hd0|].
      rewrite <- (names_without_date _ _ Ht).
      split; [exact Hpre|]. split; [exact Hnd|]. split; [exact Hres|].
      split.
      * intros t Hin Hnot.
        destruct (elem_of_without_date _ _ t (eq_sym Ht) Hin)
          as (t2 & Hin2 & Heq).
        rewrite <- Heq. apply list_elem_of_fmap_2, Hkeep; [exact Hin2|].
        replace (tp_topic t2) with (tp_topic t); [exact Hnot|].
        exact (f_equal tp_topic (eq_sym Heq)).
      * split; [exact Hts|]. rewrite Ef. exact Hlp3.
Qed.

Lemma console_grew (co : list string) msg msgs :
  co = msg :: msgs ++ co -> False.
Proof.
  intros H. apply (f_equal length) in H.
  rewrite length_cons, length_app in H. lia.
Qed.

(** A property of the name and the mastery level of some topic holds of
    two lists of topics that differ by their dates only. *)
Lemma exists_topic_iff {D1 D2} (l1 : list (TopicProgress D1))
    (l2 : list (TopicProgress D2)) (P : string -> number -> Prop) :
  without_date <$> l1 = without_date <$> l2 ->
  (exists t, t ∈ l1 /\ P (tp_topic t) (tp_masteryLevel t)) <->
  (exists t, t ∈ l2 /\ P (tp_topic t) (tp_masteryLevel t)).
Proof.
  intros H. split; intros (t & Hin & HP).
  - destruct (elem_of_without_date _ _ t H Hin) as (t2 & Hin2 & Heq).
    exists t2. split; [exact Hin2|].
    replace (tp_topic t2) with (tp_topic t)
      by exact (f_equal tp_topic (eq_sym Heq)).
    replace (tp_masteryLevel t2) with (tp_masteryLevel t)
      by exact (f_equal tp_masteryLevel (eq_sym Heq)).
    exact HP.
  - destruct (elem_of_without_date _ _ t (eq_sym H) Hin)
      as (t2 & Hin2 & Heq).
    exists t2. split; [exact Hin2|].
    replace (tp_topic t2) with (tp_topic t)
      by exact (f_equal tp_topic (eq_sym Heq)).
    replace (tp_masteryLevel t2) with (tp_masteryLevel t)
      by exact (f_equal tp_masteryLevel (eq_sym Heq)).
    exact HP.
Qed.

(** The topics of the document that [updateTopicPerformance] writes. *)
Lemma stored_topics_set_fields ts weak strong d0 :
  without_date <$>
    stored_topics
      (set_fields
         (mkUpdates None (Some ts) None None None None None weak strong) d0)
  = without_date <$> ts.
Proof.
  unfold stored_topics, set_fields. simpl.
  rewrite <- list_fmap_compose. reflexivity.
Qed.

(** X25: [updateTopicPerformance] returns normally whatever the store
    does; it leaves the progress of every other user, the revision
    schedules and the stored contents as they were. *)
Theorem topic_performance_never_throws userId_ topicResults pw :
  exists pw',
    updateTopicPerformance userId_ topicResults pw = (Ok tt, pw') /\
    revisionSchedules (rest pw') = revisionSchedules (rest pw) /\
    storedContent (rest pw') = storedContent (rest pw) /\
    forall key,
      key <> userId_ ->
      learningProgress pw' !! key = learningProgress pw !! key.
Proof.
  destruct (updateTopicPerformance_cases userId_ topicResults pw)
    as (pw' & E & Hrs & Hsc & Hother & _).
  exists pw'. auto.
Qed.

(** X26: when [updateTopicPerformance] has logged nothing, the progress of
    the user is stored with its topics sorted out: the weak topics are the
    names of the topics with a mastery level below 60, the strong topics
    those of the topics with a mastery level of 70 or more, each name
    once; and every topic of the quiz is among the topics. *)
Theorem topics_are_categorized userId_ topicResults pw r pw' :
  updateTopicPerformance userId_ topicResults pw = (r, pw') ->
  console (rest pw') = console (rest pw) ->
  exists p',
    learningProgress pw' !! userId_ = Some p' /\
    NoDup (weakTopics p') /\
    NoDup (strongTopics p') /\
    (forall name,
        name ∈ weakTopics p' <->
        exists t, t ∈ stored_topics p' /\
                  tp_topic t = name /\
                  ltb (tp_masteryLevel t) n60 = true) /\
    (forall name,
        name ∈ strongTopics p' <->
        exists t, t ∈ stored_topics p' /\
                  tp_topic t = name /\
                  leb n70 (tp_masteryLevel t) = true) /\
    (forall result,
        result ∈ topicResults ->
        result_topic result ∈ tp_topic <$> stored_topics p').
Proof.
  intros Hrun Hquiet.
  destruct (updateTopicPerformance_cases userId_ topicResults pw)
    as (pw1 & E & _ & _ & _ & Hcases).
  rewrite Hrun in E. injection E as -> <-.
  destruct Hcases
    as [(msg & msgs & Hco)
       |(_ & d0 & updated & ts & _ & _ & _ & Hres & _ & Hts & Hlp)].
  { rewrite Hco in Hquiet. destruct (console_grew _ _ _ (eq_sym Hquiet)). }
  eexists. split; [rewrite Hlp; apply lookup_insert_eq|].
  pose proof (stored_topics_set_fields ts
                (Some (foldl categorize ([], []) updated).1)
                (Some (foldl categorize ([], []) updated).2) d0) as Hst.
  rewrite Hts in Hst.
  destruct (categorize_all updated [] [] NoDup_nil_2 NoDup_nil_2)
    as (N1 & N2 & M1 & M2).
  cbn [set_fields weakTopics strongTopics upd_weakTopics upd_strongTopics
       default].
  split; [exact N1|]. split; [exact N2|]. split; [|split].
  - intros name. rewrite M1.
    rewrite (exists_topic_iff _ _
               (fun n m => n = name /\ ltb m n60 = true) Hst).
    rewrite elem_of_nil. tauto.
  - intros name. rewrite M2.
    rewrite (exists_topic_iff _ _
               (fun n m => n = name /\ leb n70 m = true) Hst).
    rewrite elem_of_nil. tauto.
  - intros result Hin. rewrite (names_without_date _ _ Hst).
    apply Hres, Hin.
Qed.

Lemma topics_are_categorized_witness :
  exists p',
    learningProgress
      (snd (updateTopicPerformance "u1" sample_results progress_world))
    !! "u1" = Some p' /\
    NoDup (weakTopics p') /\
    NoDup (strongTopics p') /\
    (forall name,
        name ∈ weakTopics p' <->
        exists t, t ∈ stored_topics p' /\
                  tp_topic t = name /\
                  ltb (tp_masteryLevel t) n60 = true) /\
    (forall name,
        name ∈ strongTopics p' <->
        exists t, t ∈ stored_topics p' /\
                  tp_topic t = name /\
                  leb n70 (tp_masteryLevel t) = true) /\
    (forall result,
        result ∈ sample_results ->
        result_topic result ∈ tp_topic <$> stored_topics p').
Proof.
  apply (topics_are_categorized "u1" sample_results progress_world
           (Ok tt)).
  - vm_compute. reflexivity.
  - vm_compute. reflexivity.
Defined.

(** X27: [updateTopicPerformance] keeps the names of the topics distinct.
    When it has logged nothing and the topics of the user had distinct
    names, the topics stored afterwards begin with the same names in the
    same order, their names are distinct, and no topic is both weak and
    strong. *)
Theorem topic_names_stay_distinct
    userId_ topicResults pw r pw' (d : StoredProgress) :
  learningProgress pw !! userId_ = Some d ->
  NoDup (tp_topic <$> stored_topics d) ->
  updateTopicPerformance userId_ topicResults pw = (r, pw') ->
  console (rest pw') = console (rest pw) ->
  exists p',
    learningProgress pw' !! userId_ = Some p' /\
    (tp_topic <$> stored_topics d) `prefix_of` (tp_topic <$> stored_topics p')
    /\
    NoDup (tp_topic <$> stored_topics p') /\
    forall name, ~ (name ∈ weakTopics p' /\ name ∈ strongTopics p').
Proof.
  intros Hd Hnodup Hrun Hquiet.
  destruct (updateTopicPerformance_cases userId_ topicResults pw)
    as (pw1 & E & _ & _ & _ & Hcases).
  rewrite Hrun in E. injection E as -> <-.
  destruct Hcases
    as [(msg & msgs & Hco)
       |(_ & d0 & updated & ts & Hd0 & Hpre & Hnd & _ & _ & Hts & Hlp)].
  { rewrite Hco in Hquiet. destruct (console_grew _ _ _ (eq_sym Hquiet)). }
  assert (d0 = d) as ->.
  { destruct Hd0 as [Hd0|[Hd0 _]]; congruence. }
  eexists. split; [rewrite Hlp; apply lookup_insert_eq|].
  pose proof (stored_topics_set_fields ts
                (Some (foldl categorize ([], []) updated).1)
                (Some (foldl categorize ([], []) updated).2) d) as Hst.
  rewrite Hts in Hst.
  rewrite (names_without_date _ _ Hst).
  specialize (Hnd Hnodup).
  split; [exact Hpre|]. split; [exact Hnd|].
  destruct (categorize_all updated [] [] NoDup_nil_2 NoDup_nil_2)
    as (_ & _ & M1 & M2).
  cbn [set_fields weakTopics strongTopics upd_weakTopics upd_strongTopics
       default].
  intros name [Hweak Hstrong].
  apply M1 in Hweak as [Hweak|(t1 & Hin1 & Hn1 & Hm1)];
    [apply elem_of_nil in Hweak; contradiction|].
  apply M2 in Hstrong as [Hstrong|(t2 & Hin2 & Hn2 & Hm2)];
    [apply elem_of_nil in Hstrong; contradiction|].
  apply list_elem_of_lookup_1 in Hin1 as [i Hi].
  apply list_elem_of_lookup_1 in Hin2 as [j Hj].
  assert (i = j).
  { apply (NoDup_lookup _ i j name Hnd);
      rewrite list_lookup_fmap; [rewrite Hi|rewrite Hj]; simpl; congruence. }
  subst j. rewrite Hi in Hj. injection Hj as <-.
  exact (weak_not_strong _ Hm1 Hm2).
Qed.

Lemma topic_names_stay_distinct_witness :
  exists p',
    learningProgress
      (snd (updateTopicPerformance "u1" sample_results progress_world))
    !! "u1" = Some p' /\
    ["Sorting"; "Graphs"] `prefix_of` (tp_topic <$> stored_topics p') /\
    NoDup (tp_topic <$> stored_topics p') /\
    forall name, ~ (name ∈ weakTopics p' /\ name ∈ strongTopics p').
Proof.
  apply (topic_names_stay_distinct "u1" sample_results progress_world
           (Ok tt) _
           (mkLearningProgress "u1"
              (Some
                 [mkTopicProgress "Sorting" "General" (ofZ 80) n1 (ofZ 80)
                    (Some 1699395200000) [];
                  mkTopicProgress "Graphs" "General" (ofZ 40) n1 (ofZ 40)
                    (Some 1699395200000) []])
              (ofZ 2) n60 n1 (Some 1699395200000) n10 ["Graphs"]
              ["Sorting"])).
  - reflexivity.
  - apply (bool_decide_unpack _). vm_compute. exact I.
  - vm_compute. reflexivity.
  - vm_compute. reflexivity.
Defined.

(** X28: when [updateTopicPerformance] has logged nothing, it has changed
    nothing of the progress of the user but the topics of the quiz and the
    lists of weak and strong topics: the counts, the average score, the
    streak, the study time and the last study date are as they were, and
    so is every topic that the quiz does not name, up to its date. *)
Theorem other_progress_is_kept
    userId_ topicResults pw r pw' (d : StoredProgress) :
  learningProgress pw !! userId_ = Some d ->
  updateTopicPerformance userId_ topicResults pw = (r, pw') ->
  console (rest pw') = console (rest pw) ->
  exists p',
    learningProgress pw' !! userId_ = Some p' /\
    lp_userId p' = lp_userId d /\
    totalQuizzesTaken p' = totalQuizzesTaken d /\
    averageScore p' = averageScore d /\
    streakDays p' = streakDays d /\
    lastStudyDate p' = lastStudyDate d /\
    studyTimeTotal p' = studyTimeTotal d /\
    forall t,
      t ∈ stored_topics d ->
      tp_topic t ∉ result_topic <$> topicResults ->
      without_date t ∈ without_date <$> stored_topics p'.
Proof.
  intros Hd Hrun Hquiet.
  destruct (updateTopicPerformance_cases userId_ topicResults pw)
    as (pw1 & E & _ & _ & _ & Hcases).
  rewrite Hrun in E. injection E as -> <-.
  destruct Hcases
    as [(msg & msgs & Hco)
       |(_ & d0 & updated & ts & Hd0 & _ & _ & _ & Hkeep & Hts & Hlp)].
  { rewrite Hco in Hquiet. destruct (console_grew _ _ _ (eq_sym Hquiet)). }
  assert (d0 = d) as ->.
  { destruct Hd0 as [Hd0|[Hd0 _]]; congruence. }
  eexists. split; [rewrite Hlp; apply lookup_insert_eq|].
  pose proof (stored_topics_set_fields ts
                (Some (foldl categorize ([], []) updated).1)
                (Some (foldl categorize ([], []) updated).2) d) as Hst.
  rewrite Hts in Hst. rewrite Hst.
  repeat (split; [reflexivity|]). exact Hkeep.
Qed.

Lemma other_progress_is_kept_witness :
  exists p',
    learningProgress
      (snd (updateTopicPerformance "u1" sample_results progress_world))
    !! "u1" = Some p' /\
    lp_userId p' = "u1" /\
    totalQuizzesTaken p' = ofZ 2 /\
    averageScore p' = n60 /\
    streakDays p' = n1 /\
    lastStudyDate p' = Some 1699395200000 /\
    studyTimeTotal p' = n10 /\
    forall t,
      t ∈ [mkTopicProgress "Sorting" "General" (ofZ 80) n1 (ofZ 80)
             (Some 1699395200000) [];
           mkTopicProgress "Graphs" "General" (ofZ 40) n1 (ofZ 40)
             (Some 1699395200000) []] ->
      tp_topic t ∉ result_topic <$> sample_results ->
      without_date t ∈ without_date <$> stored_topics p'.
Proof.
  apply (other_progress_is_kept "u1" sample_results progress_world
           (Ok tt) _
           (mkLearningProgress "u1"
              (Some
                 [mkTopicProgress "Sorting" "General" (ofZ 80) n1 (ofZ 80)
                    (Some 1699395200000) [];
                  mkTopicProgress "Graphs" "General" (ofZ 40) n1 (ofZ 40)
                    (Some 1699395200000) []])
              (ofZ 2) n60 n1 (Some 1699395200000) n10 ["Graphs"]
              ["Sorting"])).
  - reflexivity.
  - vm_compute. reflexivity.
  - vm_compute. reflexivity.
Defined.

(** ** Quiz attempts *)

Lemma Math_floor_examples :
  Math_floor (div (ofZ 7) (ofZ 2)) = ofZ 3 /\
  Math_floor (div (ofZ (-7)) (ofZ 2)) = ofZ (-4) /\
  Math_floor (div n1 (ofZ 2)) = S754_zero false /\
  Math_floor (ofZ 86400000) = ofZ 86400000 /\
  mul (mul (mul (ofZ 1000) n60) n60) (ofZ 24) = ofZ 86400000.
Proof. vm_compute. repeat split. Qed.

(** What [updateLearningProgressAfterQuiz] does: it returns normally;
    either a line has been logged, or the counts, the average, the streak,
    the last study date and the study time of the user have been
    written. *)
Lemma updateLearningProgressAfterQuiz_cases attempt pw :
  exists pw',
    updateLearningProgressAfterQuiz attempt pw = (Ok tt, pw') /\
    quizAttempts pw' = quizAttempts pw /\
    revisionSchedules (rest pw') = revisionSchedules (rest pw) /\
    storedContent (rest pw') = storedContent (rest pw) /\
    (forall key,
        key <> attempt_userId attempt ->
        learningProgress pw' !! key = learningProgress pw !! key) /\
    ((exists msg msgs,
        console (rest pw') = msg :: msgs ++ console (rest pw)) \/
     (console (rest pw') = console (rest pw) /\
      exists d0 newStreak today,
        (learningProgress pw !! attempt_userId attempt = Some d0 \/
         (learningProgress pw !! attempt_userId attempt = None /\
          exists today, d0 = initial_document (attempt_userId attempt) today))
        /\
        (newStreak = streakDays d0 \/
         newStreak = add (streakDays d0) n1 \/
         newStreak = n1) /\
        learningProgress pw'
        = <[attempt_userId attempt :=
              set_fields
                (mkUpdates None None
                   (Some (add (totalQuizzesTaken d0) n1))
                   (Some
                      (Math_round
                         (div
                            (add
                               (mul (averageScore d0) (totalQuizzesTaken d0))
                               (mul
                                  (div (score attempt)
                                     (totalQuestions attempt))
                                  n100))
                            (add (totalQuizzesTaken d0) n1))))
                   (Some newStreak) (Some today)
                   (Some
                      (add (studyTimeTotal d0)
                         (Math_round (div (timeSpent attempt) n60))))
                   None None)
                d0]> (learningProgress pw))).
Proof.
  unfold updateLearningProgressAfterQuiz, P_try_catch. unfold P_bind at 1.
  destruct (getLearningProgress_cases (attempt_userId attempt) pw)
    as (r & pw1 & E1 & Hcases).
  rewrite E1. destruct r as [p|].
  2:{ destruct Hcases
        as [(_ & Hlp & Hqa & Hrs & Hsc & Hco)
           |[(d & p' & Habs & _)|(today & Habs & _)]];
        try discriminate.
      unfold P_ret. exists pw1. split; [reflexivity|].
      split; [exact Hqa|]. split; [exact Hrs|]. split; [exact Hsc|].
      split; [intros key _; rewrite Hlp; reflexivity|].
      left. exists "Error getting learning progress:", []. exact Hco. }
  clear Hcases.
  destruct (getLearningProgress_Some _ _ _ _ E1)
    as (d0 & Hd0 & Hd1 & Hins & Hlog1 & _ & Ht & Ha & Hs & Hst).
  assert (Hother : forall key,
    key <> attempt_userId attempt ->
    learningProgress pw1 !! key = learningProgress pw !! key).
  { intros key Hkey.
    rewrite <- (lookup_insert_ne (learningProgress pw1)
                  (attempt_userId attempt) key d0),
            <- (lookup_insert_ne (learningProgress pw)
                  (attempt_userId attempt) key d0)
      by congruence.
    rewrite Hins. reflexivity. }
  unfold P_bind at 1.
  destruct (new_Date_quiet pw1) as (today & pw2 & E2 & [Hlp2 Hlog2]).
  rewrite E2.
  pose proof (logged_trans _ _ _ _ _ Hlog1 Hlog2) as Hlog12.
  rewrite Ht, Ha, Hs, Hst.
  match goal with
  | |- context [updateLearningProgress _ ?u pw2] =>
      destruct (updateLearningProgress_cases (attempt_userId attempt) u pw2)
        as (r3 & pw3 & E3 &
            [(e & -> & Hlp3 & Hlog3)
            |(d & updateData & -> & Hlog3 & Hd & Hlp3 & Hsame)])
  end; rewrite E3.
  - unfold P_bind.
    destruct (console_error_run "Error updating progress after quiz:" pw3)
      as (pw' & E & Hlp & Hlog).
    rewrite E. unfold P_ret. exists pw'. split; [reflexivity|].
    pose proof (logged_trans _ _ _ _ _
                  (logged_trans _ _ _ _ _ Hlog12 Hlog3) Hlog)
      as (Hqa & Hrs & Hsc & Hco).
    split; [exact Hqa|]. split; [exact Hrs|]. split; [exact Hsc|]. split.
    + intros key Hkey. rewrite Hlp, Hlp3, Hlp2. apply Hother, Hkey.
    + left.
      exists "Error updating progress after quiz:",
        ["Error updating learning progress:"].
      exact Hco.
  - exists pw3. split; [reflexivity|].
    pose proof (logged_trans _ _ _ _ _ Hlog12 Hlog3)
      as (Hqa & Hrs & Hsc & Hco).
    split; [exact Hqa|]. split; [exact Hrs|]. split; [exact Hsc|].
    rewrite Hlp2, Hd1 in Hd. injection Hd as <-.
    rewrite Hlp2, Hins in Hlp3. split.
    + intros key Hkey. rewrite Hlp3. apply lookup_insert_ne. congruence.
    + right. split; [exact Hco|].
      destruct updateData as [a ts b c e f g h i].
      destruct Hsame as (Ha' & Hb & Hc & He & Hg & Hh & Hi & Hf & Hts).
      simpl in Ha', Hb, Hc, He, Hg, Hh, Hi, Hf, Hts.
      destruct ts as [ts|]; [contradiction|].
      destruct f as [ts|]; [|contradiction].
      subst a b c e g h i.
      eexists d0, _, ts. split; [exact Hd0|]. split; [|exact Hlp3].
      destruct (strict_eq _ n0); [left; reflexivity|].
      destruct (strict_eq _ n1); right; [left|right]; reflexivity.
Qed.

Lemma addDoc_quizAttempts_run d pw :
  addDoc_quizAttempts d pw =
  if hd false (faults (rest pw))
  then (Throw Unavailable, after_request pw)
  else
    (Ok (fresh (dom (quizAttempts pw))),
     mkProgressWorld (learningProgress pw)
       (<[fresh (dom (quizAttempts pw)) := d]> (quizAttempts pw))
       (after_requests 1 (rest pw))).
Proof.
  unfold addDoc_quizAttempts, P_bind. rewrite lift_request_run.
  destruct (hd false (faults (rest pw))); reflexivity.
Qed.

Lemma fromDate_run d pw :
  lift (fromDate d) pw =
  (match Timestamp_fromDate d with
   | Some ts => Ok ts
   | None => Throw InvalidArgument
   end,
   mkProgressWorld (learningProgress pw) (quizAttempts pw) (rest pw)).
Proof.
  unfold lift, fromDate. destruct (Timestamp_fromDate d); reflexivity.
Qed.

(** X29: [saveQuizAttempt] succeeds as soon as the attempt itself is
    stored: it then returns the new identifier of the attempt, whatever
    happens to the update of the learning progress, whose failure is
    swallowed.  When it throws, neither an attempt nor any progress has
    been written. *)
Theorem quiz_attempt_is_saved_whatever_the_progress attempt pw :
  exists r pw',
    saveQuizAttempt attempt pw = (r, pw') /\
    revisionSchedules (rest pw') = revisionSchedules (rest pw) /\
    storedContent (rest pw') = storedContent (rest pw) /\
    match r with
    | Ok key =>
        quizAttempts pw !! key = None /\
        exists completed,
          Timestamp_fromDate (completedAt attempt) = Some completed /\
          quizAttempts pw'
          = <[key :=
                mkQuizAttempt (quizId attempt) (attempt_userId attempt)
                  (answers attempt) (score attempt)
                  (totalQuestions attempt) completed (timeSpent attempt)]>
              (quizAttempts pw)
    | Throw _ =>
        quizAttempts pw' = quizAttempts pw /\
        learningProgress pw' = learningProgress pw
    end /\
    (hd false (faults (rest pw)) = false ->
     is_Some (Timestamp_fromDate (completedAt attempt)) ->
     exists key, r = Ok key).
Proof.
  unfold saveQuizAttempt, P_try_catch. unfold P_bind at 1.
  rewrite fromDate_run.
  destruct (Timestamp_fromDate (completedAt attempt)) as [ts|] eqn:Ets.
  - unfold P_bind at 1. rewrite addDoc_quizAttempts_run.
    cbn [rest quizAttempts learningProgress].
    destruct (hd false (faults (rest pw))) eqn:Ef.
    + unfold P_bind.
      match goal with
      | |- context [lift (console_error ?m) ?w] =>
          destruct (console_error_run m w)
            as (pw' & E & Hlp & Hqa & Hrs & Hsc & Hco)
      end.
      rewrite E. unfold P_throw. eexists _, pw'. split; [reflexivity|].
      split; [exact Hrs|]. split; [exact Hsc|].
      split; [split; [exact Hqa|exact Hlp]|]. discriminate.
    + unfold P_bind at 1.
      match goal with
      | |- context [updateLearningProgressAfterQuiz attempt ?w] =>
          destruct (updateLearningProgressAfterQuiz_cases attempt w)
            as (pw' & E & Hqa & Hrs & Hsc & _)
      end.
      rewrite E. unfold P_ret. eexists _, pw'. split; [reflexivity|].
      split; [exact Hrs|]. split; [exact Hsc|]. split.
      * split; [apply not_elem_of_dom, is_fresh|].
        exists ts. split; [reflexivity|]. exact Hqa.
      * eauto.
  - unfold P_bind.
    match goal with
    | |- context [lift (console_error ?m) ?w] =>
        destruct (console_error_run m w)
          as (pw' & E & Hlp & Hqa & Hrs & Hsc & Hco)
    end.
    rewrite E. unfold P_throw. eexists _, pw'. split; [reflexivity|].
    split; [exact Hrs|]. split; [exact Hsc|].
    split; [split; [exact Hqa|exact Hlp]|].
    intros _ [x Hx]. discriminate.
Qed.

(** X30: when [updateLearningProgressAfterQuiz] has logged nothing, the
    progress of the user counts one quiz more, its average score is the
    rounded mean of all the quizzes, its study time has grown by the
    rounded minutes of the attempt, its streak is the one before, that one
    plus one, or one, and it has a last study date; its topics and its
    lists of weak and strong topics are as they were. *)
Theorem progress_after_quiz attempt pw r pw' (d : StoredProgress) :
  learningProgress pw !! attempt_userId attempt = Some d ->
  updateLearningProgressAfterQuiz attempt pw = (r, pw') ->
  console (rest pw') = console (rest pw) ->
  exists p',
    learningProgress pw' !! attempt_userId attempt = Some p' /\
    totalQuizzesTaken p' = add (totalQuizzesTaken d) n1 /\
    averageScore p'
    = Math_round
        (div
           (add (mul (averageScore d) (totalQuizzesTaken d))
              (mul (div (score attempt) (totalQuestions attempt)) n100))
           (add (totalQuizzesTaken d) n1)) /\
    studyTimeTotal p'
    = add (studyTimeTotal d) (Math_round (div (timeSpent attempt) n60)) /\
    (streakDays p' = streakDays d \/
     streakDays p' = add (streakDays d) n1 \/
     streakDays p' = n1) /\
    is_Some (lastStudyDate p') /\
    lp_userId p' = lp_userId d /\
    lp_topics p' = lp_topics d /\
    weakTopics p' = weakTopics d /\
    strongTopics p' = strongTopics d.
Proof.
  intros Hd Hrun Hquiet.
  destruct (updateLearningProgressAfterQuiz_cases attempt pw)
    as (pw1 & E & _ & _ & _ & _ & Hcases).
  rewrite Hrun in E. injection E as -> <-.
  destruct Hcases
    as [(msg & msgs & Hco)
       |(_ & d0 & newStreak & today & Hd0 & Hstreak & Hlp)].
  { rewrite Hco in Hquiet. destruct (console_grew _ _ _ (eq_sym Hquiet)). }
  assert (d0 = d) as ->.
  { destruct Hd0 as [Hd0|[Hd0 _]]; congruence. }
  eexists. split; [rewrite Hlp; apply lookup_insert_eq|].
  cbn. repeat (split; [reflexivity|]).
  split; [exact Hstreak|]. split; [eauto|]. repeat split.
Qed.

Lemma progress_after_quiz_witness :
  exists p',
    learningProgress
      (snd (updateLearningProgressAfterQuiz sample_attempt next_day_world))
    !! "u1" = Some p' /\
    totalQuizzesTaken p' = add (ofZ 2) n1 /\
    averageScore p'
    = Math_round
        (div (add (mul n60 (ofZ 2)) (mul (div n3 (ofZ 4)) n100))
           (add (ofZ 2) n1)) /\
    studyTimeTotal p' = add n10 (Math_round (div (ofZ 300) n60)) /\
    (streakDays p' = n1 \/
     streakDays p' = add n1 n1 \/
     streakDays p' = n1) /\
    is_Some (lastStudyDate p') /\
    lp_userId p' = "u1" /\
    lp_topics p'
    = Some
        [mkTopicProgress "Sorting" "General" (ofZ 80) n1 (ofZ 80)
           (Some 1699395200000) [];
         mkTopicProgress "Graphs" "General" (ofZ 40) n1 (ofZ 40)
           (Some 1699395200000) []] /\
    weakTopics p' = ["Graphs"] /\
    strongTopics p' = ["Sorting"].
Proof.
  apply (progress_after_quiz sample_attempt next_day_world (Ok tt) _
           (mkLearningProgress "u1"
              (Some
                 [mkTopicProgress "Sorting" "General" (ofZ 80) n1 (ofZ 80)
                    (Some 1699395200000) [];
                  mkTopicProgress "Graphs" "General" (ofZ 40) n1 (ofZ 40)
                    (Some 1699395200000) []])
              (ofZ 2) n60 n1 (Some 1699395200000) n10 ["Graphs"]
              ["Sorting"])).
  - reflexivity.
  - vm_compute. reflexivity.
  - vm_compute. reflexivity.
Defined.
